(** * The gradient image optimizer ("dream loop") of optimization_tutorial.ipynb

    The notebook cell that defines [random_shift], [default_grad_fn] and
    [dream], the pre-processing pipeline [img_transform] it calls, and the
    objective functions [my_grad_fn] and [my_grad_fn2], embedded as
    functions over IEEE binary32 values (torch.float32) and nested lists
    (channels x rows x columns).

    The pretrained network, automatic differentiation, the image
    resampler and Python's random source are collaborators of the loop:
    they are parameters of the development.

    With them: [CustomResNet.forward] and [upsample] of the same
    notebook, and [train_model] of the transfer-learning notebook, over
    its training and validation phases. *)

From Stdlib Require Import ZArith List Bool Lia Arith PeanoNat.
From Stdlib Require Import Strings.Byte.
From Stdlib Require Import Floats.SpecFloat.
Import ListNotations.

Set Implicit Arguments.

(* ================================================================== *)
(** ** torch.float32 scalars *)
(* ================================================================== *)

Module F32.

Definition prec : Z := 24.
Definition emax : Z := 128.

Definition t : Type := spec_float.

Definition add : t -> t -> t := SFadd prec emax.
Definition sub : t -> t -> t := SFsub prec emax.
Definition mul : t -> t -> t := SFmul prec emax.
Definition div : t -> t -> t := SFdiv prec emax.
Definition opp : t -> t := SFopp.
Definition abs : t -> t := SFabs.

Definition ltb : t -> t -> bool := SFltb.
Definition leb : t -> t -> bool := SFleb.

(** Conversion of a Python int (or a uint8 pixel) to float32. *)
Definition of_Z (z : Z) : t := binary_normalize prec emax z 0 false.

Definition zero : t := S754_zero false.
Definition one : t := S754_finite false 8388608 (-23).

Definition is_nan (x : t) : bool :=
  match x with S754_nan => true | _ => false end.

Definition is_zero (x : t) : bool :=
  match x with S754_zero _ => true | _ => false end.

Definition is_finite (x : t) : bool :=
  match x with S754_zero _ | S754_finite _ _ _ => true | _ => false end.

Definition is_nonzero_finite (x : t) : bool :=
  match x with S754_finite _ _ _ => true | _ => false end.

(** [torch.max(a, b)] on two tensors is the element-wise
    [torch.maximum]: if one of the elements compared is a NaN, the result
    is NaN. *)
Definition maximum (a b : t) : t :=
  if is_nan a || is_nan b then S754_nan
  else if ltb a b then b else a.

(** [torch.min(a, b)], likewise. *)
Definition minimum (a b : t) : t :=
  if is_nan a || is_nan b then S754_nan
  else if ltb b a then b else a.

(** [Tensor.clamp(lo, hi)] on one element. *)
Definition clamp (lo hi x : t) : t := minimum (maximum x lo) hi.

(** [x] lies in the closed interval [lo, hi]. *)
Definition within (lo hi x : t) : bool := leb lo x && leb x hi.

End F32.

(* ================================================================== *)
(** ** Tensors of rank 3 and 2 *)
(* ================================================================== *)

Abbreviation Matrix := (list (list F32.t)).
Abbreviation Tensor := (list (list (list F32.t))).

(** The shape of a tensor, row by row. *)
Definition dims (t : Tensor) : list (list nat) := map (map (@length F32.t)) t.

(** The shape of a full [c x h x w] block. *)
Definition block (c h w : nat) : list (list nat) := repeat (repeat w h) c.

Fixpoint list_eqb {A} (eqb : A -> A -> bool) (l m : list A) : bool :=
  match l, m with
  | [], [] => true
  | x :: l', y :: m' => eqb x y && list_eqb eqb l' m'
  | _, _ => false
  end.

Definition same_dims (a b : Tensor) : bool :=
  list_eqb (list_eqb Nat.eqb) (dims a) (dims b).

(** [t[c, h, w]]. *)
Definition tget (t : Tensor) (c h w : nat) : option F32.t :=
  match nth_error t c with
  | Some ch => match nth_error ch h with
               | Some row => nth_error row w
               | None => None
               end
  | None => None
  end.

Definition tmap (f : F32.t -> F32.t) (t : Tensor) : Tensor :=
  map (map (map f)) t.

Fixpoint zip_with {A B C} (f : A -> B -> C) (l : list A) (m : list B) : list C :=
  match l, m with
  | x :: l', y :: m' => f x y :: zip_with f l' m'
  | _, _ => []
  end.

Definition tzip (f : F32.t -> F32.t -> F32.t) (a b : Tensor) : Tensor :=
  zip_with (zip_with (zip_with f)) a b.

(** Map with the position of each element. *)
Definition imap {A B} (f : nat -> A -> B) (l : list A) : list B :=
  map (fun p => f (fst p) (snd p)) (combine (seq 0 (length l)) l).

Definition flatten (t : Tensor) : list F32.t := concat (concat t).

Definition numel (t : Tensor) : nat := length (flatten t).

Definition tforall (p : F32.t -> bool) (t : Tensor) : bool :=
  forallb (forallb (forallb p)) t.

(** Every element of the tensor satisfies [P]. *)
Definition tall (P : F32.t -> Prop) (t : Tensor) : Prop :=
  Forall (Forall (Forall P)) t.

(** [t.sum()]: the accumulation order of the library's reduction is not
    fixed by its interface; here elements are added in storage order.
    What depends on that order is stated with [update_with] below, where
    the reduction is a parameter. *)
Definition tsum (t : Tensor) : F32.t := fold_left F32.add (flatten t) F32.zero.

(** [t.mean()] is the sum divided by the number of elements (NaN for an
    empty tensor). *)
Definition tmean (t : Tensor) : F32.t :=
  F32.div (tsum t) (F32.of_Z (Z.of_nat (numel t))).

(** [t.permute(1, 2, 0)]: from CxHxW to HxWxC. *)
Definition permute_1_2_0 (t : Tensor) : Tensor :=
  let H := length (hd [] t) in
  let W := length (hd [] (hd [] t)) in
  map (fun h => map (fun w => map (fun ch => nth w (nth h ch []) F32.zero) t)
                    (seq 0 W))
      (seq 0 H).

(** A Python slice [l[a:-b]] with [a >= 0] and [b >= 1]. *)
Definition py_slice {A} (a b : nat) (l : list A) : list A :=
  skipn a (firstn (length l - b) l).

(** [data[:, a:-b, c:-d]]. *)
Definition crop (a b c d : nat) (data : Tensor) : Tensor :=
  map (fun ch => map (py_slice c d) (py_slice a b ch)) data.

(** What automatic differentiation sends back through the slice
    [data[:, a:-b, c:-d]]: a tensor of the shape of [data] that holds the
    gradient [gx] of the cropped view inside the window and zero outside. *)
Definition crop_backward (a b c d : nat) (data gx : Tensor) : Tensor :=
  imap (fun ci ch =>
    imap (fun hi row =>
      imap (fun wi (_ : F32.t) =>
        if (a <=? hi) && (hi <? length ch - b) &&
           (c <=? wi) && (wi <? length row - d)
        then nth (wi - c) (nth (hi - a) (nth ci gx []) []) F32.zero
        else F32.zero) row) ch) data.

(* ================================================================== *)
(** ** Python exceptions, the process-wide state, and the monad of
       the notebook's functions *)
(* ================================================================== *)

Inductive exn : Type :=
| IndexError
| RuntimeError
| ValueError
| ZeroDivisionError.

Inductive result (A : Type) : Type :=
| Ok (a : A)
| Raise (e : exn).

Arguments Ok {A} a.
Arguments Raise {A} e.

Definition rbind {A B} (r : result A) (k : A -> result B) : result B :=
  match r with
  | Ok a => k a
  | Raise e => Raise e
  end.

(** The state a call can touch: Python's global random generator (the
    numbers it will hand out, and how many were consumed), and two ghost
    counters of how often the network and the objective were entered. *)
Record world : Type := World {
  entropy : nat -> nat;
  rng_pos : nat;
  forward_calls : nat;
  objective_calls : nat
}.

Definition M (A : Type) : Type := world -> result A * world.

Definition ret {A} (a : A) : M A := fun w => (Ok a, w).

Definition bind {A B} (c : M A) (k : A -> M B) : M B :=
  fun w => match c w with
           | (Ok a, w') => k a w'
           | (Raise e, w') => (Raise e, w')
           end.

Definition lift {A} (r : result A) : M A := fun w => (r, w).

Declare Scope py_scope.
Delimit Scope py_scope with py.
Notation "x <- c ;; k" := (bind c (fun x => k))
  (at level 61, c at next level, right associativity) : py_scope.
Notation "' pat <- c ;; k" := (bind c (fun x => match x with pat => k end))
  (at level 61, pat pattern, c at next level, right associativity) : py_scope.

(** [random.randint(lo, hi)]: an integer of [lo..hi], both ends included. *)
Definition randint (lo hi : nat) : M nat :=
  fun w =>
    if hi <? lo then (Raise ValueError, w)
    else (Ok (lo + entropy w (rng_pos w) mod (hi - lo + 1)),
          World (entropy w) (S (rng_pos w)) (forward_calls w) (objective_calls w)).

(* ================================================================== *)
(** ** Images and the pre-processing pipeline *)
(* ================================================================== *)

(** A PIL image with 8-bit bands: its size, the number of bands (3 for
    mode RGB) and the value of band [b] at row [y], column [x]. *)
Record PILImage : Type := Image {
  width : nat;
  height : nat;
  bands : nat;
  px : nat -> nat -> nat -> byte
}.

(** [torch.tensor([0.485, 0.456, 0.406], dtype=torch.float32)] and
    [torch.tensor([0.229, 0.224, 0.225], dtype=torch.float32)]. *)
Definition mean : list F32.t :=
  [S754_finite false 16273900 (-25);
   S754_finite false 15300821 (-25);
   S754_finite false 13623099 (-25)].

Definition std : list F32.t :=
  [S754_finite false 15367930 (-26);
   S754_finite false 15032386 (-26);
   S754_finite false 15099494 (-26)].

(** Element-wise binary operation of a CxHxW tensor with a per-channel
    vector [v] of shape (K,1,1), K > 1, under the broadcasting rules: the
    channel counts agree, or the tensor's single channel is repeated. *)
Definition broadcast_channels (k : nat) (data : Tensor) : result Tensor :=
  if length data =? k then Ok data
  else match data with
       | [ch] => Ok (repeat ch k)
       | _ => Raise RuntimeError
       end.

Definition per_channel (f : F32.t -> F32.t -> F32.t)
    (data : Tensor) (v : list F32.t) : result Tensor :=
  rbind (broadcast_channels (length v) data) (fun d =>
  Ok (zip_with (fun ch b => map (map (fun x => f x b)) ch) d v)).

(** [transforms.Normalize(m, s)]: [tensor.sub_(m[:, None, None])
    .div_(s[:, None, None])] on a copy; the in-place operations do not
    broadcast the tensor itself, so the channel counts must agree. *)
Definition Normalize (m s : list F32.t) (t : Tensor) : result Tensor :=
  if length t =? length m
  then Ok (zip_with (fun ch ms =>
             map (map (fun x => F32.div (F32.sub x (fst ms)) (snd ms))) ch)
           t (combine m s))
  else Raise RuntimeError.

Definition normalize : Tensor -> result Tensor := Normalize mean std.

(** [transforms.Normalize((-mean / std).tolist(), (1.0 / std).tolist())] *)
Definition unnormalize : Tensor -> result Tensor :=
  Normalize (zip_with (fun m s => F32.div (F32.opp m) s) mean std)
            (map (fun s => F32.div F32.one s) std).

(** The float32 value [p / 255] of a uint8 pixel value [p]. *)
Definition pixel (p : byte) : F32.t :=
  F32.div (F32.of_Z (Z.of_N (Byte.to_N p))) (F32.of_Z 255).

(** [transforms.ToTensor()]: bands x height x width, each byte divided by
    255 in float32. *)
Definition ToTensor (img : PILImage) : Tensor :=
  map (fun b =>
    map (fun y => map (fun x => pixel (px img b y x)) (seq 0 (width img)))
        (seq 0 (height img)))
    (seq 0 (bands img)).

(** The size [(w, h)] that [transforms.Resize(size)] gives an image of
    size [(w, h)]: the smaller edge becomes [size], the aspect ratio is
    kept. *)
Definition resize_dims (size w h : nat) : result (nat * nat) :=
  if ((w <=? h) && (w =? size)) || ((h <=? w) && (h =? size)) then Ok (w, h)
  else if w <? h then
    if w =? 0 then Raise ZeroDivisionError else Ok (size, size * h / w)
  else
    if h =? 0 then Raise ZeroDivisionError else Ok (size * w / h, size).

Section Notebook.

(** The collaborators.
    - [resample img ow oh] is the content of [img.resize((ow, oh),
      Image.BILINEAR)];
    - [model x] is the forward pass of the frozen network: the list of
      the feature tensors of its stages, or an exception;
    - [backward x k seed] is what [output[k].backward(seed)] leaves in
      the [grad] field of the input [x] of that forward pass, or an
      exception. *)
Variable resample : PILImage -> nat -> nat -> nat -> nat -> nat -> byte.
Variable model : Tensor -> result (list Tensor).
Variable backward : Tensor -> nat -> Tensor -> result Tensor.

(** The global flag of the notebook ([do_random_shifts = True] there). *)
Variable do_random_shifts : bool.

(** [transforms.Resize(size)] with an integer size. *)
Definition Resize (size : nat) (img : PILImage) : result PILImage :=
  let w := width img in
  let h := height img in
  if ((w <=? h) && (w =? size)) || ((h <=? w) && (h =? size)) then Ok img
  else if w <? h then
    if w =? 0 then Raise ZeroDivisionError
    else let oh := size * h / w in
         Ok (Image size oh (bands img) (resample img size oh))
  else
    if h =? 0 then Raise ZeroDivisionError
    else let ow := size * w / h in
         Ok (Image ow size (bands img) (resample img ow size)).

(** [transforms.Compose([transforms.Resize(256), transforms.ToTensor(),
    normalize])] *)
Definition img_transform (img : PILImage) : result Tensor :=
  rbind (Resize 256 img) (fun resized => normalize (ToTensor resized)).

(* ---------------------------------------------------------------- *)
(** *** The cell of [dream] *)

Definition shift : nat := 20.

Definition random_shift (data : Tensor) : M (Tensor * (nat * nat * nat * nat)) :=
  (a <- randint 0 shift ;;
   b <- randint 1 shift ;;
   c <- randint 0 shift ;;
   d <- randint 1 shift ;;
   ret (crop a b c d data, (a, b, c, d)))%py.

(** An objective receives the feature list and makes one [backward]
    call: it yields the stage it calls it on and the gradient it
    injects there. *)
Definition objective : Type := list Tensor -> result (nat * Tensor).

Definition layer : nat := 2.

Definition default_grad_fn : objective :=
  fun output =>
    match nth_error output layer with
    | Some o => Ok (layer, o)
    | None => Raise IndexError
    end.

Definition forward (x : Tensor) : M (list Tensor) :=
  fun w => (model x,
            World (entropy w) (rng_pos w) (S (forward_calls w)) (objective_calls w)).

Definition call (grad_fn : objective) (output : list Tensor) : M (nat * Tensor) :=
  fun w => (grad_fn output,
            World (entropy w) (rng_pos w) (forward_calls w) (S (objective_calls w))).

(** [data.grad] after [output = model(x); grad_fn(output)], where [x] is
    [data] or a random crop of it. *)
Definition image_grad (grad_fn : objective) (data : Tensor) : M Tensor :=
  (if do_random_shifts then
     '(x, (a, b, c, d)) <- random_shift data ;;
     output <- forward x ;;
     '(k, seed) <- call grad_fn output ;;
     gx <- lift (backward x k seed) ;;
     ret (crop_backward a b c d data gx)
   else
     output <- forward data ;;
     '(k, seed) <- call grad_fn output ;;
     lift (backward data k seed))%py.

Definition clamp_min : list F32.t :=
  zip_with (fun m s => F32.div (F32.opp m) s) mean std.

Definition clamp_max : list F32.t :=
  zip_with (fun m s => F32.div (F32.sub F32.one m) s) mean std.

Definition grad_mean (grad : Tensor) : F32.t := tmean (tmap F32.abs grad).

(** [data += delta]: the gradient of a tensor has the shape of the
    tensor; any other shape is reported as the library's shape error. *)
Definition iadd (data delta : Tensor) : result Tensor :=
  if same_dims data delta then Ok (tzip F32.add data delta)
  else Raise RuntimeError.

(** The update of one iteration, given [data.grad]:
    [grad_mean = data.grad.abs().mean()],
    [data += data.grad * learning_rate / grad_mean],
    [data = torch.max(data, clamp_min)], [data = torch.min(data, clamp_max)]. *)
Definition update (learning_rate : F32.t) (data grad : Tensor) : result Tensor :=
  let gm := grad_mean grad in
  rbind (iadd data (tmap (fun g => F32.div (F32.mul g learning_rate) gm) grad))
    (fun data1 =>
  rbind (per_channel F32.maximum data1 clamp_min) (fun data2 =>
  per_channel F32.minimum data2 clamp_max)).

(** The body of the loop. *)
Definition dream_iter (grad_fn : objective) (learning_rate : F32.t)
    (data : Tensor) : M Tensor :=
  (grad <- image_grad grad_fn data ;;
   lift (update learning_rate data grad))%py.

Fixpoint dream_loop (n : nat) (grad_fn : objective) (learning_rate : F32.t)
    (data : Tensor) : M Tensor :=
  match n with
  | O => ret data
  | S n' => (data' <- dream_iter grad_fn learning_rate data ;;
             dream_loop n' grad_fn learning_rate data')%py
  end.

(** [unnormalize(data.to('cpu')).clamp(0, 1).permute(1, 2, 0)] *)
Definition to_display (data : Tensor) : result Tensor :=
  rbind (unnormalize data) (fun u =>
  Ok (permute_1_2_0 (tmap (F32.clamp F32.zero F32.one) u))).

(** [dream(img, n_iter, grad_fn, learning_rate)]; [range(n_iter)] is
    empty for a negative [n_iter]. *)
Definition dream (img : PILImage) (n_iter : Z) (grad_fn : objective)
    (learning_rate : F32.t) : M Tensor :=
  (processed_image <- lift (img_transform img) ;;
   data <- dream_loop (Z.to_nat n_iter) grad_fn learning_rate processed_image ;;
   lift (to_display data))%py.

(* ---------------------------------------------------------------- *)
(** *** The body of the loop, for any reduction of the library *)

(** The order in which [Tensor.mean()] adds the elements up is the
    library's choice (it depends on the device and on the size of the
    tensor), and float32 addition is not associative.  Here the reduction
    is a parameter: [tensor_mean t] stands for [t.mean()].  The update
    is, line by line,
    [grad_mean = data.grad.abs().mean()],
    [data += data.grad * learning_rate / grad_mean],
    [data = torch.max(data, clamp_min)], [data = torch.min(data, clamp_max)].
    [update] and [dream_iter] above are the instances at [tmean], which
    adds in storage order. *)
Definition update_with (tensor_mean : Tensor -> F32.t)
    (learning_rate : F32.t) (data grad : Tensor) : result Tensor :=
  let gm := tensor_mean (tmap F32.abs grad) in
  rbind (iadd data (tmap (fun g => F32.div (F32.mul g learning_rate) gm) grad))
    (fun data1 =>
  rbind (per_channel F32.maximum data1 clamp_min) (fun data2 =>
  per_channel F32.minimum data2 clamp_max)).

Definition dream_iter_with (tensor_mean : Tensor -> F32.t)
    (grad_fn : objective) (learning_rate : F32.t) (data : Tensor) : M Tensor :=
  (grad <- image_grad grad_fn data ;;
   lift (update_with tensor_mean learning_rate data grad))%py.

(* ---------------------------------------------------------------- *)
(** *** The guided objective *)

(** The feature list of the guide image, computed once by the cell. *)
Variable guide : list Tensor.

(** [o.view(o.shape[0], -1)] *)
Definition view2 (o : Tensor) : result Matrix :=
  match o with
  | [] => Raise RuntimeError
  | _ => Ok (map (@concat F32.t) o)
  end.

Definition column (m : Matrix) (j : nat) : list F32.t :=
  map (fun row => nth j row F32.zero) m.

Definition dot (u v : list F32.t) : F32.t :=
  fold_left F32.add (zip_with F32.mul u v) F32.zero.

Definition ncols (m : Matrix) : nat := length (hd [] m).

(** The dot product of the feature vectors at location i of [o] and at
    location j of [g]. *)
Definition similarity (o g : Matrix) (i j : nat) : F32.t :=
  dot (column o i) (column g j).

(** [torch.matmul(o.t(), g)]: entry (i, j) is the similarity of location
    i of [o] and location j of [g]. *)
Definition matmul_t (o g : Matrix) : result Matrix :=
  if length o =? length g
  then Ok (map (fun i => map (fun j => similarity o g i j) (seq 0 (ncols g)))
               (seq 0 (ncols o)))
  else Raise RuntimeError.

(** The scan of [argmax] over one row: the running best is replaced by
    an element that is not below or equal to it; a NaN ends the scan. *)
Fixpoint argmax_from (bi : nat) (bv : F32.t) (i : nat) (l : list F32.t) : nat :=
  match l with
  | [] => bi
  | x :: l' =>
      if F32.is_nan bv then bi
      else if F32.leb x bv then argmax_from bi bv (S i) l'
      else argmax_from i x (S i) l'
  end.

Definition argmax (l : list F32.t) : result nat :=
  match l with
  | [] => Raise IndexError
  | x :: l' => Ok (argmax_from 0 x 1 l')
  end.

Fixpoint argmax1 (r : Matrix) : result (list nat) :=
  match r with
  | [] => Ok []
  | row :: r' =>
      rbind (argmax row) (fun j =>
      rbind (argmax1 r') (fun js => Ok (j :: js)))
  end.

(** [r.argmax(1)] for a matrix [r] of [m] columns: one index per row; a
    reduction over no column is an error. *)
Definition argmax_rows (m : nat) (r : Matrix) : result (list nat) :=
  if m =? 0 then Raise IndexError else argmax1 r.

(** [g[:, idx]] *)
Definition take_columns (g : Matrix) (idx : list nat) : Matrix :=
  map (fun row => map (fun j => nth j row F32.zero) idx) g.

Fixpoint chunk {A} (h w : nat) (l : list A) : list (list A) :=
  match h with
  | O => []
  | S h' => firstn w l :: chunk h' w (skipn w l)
  end.

(** [r.view(shape)] for the shape of the tensor [o]. *)
Definition view_as (o : Tensor) (r : Matrix) : Tensor :=
  map (chunk (length (hd [] o)) (length (hd [] (hd [] o)))) r.

(** The indices [r.argmax(1)] that [my_grad_fn] computes. *)
Definition best_match (output : list Tensor) : result (list nat) :=
  match nth_error output 2, nth_error guide 2 with
  | Some o, Some g =>
      rbind (view2 o) (fun o2 =>
      rbind (view2 g) (fun g2 =>
      rbind (matmul_t o2 g2) (argmax_rows (ncols g2))))
  | _, _ => Raise IndexError
  end.

Definition my_grad_fn : objective :=
  fun output =>
    match nth_error output 2, nth_error guide 2 with
    | Some o, Some g =>
        rbind (view2 o) (fun o2 =>
        rbind (view2 g) (fun g2 =>
        rbind (matmul_t o2 g2) (fun r =>
        rbind (argmax_rows (ncols g2) r) (fun idx =>
        Ok (2, view_as o (take_columns g2 idx))))))
    | _, _ => Raise IndexError
    end.

(* ---------------------------------------------------------------- *)
(** *** The class-emphasis objective *)

(** [grad_]: zeros of shape 1000 x 1 x 1, with ones at the classes 153
    and 281. *)
Definition class_seed : Tensor :=
  map (fun i => [[if (i =? 153) || (i =? 281) then F32.one else F32.zero]])
      (seq 0 1000).

(** [output[4].backward(grad_)]: the fifth stage must be there, and
    [backward] takes a gradient of the shape of the tensor only (a
    mismatch in shape is the library's RuntimeError). *)
Definition my_grad_fn2 : objective :=
  fun output =>
    let grad_ := class_seed in
    match nth_error output 4 with
    | Some o => if same_dims o grad_ then Ok (4, grad_) else Raise RuntimeError
    | None => Raise IndexError
    end.

(** The gradients of an objective on the image [d] are numbers whose mean
    magnitude is a nonzero number. *)
Definition regular_gradients (grad_fn : objective) (d : Tensor) : Prop :=
  forall w, exists g w',
    image_grad grad_fn d w = (Ok g, w') /\
    dims g = dims d /\
    tforall F32.is_finite g = true /\
    F32.is_nan (grad_mean g) = false /\
    F32.is_zero (grad_mean g) = false.

End Notebook.

(* ================================================================== *)
(** ** Small collaborators and inputs to run the loop on *)
(* ================================================================== *)

(** The positive float32 [m * 2^e]. *)
Definition f32 (m : positive) (e : Z) : F32.t := S754_finite false m e.

(** Nearest-neighbour resampling. *)
Definition nearest (img : PILImage) (ow oh : nat) : nat -> nat -> nat -> byte :=
  fun b y x => px img b (y * height img / oh) (x * width img / ow).

(** A network whose three stages all return their input, and its
    differentiation: the gradient of the input is the injected one. *)
Definition id_net (x : Tensor) : result (list Tensor) := Ok [x; x; x].

Definition id_backward (x : Tensor) (k : nat) (seed : Tensor) : result Tensor :=
  if same_dims x seed then Ok seed else Raise RuntimeError.

(** A network whose three stages are all-zero activations. *)
Definition zero_net (x : Tensor) : result (list Tensor) :=
  let z := tmap (fun _ => F32.zero) x in Ok [z; z; z].

Definition zero_backward (x : Tensor) (k : nat) (seed : Tensor) : result Tensor :=
  Ok (tmap (fun _ => F32.zero) x).

(** The largest float32, and a differentiation that reports it as the
    gradient of every element of the input. *)
Definition huge : F32.t := f32 16777215 104.

Definition steep_backward (x : Tensor) (k : nat) (seed : Tensor) : result Tensor :=
  Ok (tmap (fun _ => huge) x).

(** A network that raises, and a network of two stages only. *)
Definition raising_net (e : exn) (x : Tensor) : result (list Tensor) := Raise e.

Definition short_net (x : Tensor) : result (list Tensor) := Ok [x; x].

(** A module that hands its input on. *)
Definition id_module {A} (x : A) : result A := Ok x.

(** A uniformly gray RGB image. *)
Definition gray (w h : nat) : PILImage := Image w h 3 (fun _ _ _ => x80).

(** A random source that always hands out [k], nothing consumed yet. *)
Definition world0 (k : nat) : world := World (fun _ => k) 0 0 0.

(** A feature list whose third stage has one channel and two locations,
    with the activations 1 and 2. *)
Definition two : F32.t := f32 8388608 (-22).

Definition feat : list Tensor :=
  [[[[F32.one; two]]]; [[[F32.one; two]]]; [[[F32.one; two]]]].

(** Two channels and two locations, with the feature vectors (1, 0) and
    (0, 1). *)
Definition feat_unit : list Tensor :=
  [[]; []; [[[F32.one; F32.zero]]; [[F32.zero; F32.one]]]].

(** A 3x2x2 working image and the learning rate 0.02. *)
Definition small : Tensor :=
  [[[f32 8388608 (-23); f32 8388608 (-22)]; [f32 8388608 (-24); F32.zero]];
   [[f32 8388608 (-23); F32.zero]; [f32 8388608 (-23); f32 8388608 (-24)]];
   [[F32.opp F32.one; f32 8388608 (-21)]; [F32.zero; f32 8388608 (-23)]]].

Definition lr_default : F32.t := f32 10737418 (-29).

(** A 3x1x2 working image with one NaN element. *)
Definition with_nan : Tensor :=
  [[[S754_nan; F32.one]]; [[F32.one; F32.one]]; [[F32.one; F32.one]]].

(* ================================================================== *)
(** ** The pre-processed image, element by element *)
(* ================================================================== *)

(** Channel [c] of the pre-processed image at a pixel of value [p]. *)
Definition normalized (c : nat) (p : byte) : F32.t :=
  F32.div (F32.sub (pixel p) (nth c mean F32.zero)) (nth c std F32.zero).

(** What the display transform makes of the value [v] of channel [c]. *)
Definition displayed (c : nat) (v : F32.t) : F32.t :=
  F32.clamp F32.zero F32.one
    (F32.div (F32.sub v (nth c clamp_min F32.zero))
             (nth c (map (fun s => F32.div F32.one s) std) F32.zero)).

(** The elements of each of the three channels satisfy [P c]. *)
Definition chan3 (P : nat -> F32.t -> Prop) (t : Tensor) : Prop :=
  match t with
  | [a; b; c] =>
      Forall (Forall (P 0)) a /\ Forall (Forall (P 1)) b /\
      Forall (Forall (P 2)) c
  | _ => False
  end.

(** A pre-processed pixel is a nonzero number inside the clamp bounds of
    its channel, and is displayed as a number of [0, 1]. *)
Definition pixel_check (c : nat) (p : byte) : bool :=
  let v := normalized c p in
  F32.is_nonzero_finite v &&
  negb (F32.ltb v (nth c clamp_min F32.zero)) &&
  negb (F32.ltb (nth c clamp_max F32.zero) v) &&
  F32.within F32.zero F32.one (displayed c v).

(* ================================================================== *)
(** ** The adapted network: [CustomResNet.forward] *)
(* ================================================================== *)

(** The argument of the network: an image (3 dimensions) or a batch of
    images (4 dimensions). *)
Inductive net_input : Type :=
| Image3 (x : Tensor)
| Batch4 (x : list Tensor).

(** [[r[0] for r in result]] *)
Fixpoint first_of_each (l : list (list Tensor)) : result (list Tensor) :=
  match l with
  | [] => Ok []
  | r :: l' =>
      match r with
      | [] => Raise IndexError
      | r0 :: _ => rbind (first_of_each l') (fun rest => Ok (r0 :: rest))
      end
  end.

Section CustomResNet.

(** The modules of the torchvision ResNet, on batches, and the library's
    pooling; [fc] maps a batch of flat feature vectors to a batch of score
    vectors. *)
Variable conv1 : list Tensor -> result (list Tensor).
Variable bn1 : list Tensor -> result (list Tensor).
Variable relu : list Tensor -> result (list Tensor).
Variable maxpool : list Tensor -> result (list Tensor).
Variable layer1 : list Tensor -> result (list Tensor).
Variable layer2 : list Tensor -> result (list Tensor).
Variable layer3 : list Tensor -> result (list Tensor).
Variable layer4 : list Tensor -> result (list Tensor).
Variable adaptive_avg_pool2d : list Tensor -> result (list Tensor).
Variable fc : Matrix -> result Matrix.

(** [x.view(x.size(0), -1)] on a batch. *)
Definition flat_batch (x : list Tensor) : result Matrix :=
  match x with
  | [] => Raise RuntimeError
  | _ => Ok (map flatten x)
  end.

(** [y.view(x.size(0), -1, 1, 1)] on a batch of score vectors. *)
Definition scores_batch (y : Matrix) : result (list Tensor) :=
  match y with
  | [] => Raise RuntimeError
  | _ => Ok (map (map (fun v => [[v]])) y)
  end.

Definition CustomResNet_forward (x : net_input) : result (list Tensor) :=
  let x := match x with Image3 t => [t] | Batch4 b => b end in
  rbind (conv1 x) (fun x =>
  rbind (bn1 x) (fun x =>
  rbind (relu x) (fun x =>
  rbind (maxpool x) (fun x =>
  rbind (layer1 x) (fun x1 =>
  rbind (layer2 x1) (fun x2 =>
  rbind (layer3 x2) (fun x3 =>
  rbind (layer4 x3) (fun x4 =>
  rbind (adaptive_avg_pool2d x4) (fun x =>
  rbind (flat_batch x) (fun x =>
  rbind (fc x) (fun y =>
  rbind (scores_batch y) (fun x5 =>
  first_of_each [x1; x2; x3; x4; x5])))))))))))).

End CustomResNet.

(* ================================================================== *)
(** ** [upsample] on an array *)
(* ================================================================== *)

(** [a.min()] and [a.max()] of numpy: an empty array is an error, a NaN
    element gives NaN. *)
Definition amin (l : list F32.t) : result F32.t :=
  match l with
  | [] => Raise ValueError
  | x :: l' => Ok (fold_left F32.minimum l' x)
  end.

Definition amax (l : list F32.t) : result F32.t :=
  match l with
  | [] => Raise ValueError
  | x :: l' => Ok (fold_left F32.maximum l' x)
  end.

(** [(image - image.min()) / (image.max() - image.min())] on a float32
    array of two dimensions. *)
Definition rescale (image : Matrix) : result Matrix :=
  rbind (amin (concat image)) (fun lo =>
  rbind (amax (concat image)) (fun hi =>
  Ok (map (map (fun x => F32.div (F32.sub x lo) (F32.sub hi lo))) image))).

Section Upsample.

(** [np.array(Image.fromarray(a).resize(size, resample=Image.BICUBIC))] *)
Variable bicubic : Matrix -> nat * nat -> Matrix.

(** [upsample(image, size)] for a tensor or an array (an activation
    map). *)
Definition upsample (image : Matrix) (size : nat * nat) : result Matrix :=
  rbind (rescale image) (fun image => Ok (bicubic image size)).

End Upsample.

(* ================================================================== *)
(** ** [train_model] of the transfer-learning notebook *)
(* ================================================================== *)

(** Python floats (IEEE binary64). *)
Module F64.

Definition prec : Z := 53.
Definition emax : Z := 1024.

Definition div : spec_float -> spec_float -> spec_float := SFdiv prec emax.

(** Conversion of a Python int to float. *)
Definition of_Z (z : Z) : spec_float := binary_normalize prec emax z 0 false.

End F64.

(** [a / n] for a Python float [a] and the length [n] of a dataset:
    division by zero is an exception in Python, also for floats. *)
Definition py_truediv (a : spec_float) (n : nat) : result spec_float :=
  if n =? 0 then Raise ZeroDivisionError
  else Ok (F64.div a (F64.of_Z (Z.of_nat n))).

Section TrainModel.

(** The state that the phases work on ([model.state_dict()], with what
    the optimizer and the scheduler keep), and the collaborators:
    - [train_size] and [val_size] are [dataset_sizes['train']] and
      [dataset_sizes['val']];
    - [train_phase epoch w] is the loop over [dataloaders['train']] in
      that epoch: the state it leaves, with [running_loss] and
      [running_corrects], or the exception of the model, the criterion or
      the optimizer;
    - [val_phase epoch w] is the loop over [dataloaders['val']], which
      changes no weight: [running_loss] and [running_corrects], or an
      exception. *)
Variable weights : Type.
Variable train_size : nat.
Variable val_size : nat.
Variable train_phase : nat -> weights -> result (weights * (spec_float * spec_float)).
Variable val_phase : nat -> weights -> result (spec_float * spec_float).

Record fit : Type := Fit {
  model_wts : weights;
  best_acc : spec_float;
  best_model_wts : weights
}.

(** The training phase of an epoch, with
    [epoch_loss = running_loss / dataset_sizes[phase]] and
    [epoch_acc = running_corrects / dataset_sizes[phase]]. *)
Definition train_epoch (epoch : nat) (w : weights) : result weights :=
  rbind (train_phase epoch w) (fun r =>
  rbind (py_truediv (fst (snd r)) train_size) (fun epoch_loss =>
  rbind (py_truediv (snd (snd r)) train_size) (fun epoch_acc =>
  Ok (fst r)))).

(** The validation phase of an epoch: its [epoch_acc]. *)
Definition val_epoch (epoch : nat) (w : weights) : result spec_float :=
  rbind (val_phase epoch w) (fun r =>
  rbind (py_truediv (fst r) val_size) (fun epoch_loss =>
  py_truediv (snd r) val_size)).

(** One epoch: the training phase, then the validation phase with
    [if phase == 'val' and epoch_acc > best_acc]. *)
Definition epoch_step (epoch : nat) (s : fit) : result fit :=
  rbind (train_epoch epoch (model_wts s)) (fun w =>
  rbind (val_epoch epoch w) (fun epoch_acc =>
  Ok (if SFltb (best_acc s) epoch_acc
      then Fit w epoch_acc w
      else Fit w (best_acc s) (best_model_wts s)))).

(** The epochs [first, first + count). *)
Fixpoint run_epochs (first count : nat) (s : fit) : result fit :=
  match count with
  | O => Ok s
  | S k => rbind (epoch_step first s) (run_epochs (S first) k)
  end.

(** [best_acc = 0.0] and the loop over [range(num_epochs)]. *)
Definition fit_model (w0 : weights) (num_epochs : Z) : result fit :=
  run_epochs 0 (Z.to_nat num_epochs) (Fit w0 (S754_zero false) w0).

(** [train_model(model, ..., num_epochs)]: the weights loaded into the
    model that is returned, or the exception. *)
Definition train_model (w0 : weights) (num_epochs : Z) : result weights :=
  rbind (fit_model w0 num_epochs) (fun s => Ok (best_model_wts s)).

(** The weights of the model after the training phases of [k] epochs. *)
Fixpoint wts_after (k : nat) (w0 : weights) : result weights :=
  match k with
  | O => Ok w0
  | S j => rbind (wts_after j w0) (train_epoch j)
  end.

(** The validation accuracy that epoch [j] measures. *)
Definition acc_of_epoch (w0 : weights) (j : nat) : result spec_float :=
  rbind (wts_after (S j) w0) (val_epoch j).

End TrainModel.

(** Phases to run [train_model] on: the weights are a counter of the
    training phases, and the validation phase finds as many correct
    predictions as training phases have run. *)
Definition count_train (epoch w : nat) : result (nat * (spec_float * spec_float)) :=
  Ok (S w, (S754_zero false, S754_zero false)).

Definition count_val (epoch w : nat) : result (spec_float * spec_float) :=
  Ok (S754_zero false, F64.of_Z (Z.of_nat w)).

(** The distance between a displayed pixel and the pixel. *)
Definition round_trip_error (c : nat) (p : byte) : F32.t :=
  F32.abs (F32.sub (displayed c (normalized c p)) (pixel p)).

(** The pre-processing of the pixel values: inside the clamp bounds of
    the channel, and displayed within 2^-23 of the pixel. *)
Definition pixel_range_check (c : nat) (p : byte) : bool :=
  F32.within (nth c clamp_min F32.zero) (nth c clamp_max F32.zero)
             (normalized c p) &&
  F32.leb (round_trip_error c p) (f32 8388608 (-46)).

Unset Implicit Arguments.

(* ================================================================== *)
(** ** Facts about float32 comparison, maximum, minimum and clamp *)
(* ================================================================== *)

Module F32Facts.
Import F32.

Lemma compare_refl (x : t) :
  is_nan x = false -> SFcompare x x = Some Eq.
Proof.
  destruct x as [s|s| |s m e]; simpl; try discriminate; intros _.
  - reflexivity.
  - destruct s; reflexivity.
  - change (Pos.compare_cont Eq) with Pos.compare.
    destruct s; rewrite Z.compare_refl, Pos.compare_refl; reflexivity.
Qed.

Lemma compare_antisym (x y : t) :
  SFcompare y x = option_map CompOpp (SFcompare x y).
Proof.
  destruct x as [s|s| |s m e], y as [s'|s'| |s' m' e']; simpl;
    try reflexivity;
    try (destruct s; reflexivity);
    try (destruct s'; reflexivity);
    try (destruct s, s'; reflexivity).
  change (Pos.compare_cont Eq) with Pos.compare.
  destruct s, s'; simpl; try reflexivity;
    rewrite (Z.compare_antisym e e'), (Pos.compare_antisym m m');
    destruct (e ?= e')%Z; simpl; try reflexivity;
    destruct (m ?= m')%positive; reflexivity.
Qed.

Lemma compare_some (x y : t) :
  is_nan x = false -> is_nan y = false -> exists c, SFcompare x y = Some c.
Proof.
  destruct x, y; simpl; try discriminate; intros _ _; eexists; reflexivity.
Qed.

Lemma leb_refl (x : t) : is_nan x = false -> leb x x = true.
Proof.
  intros H. unfold leb, SFleb. rewrite (compare_refl _ H). reflexivity.
Qed.

(** On numbers the order is total. *)
Lemma ltb_false_leb (x y : t) :
  is_nan x = false -> is_nan y = false -> ltb x y = false -> leb y x = true.
Proof.
  intros Hx Hy. unfold ltb, leb, SFltb, SFleb.
  rewrite (compare_antisym x y).
  destruct (compare_some _ _ Hx Hy) as [c ->].
  destruct c; simpl; congruence.
Qed.

Lemma leb_ltb_false (x y : t) : leb x y = true -> ltb y x = false.
Proof.
  unfold ltb, leb, SFltb, SFleb. rewrite (compare_antisym x y).
  destruct (SFcompare x y) as [[ | | ]|]; simpl; congruence.
Qed.

Lemma ltb_leb (x y : t) : ltb x y = true -> leb x y = true.
Proof.
  unfold ltb, leb, SFltb, SFleb.
  destruct (SFcompare x y) as [[ | | ]|]; simpl; congruence.
Qed.

Lemma leb_not_nan (x y : t) :
  leb x y = true -> is_nan x = false /\ is_nan y = false.
Proof.
  destruct x, y; simpl; try discriminate; auto.
Qed.

(** A number clamped to a proper interval lies in it. *)
Lemma clamp_within (lo hi x : t) :
  leb lo hi = true -> is_nan x = false ->
  within lo hi (clamp lo hi x) = true.
Proof.
  intros Hlh Hx.
  destruct (leb_not_nan _ _ Hlh) as [Hlo Hhi].
  unfold clamp, maximum. rewrite Hx, Hlo. simpl.
  destruct (ltb x lo) eqn:Hxl; unfold minimum.
  - rewrite Hlo, Hhi. simpl. rewrite (leb_ltb_false _ _ Hlh).
    unfold within. rewrite (leb_refl _ Hlo), Hlh. reflexivity.
  - rewrite Hx, Hhi. simpl. destruct (ltb hi x) eqn:Hhx; unfold within.
    + rewrite Hlh, (leb_refl _ Hhi). reflexivity.
    + rewrite (ltb_false_leb _ _ Hx Hlo Hxl), (ltb_false_leb _ _ Hhi Hx Hhx).
      reflexivity.
Qed.

(** Every clamped value is NaN or lies in the interval. *)
Lemma clamp_nan_or_within (lo hi x : t) :
  leb lo hi = true ->
  is_nan (clamp lo hi x) = true \/ within lo hi (clamp lo hi x) = true.
Proof.
  intros Hlh. destruct (is_nan x) eqn:Hx.
  - left. destruct x; try discriminate. reflexivity.
  - right. apply clamp_within; assumption.
Qed.

Lemma leb_trans (a b c : t) :
  leb a b = true -> leb b c = true -> leb a c = true.
Proof.
  unfold leb, SFleb, SFcompare.
  change (Pos.compare_cont Eq) with Pos.compare.
  destruct a as [[]|[]| |[] m1 e1], b as [[]|[]| |[] m2 e2],
           c as [[]|[]| |[] m3 e3];
    try reflexivity; try discriminate; try (intros _; discriminate);
    (destruct (Z.compare_spec e1 e2); try discriminate;
     destruct (Z.compare_spec e2 e3); try discriminate;
     destruct (Z.compare_spec e1 e3); try reflexivity; try lia;
     subst;
     destruct (Pos.compare_spec m1 m2); try discriminate;
     destruct (Pos.compare_spec m2 m3); try discriminate;
     destruct (Pos.compare_spec m1 m3); try reflexivity; try lia).
Qed.

End F32Facts.

Arguments Nat.modulo : simpl never.
Arguments Nat.div : simpl never.
Arguments F32.add : simpl never.
Arguments F32.sub : simpl never.
Arguments F32.mul : simpl never.
Arguments F32.div : simpl never.
Arguments F32.of_Z : simpl never.
Arguments F32.maximum : simpl never.
Arguments F32.minimum : simpl never.
Arguments F32.clamp : simpl never.

(* ================================================================== *)
(** ** Shapes *)
(* ================================================================== *)

Section Shapes.

Lemma length_zip_with {A B C} (f : A -> B -> C) (l : list A) (m : list B) :
  length l = length m -> length (zip_with f l m) = length l.
Proof.
  revert m; induction l as [|x l IH]; intros [|y m]; simpl; intros H;
    try discriminate; auto.
Qed.

Lemma map_combine_seq {A B} (g : nat -> A -> B) (h : A -> B) (l : list A) :
  (forall i x, g i x = h x) ->
  forall k, map (fun p => g (fst p) (snd p)) (combine (seq k (length l)) l)
            = map h l.
Proof.
  intros Hgh. induction l as [|x l IH]; intros k; simpl; [reflexivity|].
  rewrite Hgh, IH. reflexivity.
Qed.

Lemma map_imap {A B C} (g : B -> C) (f : nat -> A -> B) (h : A -> C) l :
  (forall i x, g (f i x) = h x) -> map g (imap f l) = map h l.
Proof.
  intros H. unfold imap. rewrite map_map.
  apply (map_combine_seq (fun i x => g (f i x)) h l H).
Qed.

Lemma length_imap {A B} (f : nat -> A -> B) l : length (imap f l) = length l.
Proof.
  unfold imap. rewrite length_map, length_combine, length_seq.
  apply Nat.min_id.
Qed.

Lemma list_eqb_eq {A} (eqb : A -> A -> bool) :
  (forall x y, eqb x y = true <-> x = y) ->
  forall l m, list_eqb eqb l m = true <-> l = m.
Proof.
  intros Heqb. induction l as [|x l IH]; intros [|y m]; simpl.
  - tauto.
  - split; discriminate.
  - split; discriminate.
  - rewrite andb_true_iff, Heqb, IH. split.
    + intros [-> ->]; reflexivity.
    + intros E; injection E; auto.
Qed.

Lemma same_dims_eq (a b : Tensor) : same_dims a b = true <-> dims a = dims b.
Proof.
  unfold same_dims. apply list_eqb_eq. apply list_eqb_eq. apply Nat.eqb_eq.
Qed.

Lemma same_dims_refl (a : Tensor) : same_dims a a = true.
Proof. apply same_dims_eq. reflexivity. Qed.

Lemma dims_length (a b : Tensor) : dims a = dims b -> length a = length b.
Proof.
  intros H. apply (f_equal (@length _)) in H. unfold dims in H.
  rewrite !length_map in H. exact H.
Qed.

Lemma dims_tmap f (t : Tensor) : dims (tmap f t) = dims t.
Proof.
  unfold dims, tmap. rewrite map_map. apply map_ext. intros ch.
  rewrite map_map. apply map_ext. intros row. apply length_map.
Qed.

Lemma same_dims_tmap f (t : Tensor) : same_dims t (tmap f t) = true.
Proof. apply same_dims_eq. symmetry. apply dims_tmap. Qed.

Lemma map_length_zip_with (f : F32.t -> F32.t -> F32.t) (a b : Matrix) :
  map (@length _) a = map (@length _) b ->
  map (@length _) (zip_with (zip_with f) a b) = map (@length _) a.
Proof.
  revert b; induction a as [|r a IH]; intros [|r' b]; simpl; intros H;
    try discriminate; [reflexivity|].
  injection H as Hr Hab. rewrite (IH _ Hab), length_zip_with by exact Hr.
  reflexivity.
Qed.

Lemma dims_tzip f (a b : Tensor) :
  dims a = dims b -> dims (tzip f a b) = dims a.
Proof.
  unfold dims, tzip. revert b; induction a as [|ch a IH]; intros [|ch' b];
    simpl; intros H; try discriminate; [reflexivity|].
  injection H as Hc Hab. rewrite (IH _ Hab), map_length_zip_with by exact Hc.
  reflexivity.
Qed.

Lemma dims_crop_backward a b c d (data gx : Tensor) :
  dims (crop_backward a b c d data gx) = dims data.
Proof.
  unfold dims, crop_backward. apply map_imap. intros ci ch.
  apply map_imap. intros hi row. apply length_imap.
Qed.

Lemma length3 {A} (l : list A) :
  length l = 3 -> exists a b c, l = [a; b; c].
Proof.
  destruct l as [|a [|b [|c [|e l]]]]; simpl; try discriminate.
  intros _. exists a, b, c. reflexivity.
Qed.

Lemma dims_block_length c h w (t : Tensor) :
  dims t = block c h w -> length t = c.
Proof.
  intros H. apply (f_equal (@length _)) in H. unfold dims, block in H.
  rewrite length_map, repeat_length in H. exact H.
Qed.

Lemma per_channel3 f (a b c : Matrix) (x y z : F32.t) :
  per_channel f [a; b; c] [x; y; z] =
  Ok [map (map (fun v => f v x)) a;
      map (map (fun v => f v y)) b;
      map (map (fun v => f v z)) c].
Proof. reflexivity. Qed.

Lemma Normalize3 (a b c : Matrix) (m0 m1 m2 s0 s1 s2 : F32.t) :
  Normalize [m0; m1; m2] [s0; s1; s2] [a; b; c] =
  Ok [map (map (fun x => F32.div (F32.sub x m0) s0)) a;
      map (map (fun x => F32.div (F32.sub x m1) s1)) b;
      map (map (fun x => F32.div (F32.sub x m2) s2)) c].
Proof. reflexivity. Qed.

Lemma Normalize_length (m s : list F32.t) (t d : Tensor) :
  Normalize m s t = Ok d -> length t = length m.
Proof.
  unfold Normalize. destruct (length t =? length m) eqn:E; [|discriminate].
  intros _. apply Nat.eqb_eq. exact E.
Qed.

Lemma dims_map_map (f : F32.t -> F32.t) (ch : Matrix) :
  map (@length _) (map (map f) ch) = map (@length _) ch.
Proof. rewrite map_map. apply map_ext. intros r. apply length_map. Qed.

Lemma map_const {A B} (f : A -> B) (v : B) (l : list A) :
  (forall x, f x = v) -> map f l = repeat v (length l).
Proof.
  intros H. induction l as [|x l IH]; simpl; [reflexivity|].
  rewrite H, IH. reflexivity.
Qed.

Lemma dims_ToTensor img :
  dims (ToTensor img) = block (bands img) (height img) (width img).
Proof.
  unfold dims, ToTensor, block. rewrite map_map.
  rewrite (map_const _ (repeat (width img) (height img))).
  - rewrite length_seq. reflexivity.
  - intros b. rewrite map_map.
    rewrite (map_const _ (width img)).
    + rewrite length_seq. reflexivity.
    + intros y. rewrite length_map, length_seq. reflexivity.
Qed.

End Shapes.

(* ================================================================== *)
(** ** Element access *)
(* ================================================================== *)

Section Elements.

Lemma nth_error_zip_with {A B C} (f : A -> B -> C) (l : list A) (m : list B) i :
  nth_error (zip_with f l m) i =
  match nth_error l i, nth_error m i with
  | Some a, Some b => Some (f a b)
  | _, _ => None
  end.
Proof.
  revert m i; induction l as [|x l IH]; intros [|y m] [|i]; simpl;
    try reflexivity.
  - destruct (nth_error l i); reflexivity.
  - apply IH.
Qed.

Lemma tget_tmap f (t : Tensor) c h x :
  tget (tmap f t) c h x = option_map f (tget t c h x).
Proof.
  unfold tget, tmap. rewrite nth_error_map.
  destruct (nth_error t c) as [ch|]; simpl; [|reflexivity].
  rewrite nth_error_map.
  destruct (nth_error ch h) as [row|]; simpl; [|reflexivity].
  apply nth_error_map.
Qed.

Lemma tget_tzip f (a b : Tensor) c h x :
  tget (tzip f a b) c h x =
  match tget a c h x, tget b c h x with
  | Some u, Some v => Some (f u v)
  | _, _ => None
  end.
Proof.
  unfold tget, tzip. rewrite nth_error_zip_with.
  destruct (nth_error a c) as [ch|], (nth_error b c) as [ch'|];
    try reflexivity.
  - rewrite nth_error_zip_with.
    destruct (nth_error ch h) as [r|], (nth_error ch' h) as [r'|];
      try reflexivity.
    + apply nth_error_zip_with.
    + destruct (nth_error r x); reflexivity.
  - destruct (nth_error ch h) as [r|]; [|reflexivity].
    destruct (nth_error r x); reflexivity.
Qed.

Lemma nth_error_same_length {A B} (l : list A) (m : list B) i a :
  length l = length m -> nth_error l i = Some a ->
  exists b, nth_error m i = Some b.
Proof.
  intros Hlen Ha.
  assert (Hi : i < length m).
  { rewrite <- Hlen. apply nth_error_Some. congruence. }
  destruct (nth_error m i) as [b|] eqn:E; [eauto|].
  apply nth_error_None in E. lia.
Qed.

(** Tensors of one shape have elements at the same places. *)
Lemma tget_same_dims (a b : Tensor) c h x v :
  dims a = dims b -> tget a c h x = Some v ->
  exists g, tget b c h x = Some g.
Proof.
  unfold tget, dims. intros Hd.
  destruct (nth_error a c) as [ch|] eqn:Ea; [|discriminate].
  assert (Hc : nth_error (map (map (@length F32.t)) b) c =
               Some (map (@length _) ch)).
  { rewrite <- Hd, nth_error_map, Ea. reflexivity. }
  rewrite nth_error_map in Hc.
  destruct (nth_error b c) as [ch'|]; [|discriminate].
  simpl in Hc. injection Hc as Hc.
  destruct (nth_error ch h) as [r|] eqn:Er; [|discriminate].
  assert (Hr : nth_error (map (@length F32.t) ch') h = Some (length r)).
  { rewrite Hc, nth_error_map, Er. reflexivity. }
  rewrite nth_error_map in Hr.
  destruct (nth_error ch' h) as [r'|]; [|discriminate].
  simpl in Hr. injection Hr as Hr.
  intros Hx. exact (nth_error_same_length r r' x v (eq_sym Hr) Hx).
Qed.

Lemma dims_zip_with_map {B} (g : F32.t -> B -> F32.t) (t : Tensor)
    (v : list B) :
  length t = length v ->
  dims (zip_with (fun ch b => map (map (fun x => g x b)) ch) t v) = dims t.
Proof.
  unfold dims. revert v; induction t as [|ch t IH]; intros [|b v]; simpl;
    intros H; try discriminate; [reflexivity|].
  rewrite dims_map_map, IH by congruence. reflexivity.
Qed.

Lemma per_channel_same_length f (data : Tensor) (v : list F32.t) :
  length data = length v ->
  per_channel f data v =
  Ok (zip_with (fun ch b => map (map (fun x => f x b)) ch) data v).
Proof.
  intros H. unfold per_channel, broadcast_channels.
  rewrite H, Nat.eqb_refl. reflexivity.
Qed.

Lemma tget_per_channel f (data : Tensor) (v : list F32.t) c h x :
  tget (zip_with (fun ch b => map (map (fun x => f x b)) ch) data v) c h x =
  match tget data c h x, nth_error v c with
  | Some u, Some b => Some (f u b)
  | _, _ => None
  end.
Proof.
  unfold tget. rewrite nth_error_zip_with.
  destruct (nth_error data c) as [ch|]; [|reflexivity].
  destruct (nth_error v c) as [b|].
  - rewrite nth_error_map.
    destruct (nth_error ch h) as [r|]; simpl; [|reflexivity].
    rewrite nth_error_map. destruct (nth_error r x); reflexivity.
  - destruct (nth_error ch h) as [r|]; [|reflexivity].
    destruct (nth_error r x); reflexivity.
Qed.

End Elements.

(* ================================================================== *)
(** ** The loop keeps the shape of the working image *)
(* ================================================================== *)

Section LoopShape.

Variable resample : PILImage -> nat -> nat -> nat -> nat -> nat -> byte.
Variable model : Tensor -> result (list Tensor).
Variable backward : Tensor -> nat -> Tensor -> result Tensor.
Variable do_random_shifts : bool.

Lemma clamp_min_length : length clamp_min = 3.
Proof. reflexivity. Qed.

(** What [update] computes when it succeeds. *)
Lemma update_inv lr (data grad data' : Tensor) :
  length data = 3 ->
  update lr data grad = Ok data' ->
  dims grad = dims data /\
  data' =
  zip_with (fun ch b => map (map (fun x => F32.minimum x b)) ch)
    (zip_with (fun ch b => map (map (fun x => F32.maximum x b)) ch)
       (tzip F32.add data
          (tmap (fun g => F32.div (F32.mul g lr) (grad_mean grad)) grad))
       clamp_min)
    clamp_max.
Proof.
  intros Hlen. unfold update, iadd.
  destruct (same_dims _ _) eqn:E; [|discriminate]. simpl.
  apply same_dims_eq in E. rewrite dims_tmap in E.
  assert (H1 : dims (tzip F32.add data
            (tmap (fun g => F32.div (F32.mul g lr) (grad_mean grad)) grad))
          = dims data).
  { apply dims_tzip. rewrite dims_tmap. exact E. }
  rewrite per_channel_same_length
    by (rewrite (dims_length _ _ H1), clamp_min_length; exact Hlen).
  simpl.
  rewrite per_channel_same_length.
  - intros Hd. injection Hd as <-. auto.
  - rewrite length_zip_with; rewrite (dims_length _ _ H1), ?clamp_min_length;
      auto.
Qed.

Lemma update_dims lr (data grad data' : Tensor) :
  length data = 3 ->
  update lr data grad = Ok data' ->
  dims data' = dims data.
Proof.
  intros Hlen H. destruct (update_inv _ _ _ _ Hlen H) as [Hg ->].
  assert (H1 : dims (tzip F32.add data
            (tmap (fun g => F32.div (F32.mul g lr) (grad_mean grad)) grad))
          = dims data).
  { apply dims_tzip. rewrite dims_tmap. symmetry. exact Hg. }
  rewrite dims_zip_with_map.
  - rewrite dims_zip_with_map; [exact H1|].
    rewrite (dims_length _ _ H1), clamp_min_length. exact Hlen.
  - rewrite length_zip_with; rewrite (dims_length _ _ H1), ?clamp_min_length;
      auto.
Qed.

Lemma dream_iter_inv gf lr data w data' w' :
  dream_iter model backward do_random_shifts gf lr data w = (Ok data', w') ->
  exists grad,
    image_grad model backward do_random_shifts gf data w = (Ok grad, w') /\
    update lr data grad = Ok data'.
Proof.
  unfold dream_iter, bind, lift.
  destruct (image_grad _ _ _ _ _ _) as [[grad|e] w1]; [|discriminate].
  intros H. injection H as H <-. eauto.
Qed.

Lemma dream_loop_dims gf lr n :
  forall data w data' w',
    length data = 3 ->
    dream_loop model backward do_random_shifts n gf lr data w = (Ok data', w') ->
    dims data' = dims data.
Proof.
  induction n as [|n IH]; simpl; intros data w data' w' Hlen H.
  - unfold ret in H. injection H as <- _. reflexivity.
  - unfold bind in H.
    destruct (dream_iter _ _ _ _ _ _ _) as [[d1|e] w1] eqn:E; [|discriminate].
    apply dream_iter_inv in E. destruct E as (grad & _ & Hu).
    pose proof (update_dims _ _ _ _ Hlen Hu) as Hd.
    rewrite (IH d1 w1 data' w'); [exact Hd| |exact H].
    rewrite (dims_length _ _ Hd). exact Hlen.
Qed.

End LoopShape.

(* ================================================================== *)
(** ** Pre-processing and the display transform *)
(* ================================================================== *)

Section Pipeline.

Variable resample : PILImage -> nat -> nat -> nat -> nat -> nat -> byte.

Lemma Normalize_dims (m s : list F32.t) (t d : Tensor) :
  length m = length s -> Normalize m s t = Ok d -> dims d = dims t.
Proof.
  intros Hms. unfold Normalize.
  destruct (length t =? length m) eqn:E; [|discriminate].
  apply Nat.eqb_eq in E. intros H. injection H as <-.
  apply (dims_zip_with_map
           (fun x ms => F32.div (F32.sub x (fst ms)) (snd ms))).
  rewrite length_combine, <- Hms, Nat.min_id. exact E.
Qed.

Lemma Normalize_ok (m s : list F32.t) (t : Tensor) :
  length t = length m -> exists d, Normalize m s t = Ok d.
Proof.
  intros H. unfold Normalize. rewrite H, Nat.eqb_refl. eauto.
Qed.

Lemma Resize_dims size img r :
  Resize resample size img = Ok r ->
  resize_dims size (width img) (height img) = Ok (width r, height r) /\
  bands r = bands img.
Proof.
  unfold Resize, resize_dims.
  destruct (((width img <=? height img) && (width img =? size))
            || ((height img <=? width img) && (height img =? size))).
  - intros H. injection H as <-. auto.
  - destruct (width img <? height img).
    + destruct (width img =? 0); [discriminate|].
      intros H. injection H as <-. auto.
    + destruct (height img =? 0); [discriminate|].
      intros H. injection H as <-. auto.
Qed.

Lemma Resize_ok size img :
  0 < width img -> 0 < height img -> exists r, Resize resample size img = Ok r.
Proof.
  intros Hw Hh. unfold Resize.
  destruct (((width img <=? height img) && (width img =? size))
            || ((height img <=? width img) && (height img =? size)));
    [eauto|].
  destruct (width img <? height img).
  - destruct (width img =? 0) eqn:E; [apply Nat.eqb_eq in E; lia | eauto].
  - destruct (height img =? 0) eqn:E; [apply Nat.eqb_eq in E; lia | eauto].
Qed.

(** The pre-processed image has three channels and the size that
    [Resize(256)] computes. *)
Lemma img_transform_dims img d :
  img_transform resample img = Ok d ->
  exists ow oh,
    resize_dims 256 (width img) (height img) = Ok (ow, oh) /\
    dims d = block 3 oh ow.
Proof.
  unfold img_transform.
  destruct (Resize resample 256 img) as [r|e] eqn:Er; [|discriminate].
  simpl. intros Hn.
  destruct (Resize_dims _ _ _ Er) as [Hd _].
  exists (width r), (height r). split; [exact Hd|].
  unfold normalize in Hn.
  rewrite (Normalize_dims mean std _ _ eq_refl Hn), dims_ToTensor.
  apply Normalize_length in Hn.
  rewrite (dims_block_length _ _ _ _ (dims_ToTensor r)) in Hn.
  rewrite Hn. reflexivity.
Qed.

Lemma img_transform_ok img :
  bands img = 3 -> 0 < width img -> 0 < height img ->
  exists d, img_transform resample img = Ok d.
Proof.
  intros Hb Hw Hh. unfold img_transform.
  destruct (Resize_ok 256 img Hw Hh) as [r Hr]. rewrite Hr. simpl.
  apply Normalize_ok.
  rewrite (dims_block_length _ _ _ _ (dims_ToTensor r)).
  destruct (Resize_dims _ _ _ Hr) as [_ ->]. exact Hb.
Qed.

Lemma dims_permute (t : Tensor) c h w :
  dims t = block c h w -> 0 < c -> dims (permute_1_2_0 t) = block h w c.
Proof.
  intros Hd Hc. pose proof (dims_block_length _ _ _ _ Hd) as Hlen.
  destruct t as [|ch t]; [simpl in Hlen; lia|].
  destruct c as [|c]; [lia|]. unfold dims, block in Hd. simpl in Hd.
  injection Hd as Hch _.
  assert (Hh : length ch = h).
  { apply (f_equal (@length _)) in Hch.
    rewrite length_map, repeat_length in Hch. exact Hch. }
  unfold permute_1_2_0, dims, block. simpl hd.
  destruct ch as [|r ch]; simpl in Hh; subst h; [reflexivity|].
  simpl in Hch. injection Hch as Hr _. simpl hd. rewrite Hr.
  rewrite map_map.
  rewrite (map_const _ (repeat (S c) w)).
  - rewrite length_seq. reflexivity.
  - intros y. rewrite map_map. rewrite (map_const _ (S c)).
    + rewrite length_seq. reflexivity.
    + intros x. rewrite length_map. exact Hlen.
Qed.

Lemma to_display_inv (data out : Tensor) :
  to_display data = Ok out ->
  exists u, unnormalize data = Ok u /\
            out = permute_1_2_0 (tmap (F32.clamp F32.zero F32.one) u).
Proof.
  unfold to_display. destruct (unnormalize data) as [u|e]; [|discriminate].
  simpl. intros H. injection H as <-. eauto.
Qed.

Lemma to_display_dims (data out : Tensor) c h w :
  to_display data = Ok out -> dims data = block c h w -> 0 < c ->
  dims out = block h w c.
Proof.
  intros H Hd Hc. destruct (to_display_inv _ _ H) as (u & Hu & ->).
  apply dims_permute; [|exact Hc].
  rewrite dims_tmap. unfold unnormalize in Hu.
  rewrite (Normalize_dims
             (zip_with (fun m s => F32.div (F32.opp m) s) mean std)
             (map (fun s => F32.div F32.one s) std) _ _ eq_refl Hu).
  exact Hd.
Qed.

Lemma to_display_ok (data : Tensor) :
  length data = 3 -> exists out, to_display data = Ok out.
Proof.
  intros H. unfold to_display, unnormalize.
  destruct (Normalize_ok
              (zip_with (fun m s => F32.div (F32.opp m) s) mean std)
              (map (fun s => F32.div F32.one s) std) data H) as [u ->].
  simpl. eauto.
Qed.

Lemma resize_dims_exact size w h :
  Nat.min w h = size -> resize_dims size w h = Ok (w, h).
Proof.
  intros H. unfold resize_dims.
  assert (E : ((w <=? h) && (w =? size)) || ((h <=? w) && (h =? size)) = true).
  { apply orb_true_iff. destruct (Nat.le_ge_cases w h) as [L|L].
    - left. rewrite Nat.min_l in H by exact L.
      apply andb_true_iff. split; [apply Nat.leb_le | apply Nat.eqb_eq]; auto.
    - right. rewrite Nat.min_r in H by exact L.
      apply andb_true_iff. split; [apply Nat.leb_le | apply Nat.eqb_eq]; auto. }
  rewrite E. reflexivity.
Qed.

End Pipeline.

(* ================================================================== *)
(** ** Runs of the loop *)
(* ================================================================== *)

Section Runs.

Variable resample : PILImage -> nat -> nat -> nat -> nat -> nat -> byte.
Variable model : Tensor -> result (list Tensor).
Variable backward : Tensor -> nat -> Tensor -> result Tensor.
Variable do_random_shifts : bool.

Local Abbreviation image_grad' := (image_grad model backward do_random_shifts).
Local Abbreviation dream_iter' := (dream_iter model backward do_random_shifts).
Local Abbreviation dream_loop' := (dream_loop model backward do_random_shifts).
Local Abbreviation dream' := (dream resample model backward do_random_shifts).

(** Every iteration enters the network exactly once, whatever happens
    afterwards. *)
Lemma image_grad_forward_calls gf data w :
  forward_calls (snd (image_grad' gf data w)) = S (forward_calls w).
Proof.
  unfold image_grad, random_shift, bind, randint, forward, call, lift, ret.
  destruct do_random_shifts; simpl;
    (destruct (model _) as [out|e]; simpl; [|reflexivity]);
    (destruct (gf out) as [[k seed]|e]; simpl; [|reflexivity]);
    try match goal with
        | |- context [backward ?x ?j ?s] => destruct (backward x j s)
        end; reflexivity.
Qed.

Lemma dream_iter_forward_calls gf lr data w :
  forward_calls (snd (dream_iter' gf lr data w)) = S (forward_calls w).
Proof.
  unfold dream_iter, bind, lift.
  pose proof (image_grad_forward_calls gf data w) as H.
  destruct (image_grad' gf data w) as [[g|e] w1]; simpl in *; exact H.
Qed.

Lemma dream_loop_forward_calls gf lr n :
  forall data w,
    forward_calls w <= forward_calls (snd (dream_loop' n gf lr data w)).
Proof.
  induction n as [|n IH]; intros data w; simpl; [apply Nat.le_refl|].
  unfold bind.
  pose proof (dream_iter_forward_calls gf lr data w) as H.
  destruct (dream_iter' gf lr data w) as [[d1|e] w1]; simpl in *.
  - specialize (IH d1 w1). lia.
  - lia.
Qed.

Lemma dream_inv img n gf lr w out w' :
  dream' img n gf lr w = (Ok out, w') ->
  exists d d',
    img_transform resample img = Ok d /\
    dream_loop' (Z.to_nat n) gf lr d w = (Ok d', w') /\
    to_display d' = Ok out.
Proof.
  unfold dream, bind, lift.
  destruct (img_transform resample img) as [d|e]; [|discriminate].
  destruct (dream_loop' _ gf lr d w) as [[d'|e] w1] eqn:El; [|discriminate].
  intros H. injection H as H <-. exists d, d'. auto.
Qed.

(** No iteration: the display form of the pre-processed image, and an
    untouched world. *)
Lemma dream_no_iteration img n gf lr w :
  (n <= 0)%Z ->
  dream' img n gf lr w = (rbind (img_transform resample img) to_display, w).
Proof.
  intros Hn. unfold dream, bind, lift.
  replace (Z.to_nat n) with 0 by lia. simpl.
  destruct (img_transform resample img) as [d|e]; reflexivity.
Qed.

Lemma dream_no_iteration_ok img n gf lr w :
  (n <= 0)%Z -> bands img = 3 -> 0 < width img -> 0 < height img ->
  exists out, dream' img n gf lr w = (Ok out, w).
Proof.
  intros Hn Hb Hw Hh. rewrite dream_no_iteration by exact Hn.
  destruct (img_transform_ok resample img Hb Hw Hh) as [d Hd].
  rewrite Hd. simpl.
  destruct (img_transform_dims _ _ _ Hd) as (ow & oh & _ & Hdims).
  destruct (to_display_ok d (dims_block_length _ _ _ _ Hdims)) as [out ->].
  eauto.
Qed.

Lemma dream_dims img n gf lr w out w' :
  dream' img n gf lr w = (Ok out, w') ->
  exists ow oh,
    resize_dims 256 (width img) (height img) = Ok (ow, oh) /\
    dims out = block oh ow 3.
Proof.
  intros H. destruct (dream_inv _ _ _ _ _ _ _ H) as (d & d' & Hd & Hl & Ho).
  destruct (img_transform_dims _ _ _ Hd) as (ow & oh & Hr & Hdims).
  exists ow, oh. split; [exact Hr|].
  apply (to_display_dims d' out 3 oh ow Ho); [|lia].
  rewrite (dream_loop_dims model backward do_random_shifts gf lr _ _ _ _ _
             (dims_block_length _ _ _ _ Hdims) Hl).
  exact Hdims.
Qed.

(** With the shifts enabled the network sees a crop, and the gradient
    comes back embedded in a tensor of the shape of the image. *)
Lemma image_grad_shift_inv gf data w g w' :
  image_grad model backward true gf data w = (Ok g, w') ->
  exists a b c d out k seed gx,
    (a <= 20 /\ 1 <= b <= 20 /\ c <= 20 /\ 1 <= d <= 20) /\
    model (crop a b c d data) = Ok out /\
    gf out = Ok (k, seed) /\
    backward (crop a b c d data) k seed = Ok gx /\
    g = crop_backward a b c d data gx.
Proof.
  unfold image_grad, random_shift, bind, randint, forward, call, lift, ret, shift.
  simpl.
  set (a := entropy w (rng_pos w) mod 21).
  set (b := S (entropy w (S (rng_pos w)) mod 20)).
  set (c := entropy w (S (S (rng_pos w))) mod 21).
  set (d := S (entropy w (S (S (S (rng_pos w)))) mod 20)).
  destruct (model (crop a b c d data)) as [out|e] eqn:Em; [|discriminate].
  destruct (gf out) as [[k seed]|e] eqn:Eg; [|discriminate].
  destruct (backward (crop a b c d data) k seed) as [gx|e] eqn:Eb;
    [|discriminate].
  intros H. injection H as <- _.
  exists a, b, c, d, out, k, seed, gx.
  assert (Ha : a < 21) by (apply Nat.mod_upper_bound; discriminate).
  assert (Hc : c < 21) by (apply Nat.mod_upper_bound; discriminate).
  assert (Hb : entropy w (S (rng_pos w)) mod 20 < 20)
    by (apply Nat.mod_upper_bound; discriminate).
  assert (Hd : entropy w (S (S (S (rng_pos w)))) mod 20 < 20)
    by (apply Nat.mod_upper_bound; discriminate).
  repeat split; auto; subst b d; lia.
Qed.

(** Without the shifts nothing is drawn from the random source, and the
    outcome of an iteration does not depend on the world. *)
Lemma dream_iter_no_shift gf lr data w1 w2 :
  fst (dream_iter model backward false gf lr data w1) =
  fst (dream_iter model backward false gf lr data w2) /\
  rng_pos (snd (dream_iter model backward false gf lr data w1)) = rng_pos w1.
Proof.
  unfold dream_iter, image_grad, bind, forward, call, lift. simpl.
  destruct (model data) as [out|e]; simpl; [|auto].
  destruct (gf out) as [[k seed]|e]; simpl; [|auto].
  destruct (backward data k seed) as [g|e]; simpl; auto.
Qed.

Lemma dream_loop_no_shift gf lr n :
  forall data w1 w2,
    fst (dream_loop model backward false n gf lr data w1) =
    fst (dream_loop model backward false n gf lr data w2) /\
    rng_pos (snd (dream_loop model backward false n gf lr data w1)) = rng_pos w1.
Proof.
  induction n as [|n IH]; intros data w1 w2; simpl; [auto|].
  unfold bind.
  destruct (dream_iter_no_shift gf lr data w1 w2) as [Hr Hp].
  destruct (dream_iter model backward false gf lr data w1) as [[d1|e1] u1];
    destruct (dream_iter model backward false gf lr data w2) as [[d2|e2] u2];
    simpl in *; try discriminate.
  - injection Hr as ->. destruct (IH d2 u1 u2) as [IHr IHp].
    split; [exact IHr | congruence].
  - auto.
Qed.

End Runs.

(* ================================================================== *)
(** ** Properties of all elements of a tensor *)
(* ================================================================== *)

Section AllElements.

Lemma tall_tmap (P Q : F32.t -> Prop) f (t : Tensor) :
  (forall x, P x -> Q (f x)) -> tall P t -> tall Q (tmap f t).
Proof.
  intros H. unfold tall, tmap. intros Ht.
  apply Forall_map. eapply Forall_impl; [|exact Ht]. intros ch Hch.
  apply Forall_map. eapply Forall_impl; [|exact Hch]. intros r Hr.
  apply Forall_map. eapply Forall_impl; [|exact Hr]. exact H.
Qed.

Lemma tall_impl (P Q : F32.t -> Prop) (t : Tensor) :
  (forall x, P x -> Q x) -> tall P t -> tall Q t.
Proof.
  intros H Ht. unfold tall in *.
  eapply Forall_impl; [|exact Ht]. intros ch Hch.
  eapply Forall_impl; [|exact Hch]. intros r Hr.
  eapply Forall_impl; [|exact Hr]. exact H.
Qed.

Lemma tall_tget (P : F32.t -> Prop) (t : Tensor) c h x v :
  tall P t -> tget t c h x = Some v -> P v.
Proof.
  unfold tall, tget. intros Ht.
  destruct (nth_error t c) as [ch|] eqn:Ec; [|discriminate].
  destruct (nth_error ch h) as [r|] eqn:Eh; [|discriminate].
  intros Ex.
  apply nth_error_In in Ec, Eh, Ex.
  rewrite Forall_forall in Ht. specialize (Ht _ Ec).
  rewrite Forall_forall in Ht. specialize (Ht _ Eh).
  rewrite Forall_forall in Ht. exact (Ht _ Ex).
Qed.

Lemma forallb_Forall_iff {A} (p : A -> bool) (l : list A) :
  forallb p l = true <-> Forall (fun x => p x = true) l.
Proof.
  rewrite forallb_forall, Forall_forall. tauto.
Qed.

Lemma tforall_tall (p : F32.t -> bool) (t : Tensor) :
  tforall p t = true <-> tall (fun x => p x = true) t.
Proof.
  unfold tforall, tall. rewrite forallb_Forall_iff.
  split; intros H; eapply Forall_impl; try exact H; intros ch Hch.
  - apply forallb_Forall_iff in Hch.
    eapply Forall_impl; [|exact Hch]. intros r. apply forallb_Forall_iff.
  - apply forallb_Forall_iff.
    eapply Forall_impl; [|exact Hch]. intros r. apply forallb_Forall_iff.
Qed.

Lemma map_ext_Forall {A B} (P : A -> Prop) (f g : A -> B) (l : list A) :
  (forall x, P x -> f x = g x) -> Forall P l -> map f l = map g l.
Proof.
  intros H Hl. induction Hl as [|x l Hx _ IH]; simpl; [reflexivity|].
  rewrite (H x Hx), IH. reflexivity.
Qed.

Lemma tmap_ext_tall (P : F32.t -> Prop) f g (t : Tensor) :
  (forall x, P x -> f x = g x) -> tall P t -> tmap f t = tmap g t.
Proof.
  intros H Ht. unfold tmap.
  apply (map_ext_Forall (Forall (Forall P))); [|exact Ht]. intros ch Hch.
  apply (map_ext_Forall (Forall P)); [|exact Hch]. intros r Hr.
  apply (map_ext_Forall P); assumption.
Qed.

Lemma tmap_tmap f g (t : Tensor) :
  tmap f (tmap g t) = tmap (fun x => f (g x)) t.
Proof.
  unfold tmap. rewrite map_map. apply map_ext. intros ch.
  rewrite map_map. apply map_ext. intros r. apply map_map.
Qed.

Lemma tmap_id (t : Tensor) : tmap (fun x => x) t = t.
Proof.
  unfold tmap. rewrite <- (map_id t) at 2. apply map_ext. intros ch.
  rewrite <- (map_id ch) at 2. apply map_ext. intros r. apply map_id.
Qed.

Lemma zip_with_pointwise {A B C} (P : A -> Prop) (Q : B -> Prop)
    (f : A -> B -> C) (k : A -> C) (l : list A) (m : list B) :
  (forall u v, P u -> Q v -> f u v = k u) ->
  length l = length m -> Forall P l -> Forall Q m ->
  zip_with f l m = map k l.
Proof.
  intros H. revert m; induction l as [|x l IH]; intros [|y m] Hlen Hl Hm;
    simpl in *; try discriminate; [reflexivity|].
  inversion Hl; inversion Hm; subst.
  rewrite H, IH by (auto; congruence). reflexivity.
Qed.

(** Zipping with a tensor of the same shape, when the result only depends
    on the left element. *)
Lemma tzip_pointwise (P Q : F32.t -> Prop) f k (a b : Tensor) :
  (forall u v, P u -> Q v -> f u v = k u) ->
  dims a = dims b -> tall P a -> tall Q b ->
  tzip f a b = tmap k a.
Proof.
  intros H. unfold tzip, tmap, tall, dims.
  revert b; induction a as [|ch a IH]; intros [|ch' b] Hd Ha Hb;
    simpl in *; try discriminate; [reflexivity|].
  injection Hd as Hc Hd. inversion Ha; inversion Hb; subst.
  rewrite (IH b) by assumption. f_equal.
  clear - H Hc H2 H6.
  revert ch' Hc H6; induction ch as [|r ch IHc]; intros [|r' ch'] Hc Hq;
    simpl in *; try discriminate; [reflexivity|].
  injection Hc as Hr Hc. inversion H2; inversion Hq; subst.
  rewrite (IHc H4 ch') by assumption. f_equal.
  apply (zip_with_pointwise P Q); assumption.
Qed.

Lemma per_channel_pointwise (P : F32.t -> Prop) f k (t : Tensor)
    (v : list F32.t) :
  (forall x b, P x -> f x b = k x) ->
  length t = length v -> tall P t ->
  per_channel f t v = Ok (tmap k t).
Proof.
  intros H Hlen Ht. rewrite per_channel_same_length by exact Hlen. f_equal.
  unfold tmap, tall in *.
  revert v Hlen; induction t as [|ch t IH]; intros [|b v] Hlen;
    simpl in *; try discriminate; [reflexivity|].
  inversion Ht; subst. rewrite (IH H3 v) by congruence. f_equal.
  apply (map_ext_Forall (Forall P)); [|exact H2]. intros r Hr.
  apply (map_ext_Forall P); [|exact Hr]. intros x Hx. apply H. exact Hx.
Qed.

Lemma Normalize_pointwise (P : F32.t -> Prop) k (m s : list F32.t)
    (t : Tensor) :
  (forall x a b, P x -> F32.div (F32.sub x a) b = k x) ->
  length t = length m -> length m = length s -> tall P t ->
  Normalize m s t = Ok (tmap k t).
Proof.
  intros H Hlen Hms Ht. unfold Normalize. rewrite Hlen, Nat.eqb_refl. f_equal.
  assert (Hl : length t = length (combine m s))
    by (rewrite length_combine, <- Hms, Nat.min_id; exact Hlen).
  unfold tmap, tall in *. clear Hlen Hms.
  revert Hl. generalize (combine m s) as v.
  induction t as [|ch t IH]; intros [|b v] Hlen;
    simpl in *; try discriminate; [reflexivity|].
  inversion Ht; subst. rewrite (IH H3 v) by congruence. f_equal.
  apply (map_ext_Forall (Forall P)); [|exact H2]. intros r Hr.
  apply (map_ext_Forall P); [|exact Hr]. intros x Hx. apply H. exact Hx.
Qed.

Lemma Forall_nth_default {A} (P : A -> Prop) (l : list A) n d :
  P d -> Forall P l -> P (nth n l d).
Proof.
  intros Hd Hl. revert n; induction Hl as [|x l Hx _ IH]; intros [|n]; simpl;
    auto.
Qed.

Lemma tall_permute (P : F32.t -> Prop) (t : Tensor) :
  P F32.zero -> tall P t -> tall P (permute_1_2_0 t).
Proof.
  intros H0 Ht. unfold permute_1_2_0, tall.
  apply Forall_map, Forall_forall. intros h _.
  apply Forall_map, Forall_forall. intros w _.
  apply Forall_map. eapply Forall_impl; [|exact Ht]. intros ch Hch.
  apply Forall_nth_default; [exact H0|].
  apply Forall_nth_default; [constructor | exact Hch].
Qed.

Lemma tall_ToTensor img : tall (fun v => exists p, v = pixel p) (ToTensor img).
Proof.
  unfold tall, ToTensor.
  apply Forall_map, Forall_forall. intros b _.
  apply Forall_map, Forall_forall. intros y _.
  apply Forall_map, Forall_forall. intros x _. eauto.
Qed.

(** A full block has an element at every position inside it. *)
Lemma tget_block (t : Tensor) c h w i j k :
  dims t = block c h w -> i < c -> j < h -> k < w ->
  exists v, tget t i j k = Some v.
Proof.
  intros Hd Hi Hj Hk. unfold tget.
  assert (E : nth_error (dims t) i = Some (repeat w h))
    by (rewrite Hd; apply nth_error_repeat; exact Hi).
  unfold dims in E. rewrite nth_error_map in E.
  destruct (nth_error t i) as [ch|]; [|discriminate].
  simpl in E. injection E as E.
  assert (E2 : nth_error (map (@length F32.t) ch) j = Some w)
    by (rewrite E; apply nth_error_repeat; exact Hj).
  rewrite nth_error_map in E2.
  destruct (nth_error ch j) as [r|]; [|discriminate].
  simpl in E2. injection E2 as E2.
  destruct (nth_error r k) as [v|] eqn:E3; [eauto|].
  apply nth_error_None in E3. lia.
Qed.

Lemma tget_permute (t : Tensor) c h w i j k :
  dims t = block c h w -> i < h -> j < w -> k < c ->
  tget (permute_1_2_0 t) i j k = tget t k i j.
Proof.
  intros Hd Hi Hj Hk.
  destruct (tget_block t c h w 0 0 0 Hd) as [v0 Hv0]; try lia.
  destruct (tget_block t c h w k i j Hd Hk Hi Hj) as [v Hv].
  rewrite Hv. unfold tget in Hv0, Hv.
  assert (Hh : length (hd [] t) = h /\ length (hd [] (hd [] t)) = w).
  { assert (E : nth_error (dims t) 0 = Some (repeat w h))
      by (rewrite Hd; apply nth_error_repeat; lia).
    destruct t as [|ch t]; [discriminate|]. simpl in E. injection E as E.
    simpl. split.
    - apply (f_equal (@length _)) in E.
      rewrite length_map, repeat_length in E. exact E.
    - assert (E2 : nth_error (map (@length F32.t) ch) 0 = Some w)
        by (rewrite E; apply nth_error_repeat; lia).
      destruct ch as [|r ch]; [discriminate|]. simpl in E2.
      injection E2 as E2. exact E2. }
  destruct Hh as [Hh Hw].
  unfold permute_1_2_0, tget. rewrite Hh, Hw.
  rewrite nth_error_map, nth_error_seq.
  replace (i <? h) with true by (symmetry; apply Nat.ltb_lt; exact Hi).
  simpl. rewrite nth_error_map, nth_error_seq.
  replace (j <? w) with true by (symmetry; apply Nat.ltb_lt; exact Hj).
  simpl. rewrite nth_error_map.
  destruct (nth_error t k) as [ch|]; [|discriminate]. simpl.
  destruct (nth_error ch i) as [r|] eqn:Er; [|discriminate].
  rewrite (nth_error_nth _ _ [] Er), (nth_error_nth _ _ F32.zero Hv).
  reflexivity.
Qed.

End AllElements.

(* ================================================================== *)
(** ** An all-zero gradient *)
(* ================================================================== *)

Section ZeroGradient.

Lemma add_nan_r (x : F32.t) : F32.add x S754_nan = S754_nan.
Proof. destruct x; reflexivity. Qed.

Lemma tall_True (t : Tensor) : tall (fun _ => True) t.
Proof.
  unfold tall. apply Forall_forall. intros ch _.
  apply Forall_forall. intros r _. apply Forall_forall. auto.
Qed.

(** The update term of a zero gradient element is 0/0. *)
Lemma zero_gradient_term (g lr gm : F32.t) :
  F32.is_zero g = true -> F32.is_finite lr = true ->
  F32.is_zero gm = true \/ F32.is_nan gm = true ->
  F32.div (F32.mul g lr) gm = S754_nan.
Proof.
  destruct g; try discriminate. intros _.
  destruct lr; try discriminate; intros _;
    (destruct gm; intros [H|H]; try discriminate H; reflexivity).
Qed.

Lemma fold_add_zeros (l : list F32.t) :
  Forall (fun x => x = F32.zero) l -> fold_left F32.add l F32.zero = F32.zero.
Proof.
  intros H. induction H as [|x l -> _ IH]; simpl; [reflexivity|].
  exact IH.
Qed.

Lemma grad_mean_of_zeros (grad : Tensor) :
  tall (fun g => F32.is_zero g = true) grad ->
  F32.is_zero (grad_mean grad) = true \/ F32.is_nan (grad_mean grad) = true.
Proof.
  intros H. unfold grad_mean, tmean, tsum.
  rewrite fold_add_zeros.
  - destruct (F32.of_Z _); [right | left | right | left]; reflexivity.
  - unfold flatten. apply Forall_concat, Forall_concat.
    apply (tall_tmap (fun g => F32.is_zero g = true)); [|exact H].
    intros x. destruct x; try discriminate. reflexivity.
Qed.

(** With an all-zero gradient every element of the working image becomes
    NaN. *)
Lemma update_zero_gradient lr (data grad : Tensor) :
  length data = 3 -> dims grad = dims data ->
  tall (fun g => F32.is_zero g = true) grad -> F32.is_finite lr = true ->
  update lr data grad = Ok (tmap (fun _ => S754_nan) data).
Proof.
  intros Hlen Hd Hz Hlr. unfold update, iadd.
  rewrite (tmap_ext_tall (fun g => F32.is_zero g = true) _ (fun _ => S754_nan)
             grad); [|intros g Hg|exact Hz].
  2:{ apply zero_gradient_term; auto. apply grad_mean_of_zeros. exact Hz. }
  replace (same_dims data (tmap (fun _ => S754_nan) grad)) with true
    by (symmetry; apply same_dims_eq; rewrite dims_tmap; auto).
  rewrite (tzip_pointwise (fun _ => True) (fun v => v = S754_nan) F32.add
             (fun _ => S754_nan)).
  - simpl.
    rewrite (per_channel_pointwise (fun v => v = S754_nan) F32.maximum
               (fun _ => S754_nan)).
    + simpl. rewrite tmap_tmap.
      rewrite (per_channel_pointwise (fun v => v = S754_nan) F32.minimum
                 (fun _ => S754_nan)).
      * rewrite tmap_tmap. reflexivity.
      * intros x b ->. reflexivity.
      * unfold tmap. rewrite length_map. exact Hlen.
      * apply (tall_tmap (fun _ => True)); [auto | apply tall_True].
    + intros x b ->. reflexivity.
    + unfold tmap. rewrite length_map. exact Hlen.
    + apply (tall_tmap (fun _ => True)); [auto | apply tall_True].
  - intros u v _ ->. apply add_nan_r.
  - rewrite dims_tmap. auto.
  - apply tall_True.
  - apply (tall_tmap (fun _ => True)); [auto | apply tall_True].
Qed.

(** An image of NaN is displayed as an image of NaN. *)
Lemma to_display_nan (data : Tensor) :
  length data = 3 ->
  to_display (tmap (fun _ => S754_nan) data) =
  Ok (permute_1_2_0 (tmap (fun _ => S754_nan) data)).
Proof.
  intros Hlen. unfold to_display, unnormalize.
  rewrite (Normalize_pointwise (fun v => v = S754_nan) (fun _ => S754_nan)).
  - simpl. rewrite !tmap_tmap. reflexivity.
  - intros x a b ->. reflexivity.
  - unfold tmap. rewrite length_map. exact Hlen.
  - reflexivity.
  - apply (tall_tmap (fun _ => True)); [auto | apply tall_True].
Qed.

(** The network of all-zero activations under the default objective. *)
Lemma zero_net_iter lr (data : Tensor) w :
  length data = 3 -> F32.is_finite lr = true ->
  dream_iter zero_net zero_backward false default_grad_fn lr data w =
  (Ok (tmap (fun _ => S754_nan) data),
   World (entropy w) (rng_pos w) (S (forward_calls w)) (S (objective_calls w))).
Proof.
  intros Hlen Hlr. unfold dream_iter, image_grad, bind, forward, call, lift.
  simpl. rewrite update_zero_gradient; auto.
  - apply dims_tmap.
  - apply (tall_tmap (fun _ => True)); [auto | apply tall_True].
Qed.

Lemma zero_net_dream lr img w :
  bands img = 3 -> 0 < width img -> 0 < height img ->
  F32.is_finite lr = true ->
  exists d oh ow,
    img_transform nearest img = Ok d /\
    dims d = block 3 oh ow /\
    resize_dims 256 (width img) (height img) = Ok (ow, oh) /\
    dream nearest zero_net zero_backward false img 1 default_grad_fn lr w =
    (Ok (permute_1_2_0 (tmap (fun _ => S754_nan) d)),
     World (entropy w) (rng_pos w) (S (forward_calls w)) (S (objective_calls w))).
Proof.
  intros Hb Hw Hh Hlr.
  destruct (img_transform_ok nearest img Hb Hw Hh) as [d Hd].
  destruct (img_transform_dims _ _ _ Hd) as (ow & oh & Hr & Hdims).
  pose proof (dims_block_length _ _ _ _ Hdims) as Hlen.
  exists d, oh, ow. repeat split; auto.
  unfold dream, bind, lift. rewrite Hd.
  change (Z.to_nat 1) with 1. simpl dream_loop. unfold bind.
  rewrite zero_net_iter by assumption. unfold ret.
  rewrite to_display_nan by assumption. reflexivity.
Qed.

End ZeroGradient.

(* ================================================================== *)
(** ** Every pixel value of every channel *)
(* ================================================================== *)

Section Pixels.

Variable resample : PILImage -> nat -> nat -> nat -> nat -> nat -> byte.

(** Checked on each of the 256 pixel values of each channel. *)
Lemma pixel_check_all (c : nat) (p : byte) : c < 3 -> pixel_check c p = true.
Proof.
  intros Hc. destruct c as [|[|[|c]]]; [| | |lia];
    destruct p; vm_compute; reflexivity.
Qed.

Lemma chan3_tall (P : nat -> F32.t -> Prop) (Q : F32.t -> Prop) (t : Tensor) :
  (forall c v, c < 3 -> P c v -> Q v) -> chan3 P t -> tall Q t.
Proof.
  intros H. destruct t as [|a [|b [|c [|e t]]]]; simpl; try tauto.
  intros (Ha & Hb & Hc). unfold tall.
  repeat constructor;
    [eapply Forall_impl; [|exact Ha] | eapply Forall_impl; [|exact Hb]
     | eapply Forall_impl; [|exact Hc]];
    intros r Hr; (eapply Forall_impl; [|exact Hr]); intros v; apply H; lia.
Qed.

Lemma chan3_length (P : nat -> F32.t -> Prop) (t : Tensor) :
  chan3 P t -> length t = 3.
Proof.
  destruct t as [|a [|b [|c [|e t]]]]; simpl; tauto.
Qed.

Lemma img_transform_pixels img d :
  img_transform resample img = Ok d ->
  chan3 (fun c v => exists p, v = normalized c p) d.
Proof.
  unfold img_transform.
  destruct (Resize resample 256 img) as [r|e]; [|discriminate]. simpl.
  intros Hn. pose proof (Normalize_length _ _ _ _ Hn) as Hlen.
  pose proof (tall_ToTensor r) as Hp.
  destruct (length3 _ Hlen) as (a & b & c & E). rewrite E in Hn, Hp.
  unfold normalize, mean, std in Hn. rewrite Normalize3 in Hn.
  injection Hn as <-. unfold tall in Hp.
  inversion Hp as [|? ? Ha Hp1]; subst.
  inversion Hp1 as [|? ? Hb Hp2]; subst.
  inversion Hp2 as [|? ? Hc _]; subst.
  simpl. repeat split; apply Forall_map;
    [eapply Forall_impl; [|exact Ha] | eapply Forall_impl; [|exact Hb]
     | eapply Forall_impl; [|exact Hc]];
    intros row Hrow; apply Forall_map; (eapply Forall_impl; [|exact Hrow]);
    intros v [p ->]; exists p; reflexivity.
Qed.

Lemma pixel_facts c p :
  c < 3 ->
  F32.is_nonzero_finite (normalized c p) = true /\
  F32.maximum (normalized c p) (nth c clamp_min F32.zero) = normalized c p /\
  F32.minimum (normalized c p) (nth c clamp_max F32.zero) = normalized c p /\
  F32.within F32.zero F32.one (displayed c (normalized c p)) = true.
Proof.
  intros Hc. pose proof (pixel_check_all c p Hc) as H.
  unfold pixel_check in H.
  apply andb_true_iff in H. destruct H as [H H4].
  apply andb_true_iff in H. destruct H as [H H3].
  apply andb_true_iff in H. destruct H as [H1 H2].
  apply negb_true_iff in H2, H3.
  assert (Hn : F32.is_nan (normalized c p) = false)
    by (destruct (normalized c p); simpl in *; congruence).
  assert (Hlo : F32.is_nan (nth c clamp_min F32.zero) = false)
    by (destruct c as [|[|[|c]]]; [reflexivity ..|lia]).
  assert (Hhi : F32.is_nan (nth c clamp_max F32.zero) = false)
    by (destruct c as [|[|[|c]]]; [reflexivity ..|lia]).
  repeat split; auto.
  - unfold F32.maximum. rewrite Hn, Hlo, H2. reflexivity.
  - unfold F32.minimum. rewrite Hn, Hhi, H3. reflexivity.
Qed.

(** The pre-processed image is displayed as numbers of [0, 1]. *)
Lemma to_display_pixels (d out : Tensor) :
  chan3 (fun c v => exists p, v = normalized c p) d ->
  to_display d = Ok out ->
  tall (fun v => F32.within F32.zero F32.one v = true) out.
Proof.
  intros Hd Ho. destruct (to_display_inv _ _ Ho) as (u & Hu & ->).
  apply tall_permute; [reflexivity|].
  destruct d as [|a [|b [|c [|e t]]]]; simpl in Hd; try tauto.
  destruct Hd as (Ha & Hb & Hc).
  unfold unnormalize, mean, std in Hu. simpl zip_with in Hu. simpl map in Hu.
  rewrite Normalize3 in Hu. injection Hu as <-.
  unfold tall, tmap. simpl map.
  repeat constructor; apply Forall_map, Forall_map;
    [eapply Forall_impl; [|exact Ha] | eapply Forall_impl; [|exact Hb]
     | eapply Forall_impl; [|exact Hc]];
    intros row Hrow; apply Forall_map, Forall_map;
    (eapply Forall_impl; [|exact Hrow]); intros v [p ->].
  - apply (pixel_facts 0 p). lia.
  - apply (pixel_facts 1 p). lia.
  - apply (pixel_facts 2 p). lia.
Qed.

(** A step with a zero update term on each element leaves the
    pre-processed image as it is. *)
Lemma update_zero_step lr (d grad : Tensor) :
  chan3 (fun c v => exists p, v = normalized c p) d ->
  F32.is_zero lr = true ->
  dims grad = dims d ->
  tall (fun g => F32.is_finite g = true) grad ->
  F32.is_nan (grad_mean grad) = false ->
  F32.is_zero (grad_mean grad) = false ->
  update lr d grad = Ok d.
Proof.
  intros Hd Hlr Hdims Hfin Hnan Hzero. unfold update, iadd.
  replace (same_dims d _) with true
    by (symmetry; apply same_dims_eq; rewrite dims_tmap; auto).
  rewrite (tzip_pointwise (fun u => F32.is_nonzero_finite u = true)
             (fun v => F32.is_zero v = true) F32.add (fun u => u)).
  - rewrite tmap_id. simpl.
    destruct d as [|a [|b [|c [|e t]]]]; simpl in Hd; try tauto.
    destruct Hd as (Ha & Hb & Hc).
    unfold clamp_min, clamp_max, mean, std. simpl zip_with.
    rewrite per_channel3. simpl. rewrite per_channel3. f_equal.
    rewrite !map_map.
    f_equal; [|f_equal; [|f_equal]];
      match goal with
      | |- map _ ?l = ?l => rewrite <- (map_id l) at 2
      end;
      [eapply map_ext_Forall; [|exact Ha]
      |eapply map_ext_Forall; [|exact Hb]
      |eapply map_ext_Forall; [|exact Hc]];
      intros row Hrow; rewrite map_map; rewrite <- (map_id row) at 2;
      (eapply map_ext_Forall; [|exact Hrow]); intros v [p ->].
    + destruct (pixel_facts 0 p) as (_ & H1 & H2 & _); [lia|].
      simpl nth in H1, H2. unfold clamp_min, clamp_max, mean, std in H1, H2.
      simpl nth in H1, H2. rewrite H1. exact H2.
    + destruct (pixel_facts 1 p) as (_ & H1 & H2 & _); [lia|].
      unfold clamp_min, clamp_max, mean, std in H1, H2.
      simpl nth in H1, H2. rewrite H1. exact H2.
    + destruct (pixel_facts 2 p) as (_ & H1 & H2 & _); [lia|].
      unfold clamp_min, clamp_max, mean, std in H1, H2.
      simpl nth in H1, H2. rewrite H1. exact H2.
  - intros u v Hu Hv. destruct u; try discriminate.
    destruct v; try discriminate. reflexivity.
  - rewrite dims_tmap. auto.
  - apply (chan3_tall (fun c v => exists p, v = normalized c p)); [|exact Hd].
    intros c v Hc [p ->]. apply (pixel_facts c p Hc).
  - apply (tall_tmap (fun g => F32.is_finite g = true)); [|exact Hfin].
    intros g Hg. destruct lr; try discriminate.
    destruct (grad_mean grad); try discriminate;
      destruct g; try discriminate; reflexivity.
Qed.

Lemma dream_no_iteration_range model backward shifts img n gf lr w out w' :
  (n <= 0)%Z ->
  dream resample model backward shifts img n gf lr w = (Ok out, w') ->
  tall (fun v => F32.within F32.zero F32.one v = true) out.
Proof.
  intros Hn H. rewrite dream_no_iteration in H by exact Hn.
  destruct (img_transform resample img) as [d|e] eqn:Hd; [|discriminate].
  simpl in H. injection H as Ho _.
  exact (to_display_pixels d out (img_transform_pixels _ _ Hd) Ho).
Qed.

End Pixels.

(* ================================================================== *)
(** ** A zero learning rate, and a network of steep gradients *)
(* ================================================================== *)

Section ZeroRate.

Variable resample : PILImage -> nat -> nat -> nat -> nat -> nat -> byte.
Variable model : Tensor -> result (list Tensor).
Variable backward : Tensor -> nat -> Tensor -> result Tensor.
Variable do_random_shifts : bool.

Lemma dream_loop_zero_rate gf lr (d : Tensor) n :
  chan3 (fun c v => exists p, v = normalized c p) d ->
  F32.is_zero lr = true ->
  regular_gradients model backward do_random_shifts gf d ->
  forall w, exists w',
    dream_loop model backward do_random_shifts n gf lr d w = (Ok d, w').
Proof.
  intros Hd Hlr Hreg. induction n as [|n IH]; intros w; simpl.
  - exists w. reflexivity.
  - unfold bind, dream_iter, lift.
    destruct (Hreg w) as (g & w1 & Hg & Hdims & Hfin & Hnan & Hzero).
    unfold bind. rewrite Hg.
    rewrite (update_zero_step lr d g Hd Hlr Hdims
               (proj1 (tforall_tall _ _) Hfin) Hnan Hzero).
    apply IH.
Qed.

End ZeroRate.

Section Steep.

Lemma list_sum_repeat w h : list_sum (repeat w h) = h * w.
Proof. induction h as [|h IH]; simpl; [reflexivity | rewrite IH; reflexivity]. Qed.

Lemma numel_block (t : Tensor) c h w :
  dims t = block c h w -> numel t = c * (h * w).
Proof.
  intros Hd. unfold numel, flatten.
  rewrite length_concat, concat_map.
  change (map (map (@length F32.t)) t) with (dims t). rewrite Hd.
  clear Hd. unfold block. induction c as [|c IH]; simpl; [reflexivity|].
  rewrite list_sum_app, IH, list_sum_repeat. reflexivity.
Qed.

Lemma fold_add_infinity (l : list F32.t) :
  Forall (fun x => x = huge) l ->
  fold_left F32.add l (S754_infinity false) = S754_infinity false.
Proof.
  intros H. induction H as [|x l -> _ IH]; simpl; [reflexivity | exact IH].
Qed.

(** The sum of two or more copies of the largest float overflows. *)
Lemma fold_add_huge (l : list F32.t) :
  Forall (fun x => x = huge) l -> 2 <= length l ->
  fold_left F32.add l F32.zero = S754_infinity false.
Proof.
  intros H Hlen. destruct l as [|x [|y l]]; simpl in Hlen; try lia.
  inversion H as [|? ? -> H1]; subst. inversion H1 as [|? ? -> H2]; subst.
  simpl. change (F32.add (F32.add F32.zero huge) huge) with (S754_infinity false).
  apply fold_add_infinity. exact H2.
Qed.

Lemma steep_grad_mean (d : Tensor) c h w :
  dims d = block c h w -> 2 <= c * (h * w) ->
  grad_mean (tmap (fun _ => huge) d) =
  F32.div (S754_infinity false) (F32.of_Z (Z.of_nat (c * (h * w)))).
Proof.
  intros Hd Hn. unfold grad_mean, tmean, tsum.
  assert (Hdims : dims (tmap F32.abs (tmap (fun _ => huge) d)) = block c h w)
    by (rewrite !dims_tmap; exact Hd).
  rewrite (numel_block _ _ _ _ Hdims). f_equal.
  apply fold_add_huge.
  - unfold flatten. apply Forall_concat, Forall_concat.
    rewrite tmap_tmap.
    apply (tall_tmap (fun _ => True)); [reflexivity | apply tall_True].
  - change (length (flatten (tmap F32.abs (tmap (fun _ => huge) d))))
      with (numel (tmap F32.abs (tmap (fun _ => huge) d))).
    rewrite (numel_block _ _ _ _ Hdims). exact Hn.
Qed.

Lemma steep_image_grad (d : Tensor) w :
  image_grad id_net steep_backward false default_grad_fn d w =
  (Ok (tmap (fun _ => huge) d),
   World (entropy w) (rng_pos w) (S (forward_calls w)) (S (objective_calls w))).
Proof. reflexivity. Qed.

End Steep.

Section SteepRegular.

(** The steep gradients on a pre-processed image are regular: their mean
    magnitude overflows to infinity. *)
Lemma steep_gradients_regular img d :
  img_transform nearest img = Ok d ->
  resize_dims 256 (width img) (height img) = Ok (256, 384) ->
  regular_gradients id_net steep_backward false default_grad_fn d.
Proof.
  intros Hd Hr w.
  destruct (img_transform_dims _ _ _ Hd) as (ow & oh & Hr' & Hdims).
  rewrite Hr in Hr'. injection Hr' as <- <-.
  exists (tmap (fun _ => huge) d),
    (World (entropy w) (rng_pos w) (S (forward_calls w)) (S (objective_calls w))).
  split; [apply steep_image_grad|]. split; [apply dims_tmap|]. split.
  - apply tforall_tall.
    apply (tall_tmap (fun _ => True)); [reflexivity | apply tall_True].
  - rewrite (steep_grad_mean d 3 384 256 Hdims) by lia.
    split; vm_compute; reflexivity.
Qed.

End SteepRegular.

(* ================================================================== *)
(** ** The best match of the guided objective *)
(* ================================================================== *)

Section BestMatch.

(** The scan keeps an index whose value is maximal among the elements
    seen so far. *)
Lemma argmax_from_spec (r : list F32.t) :
  Forall (fun x => F32.is_nan x = false) r ->
  forall l pre bi,
    r = pre ++ l -> bi < length pre ->
    (forall k, k < length pre ->
               F32.leb (nth k r F32.zero) (nth bi r F32.zero) = true) ->
    let j := argmax_from bi (nth bi r F32.zero) (length pre) l in
    j < length r /\
    forall k, k < length r ->
              F32.leb (nth k r F32.zero) (nth j r F32.zero) = true.
Proof.
  intros Hr. induction l as [|x l IH]; intros pre bi E Hbi Hpre; simpl.
  - rewrite app_nil_r in E. subst pre. auto.
  - assert (Hlen : length r = length pre + S (length l))
      by (rewrite E, length_app; reflexivity).
    assert (Hnan : forall k, k < length r -> F32.is_nan (nth k r F32.zero) = false).
    { intros k Hk. rewrite Forall_forall in Hr. apply Hr. apply nth_In. exact Hk. }
    assert (Hx : nth (length pre) r F32.zero = x)
      by (rewrite E, app_nth2, Nat.sub_diag by lia; reflexivity).
    rewrite (Hnan bi) by lia.
    assert (E' : r = (pre ++ [x]) ++ l) by (rewrite <- app_assoc; exact E).
    assert (Hl' : length (pre ++ [x]) = S (length pre))
      by (rewrite length_app; simpl; lia).
    destruct (F32.leb x (nth bi r F32.zero)) eqn:Hle.
    + specialize (IH (pre ++ [x]) bi E'). rewrite Hl' in IH.
      apply IH; [lia|]. intros k Hk.
      destruct (Nat.eq_dec k (length pre)) as [->|Hne].
      * rewrite Hx. exact Hle.
      * apply Hpre. lia.
    + specialize (IH (pre ++ [x]) (length pre) E'). rewrite Hl', Hx in IH.
      apply IH; [lia|]. intros k Hk.
      destruct (Nat.eq_dec k (length pre)) as [->|Hne].
      * rewrite Hx. apply F32Facts.leb_refl. rewrite <- Hx. apply Hnan. lia.
      * apply (F32Facts.leb_trans _ (nth bi r F32.zero)); [apply Hpre; lia|].
        apply F32Facts.ltb_leb.
        assert (Hxn : F32.is_nan x = false) by (rewrite <- Hx; apply Hnan; lia).
        assert (Hbn : F32.is_nan (nth bi r F32.zero) = false)
          by (apply Hnan; lia).
        unfold F32.leb, SFleb in Hle. unfold F32.ltb, SFltb.
        rewrite (F32Facts.compare_antisym x (nth bi r F32.zero)).
        destruct (F32Facts.compare_some _ _ Hxn Hbn) as [cmp Hc].
        rewrite Hc in *. destruct cmp; simpl; congruence.
Qed.

(** On a row of numbers, [argmax] returns a position of a maximal one. *)
Lemma argmax_spec (r : list F32.t) :
  r <> [] -> Forall (fun x => F32.is_nan x = false) r ->
  exists j, argmax r = Ok j /\ j < length r /\
            forall k, k < length r ->
                      F32.leb (nth k r F32.zero) (nth j r F32.zero) = true.
Proof.
  intros Hne Hr. destruct r as [|x l]; [congruence|].
  exists (argmax_from 0 x 1 l). split; [reflexivity|].
  apply (argmax_from_spec (x :: l) Hr l [x] 0); [reflexivity | simpl; lia |].
  intros k Hk. simpl in Hk. assert (k = 0) by lia. subst k. simpl.
  apply F32Facts.leb_refl. inversion Hr; assumption.
Qed.

(** The position of a strict maximum is the one returned. *)
Lemma argmax_strict (r : list F32.t) i j :
  argmax r = Ok j -> j < length r -> i < length r ->
  (forall k, k < length r ->
             F32.leb (nth k r F32.zero) (nth j r F32.zero) = true) ->
  (forall k, k < length r -> k <> i ->
             F32.ltb (nth k r F32.zero) (nth i r F32.zero) = true) ->
  j = i.
Proof.
  intros _ Hj Hi Hmax Hstrict.
  destruct (Nat.eq_dec j i) as [E|Hne]; [exact E|].
  specialize (Hmax i Hi). specialize (Hstrict j Hj Hne).
  apply F32Facts.leb_ltb_false in Hmax. congruence.
Qed.

Lemma argmax1_spec (r : Matrix) :
  Forall (fun row => row <> [] /\ Forall (fun x => F32.is_nan x = false) row) r ->
  exists idx,
    argmax1 r = Ok idx /\
    Forall2 (fun row j =>
               argmax row = Ok j /\ j < length row /\
               forall k, k < length row ->
                 F32.leb (nth k row F32.zero) (nth j row F32.zero) = true)
            r idx.
Proof.
  intros H. induction H as [|row r [Hne Hrow] _ (idx & Hidx & Hall)]; simpl.
  - exists []. split; [reflexivity | constructor].
  - destruct (argmax_spec row Hne Hrow) as (j & Hj & Hjl & Hmax).
    exists (j :: idx). rewrite Hj, Hidx. simpl. split; [reflexivity|].
    constructor; auto.
Qed.

Lemma map_nth_seq {A} (l : list A) (d : A) :
  map (fun j => nth j l d) (seq 0 (length l)) = l.
Proof.
  induction l as [|x l IH]; simpl; [reflexivity|].
  f_equal. rewrite <- seq_shift, map_map. exact IH.
Qed.

Lemma chunk_concat {A} (ch : list (list A)) h w :
  length ch = h -> Forall (fun r => length r = w) ch ->
  chunk h w (concat ch) = ch.
Proof.
  intros Hh Hw. revert h Hh; induction Hw as [|r ch Hr _ IH]; intros h Hh;
    simpl in Hh; subst h; simpl; [reflexivity|].
  rewrite firstn_app, skipn_app, Hr, Nat.sub_diag. simpl.
  rewrite firstn_all2, skipn_all2, app_nil_r by lia. simpl.
  f_equal. apply IH. reflexivity.
Qed.

Lemma block_rows (o : Tensor) c h w :
  dims o = block c h w ->
  Forall (fun ch => length ch = h /\ Forall (fun r => length r = w) ch) o.
Proof.
  unfold dims, block. revert c; induction o as [|ch o IH]; intros c Hd;
    [constructor|].
  destruct c as [|c]; [discriminate|]. simpl in Hd.
  injection Hd as Hch Ho. constructor; [|exact (IH c Ho)].
  split.
  - apply (f_equal (@length _)) in Hch.
    rewrite length_map, repeat_length in Hch. exact Hch.
  - apply Forall_forall. intros r Hin.
    apply (in_map (@length _)) in Hin. rewrite Hch in Hin.
    apply repeat_spec in Hin. exact Hin.
Qed.

Lemma view_as_view2 (o : Tensor) c h w :
  dims o = block c h w -> 0 < h -> view_as o (map (@concat _) o) = o.
Proof.
  intros Hd Hh. pose proof (block_rows o c h w Hd) as Hrows.
  destruct o as [|ch o]; [reflexivity|].
  unfold view_as. rewrite map_map.
  assert (E : length (hd [] (ch :: o)) = h /\
              length (hd [] (hd [] (ch :: o))) = w).
  { inversion Hrows as [|? ? [H1 H2] _]; subst. simpl. split; [reflexivity|].
    destruct ch as [|r ch]; [simpl in Hh; lia|].
    inversion H2; subst. reflexivity. }
  destruct E as [-> ->].
  rewrite <- (map_id (ch :: o)) at 2.
  apply (map_ext_Forall
           (fun ch => length ch = h /\ Forall (fun r => length r = w) ch));
    [|exact Hrows].
  intros ch' [H1 H2]. apply chunk_concat; assumption.
Qed.

End BestMatch.

Section SelfMatch.

Lemma length_concat_uniform {A} (ch : list (list A)) h w :
  length ch = h -> Forall (fun r => length r = w) ch ->
  length (concat ch) = h * w.
Proof.
  intros Hh Hw. revert h Hh; induction Hw as [|r ch Hr _ IH]; intros h Hh;
    simpl in Hh; subst h; simpl; [reflexivity|].
  rewrite length_app, Hr, (IH _ eq_refl). reflexivity.
Qed.

Lemma nth_map_seq {A} (F : nat -> A) (d : A) n k :
  k < n -> nth k (map F (seq 0 n)) d = F k.
Proof.
  intros Hk. apply nth_error_nth.
  rewrite nth_error_map, nth_error_seq.
  replace (k <? n) with true by (symmetry; apply Nat.ltb_lt; exact Hk).
  reflexivity.
Qed.

Lemma Forall2_at {A B} (R : A -> B -> Prop) (l : list A) (m : list B) i a b :
  Forall2 R l m -> nth_error l i = Some a -> nth_error m i = Some b -> R a b.
Proof.
  intros H. revert i; induction H as [|x y l m Hxy _ IH]; intros [|i]; simpl;
    try discriminate.
  - intros E1 E2. injection E1 as <-. injection E2 as <-. exact Hxy.
  - apply IH.
Qed.

Lemma view2_flat (o : Tensor) c h w :
  dims o = block c h w -> 0 < c ->
  view2 o = Ok (map (@concat _) o) /\
  Forall (fun row => length row = h * w) (map (@concat _) o) /\
  ncols (map (@concat _) o) = h * w.
Proof.
  intros Hd Hc. pose proof (block_rows o c h w Hd) as Hrows.
  pose proof (dims_block_length _ _ _ _ Hd) as Hlen.
  assert (Hflat : Forall (fun row => length row = h * w) (map (@concat _) o)).
  { apply Forall_map. eapply Forall_impl; [|exact Hrows].
    intros ch [H1 H2]. apply length_concat_uniform; assumption. }
  destruct o as [|ch o]; [simpl in Hlen; lia|].
  split; [reflexivity|]. split; [exact Hflat|].
  inversion Hflat; assumption.
Qed.

(** The guided objective on its own guide. *)
Lemma self_match (guide : list Tensor) (o : Tensor) c h w :
  nth_error guide 2 = Some o ->
  dims o = block c h w -> 0 < c -> 0 < h * w ->
  (forall i k, i < h * w -> k < h * w ->
     F32.is_nan (similarity (map (@concat _) o) (map (@concat _) o) i k) = false) ->
  exists idx,
    best_match guide guide = Ok idx /\
    my_grad_fn guide guide =
      Ok (2, view_as o (take_columns (map (@concat _) o) idx)) /\
    Forall2 (fun row j =>
               argmax row = Ok j /\ j < length row /\
               forall k, k < length row ->
                 F32.leb (nth k row F32.zero) (nth j row F32.zero) = true)
      (map (fun i => map (fun j =>
              similarity (map (@concat _) o) (map (@concat _) o) i j)
              (seq 0 (h * w))) (seq 0 (h * w)))
      idx.
Proof.
  intros Hg Hd Hc Hn Hnan.
  destruct (view2_flat o c h w Hd Hc) as (Hv & Hflat & Hcols).
  set (o2 := map (@concat _) o) in *.
  set (R := map (fun i => map (fun j => similarity o2 o2 i j) (seq 0 (h * w)))
                (seq 0 (h * w))).
  assert (Hm : matmul_t o2 o2 = Ok R).
  { unfold matmul_t. rewrite Nat.eqb_refl, Hcols. reflexivity. }
  destruct (argmax1_spec R) as (idx & Hidx & Hall).
  { unfold R. apply Forall_map, Forall_forall. intros i Hi.
    apply in_seq in Hi. split.
    - destruct (h * w); [lia|]. discriminate.
    - apply Forall_map, Forall_forall. intros k Hk. apply in_seq in Hk.
      apply Hnan; lia. }
  assert (Ha : argmax_rows (ncols o2) R = Ok idx).
  { unfold argmax_rows. rewrite Hcols.
    destruct (h * w =? 0) eqn:E0; [apply Nat.eqb_eq in E0; lia | exact Hidx]. }
  exists idx. unfold best_match, my_grad_fn. rewrite Hg, Hv. simpl.
  rewrite Hm. simpl. rewrite Ha. simpl. auto.
Qed.

End SelfMatch.

(* ================================================================== *)
(** ** The update for any reduction *)
(* ================================================================== *)

Section AnyReduction.

Variable model : Tensor -> result (list Tensor).
Variable backward : Tensor -> nat -> Tensor -> result Tensor.
Variable do_random_shifts : bool.
Variable tensor_mean : Tensor -> F32.t.

(** The loop of the development is the instance at the storage-order
    mean. *)
Lemma update_with_tmean lr (data grad : Tensor) :
  update_with tmean lr data grad = update lr data grad.
Proof. reflexivity. Qed.

Lemma dream_iter_with_tmean gf lr (data : Tensor) w :
  dream_iter_with model backward do_random_shifts tmean gf lr data w =
  dream_iter model backward do_random_shifts gf lr data w.
Proof. reflexivity. Qed.



End AnyReduction.

(* ================================================================== *)
(** ** The claims *)
(* ================================================================== *)

(** C7. With iteration count 0, [dream] makes no optimization step and
    never enters the network or the objective (the world, with its call
    counters and the random source, is returned untouched), whatever the
    objective and the learning rate are; its output is the pre-processed
    (normalized) image sent through [unnormalize] and clamped to [0, 1]. *)
Theorem dream_zero_iterations :
  forall resample model backward shifts img grad_fn learning_rate w,
    dream resample model backward shifts img 0 grad_fn learning_rate w =
    (rbind (img_transform resample img) (fun data =>
       rbind (unnormalize data) (fun u =>
         Ok (permute_1_2_0 (tmap (F32.clamp F32.zero F32.one) u)))),
     w).
Proof.
  intros. apply dream_no_iteration. lia.
Qed.

(** C4, as the code has it: a negative iteration count and a
    non-positive learning rate are not rejected. *)
Lemma dream_invalid_configuration_not_rejected :
  (exists out,
     dream nearest id_net id_backward true (gray 2 3) (-1) default_grad_fn
           (F32.opp F32.one) (world0 0) = (Ok out, world0 0)) /\
  forward_calls
    (snd (dream nearest id_net id_backward true (gray 2 3) 1 default_grad_fn
                (F32.opp F32.one) (world0 0))) <> 0.
Proof.
  split.
  - apply dream_no_iteration_ok; simpl; lia.
  - unfold dream, bind, lift.
    destruct (img_transform_ok nearest (gray 2 3) eq_refl) as [d ->];
      [simpl; lia | simpl; lia |].
    change (Z.to_nat 1) with 1. simpl dream_loop. unfold bind.
    pose proof (dream_iter_forward_calls id_net id_backward true default_grad_fn
                  (F32.opp F32.one) d (world0 0)) as H.
    destruct (dream_iter _ _ _ _ _ _ _) as [[d1|e] w1]; simpl in *.
    + unfold ret. destruct (to_display d1); simpl; lia.
    + lia.
Qed.

(** C4 (amended). [dream] does not validate its configuration.  With a
    negative iteration count it runs no iteration and returns, without any
    forward pass, what it returns for 0 iterations; with a positive
    iteration count the forward pass of the first iteration is entered,
    also when the learning rate is zero or negative. *)
Theorem dream_accepts_any_configuration :
  forall resample model backward shifts img n grad_fn learning_rate w,
    bands img = 3 -> 0 < width img -> 0 < height img ->
    (n < 0)%Z \/ F32.leb learning_rate F32.zero = true ->
    ((n <= 0)%Z ->
       exists out,
         dream resample model backward shifts img n grad_fn learning_rate w
           = (Ok out, w) /\
         dream resample model backward shifts img 0 grad_fn learning_rate w
           = (Ok out, w)) /\
    ((0 < n)%Z ->
       forward_calls w <
       forward_calls
         (snd (dream resample model backward shifts img n grad_fn
                     learning_rate w))).
Proof.
  intros resample model backward shifts img n gf lr w Hb Hw Hh _. split.
  - intros Hn.
    destruct (dream_no_iteration_ok resample model backward shifts img n gf lr w
                Hn Hb Hw Hh) as [out Hout].
    exists out. split; [exact Hout|].
    rewrite dream_no_iteration in Hout by exact Hn.
    rewrite dream_no_iteration by lia. exact Hout.
  - intros Hn. unfold dream, bind, lift.
    destruct (img_transform_ok resample img Hb Hw Hh) as [d ->].
    destruct (Z.to_nat n) as [|k] eqn:E; [lia|]. simpl dream_loop. unfold bind.
    pose proof (dream_iter_forward_calls model backward shifts gf lr d w) as H.
    destruct (dream_iter _ _ _ _ _ _ _) as [[d1|e] w1]; simpl in H.
    + pose proof (dream_loop_forward_calls model backward shifts gf lr k d1 w1)
        as H1.
      destruct (dream_loop _ _ _ _ _ _ _ _) as [[d2|e] w2]; simpl in *.
      * destruct (to_display d2); simpl; lia.
      * lia.
    + simpl. lia.
Qed.

Lemma dream_accepts_any_configuration_witness :
  (exists out,
     dream nearest id_net id_backward true (gray 2 3) (-3) default_grad_fn
           (F32.opp F32.one) (world0 0) = (Ok out, world0 0) /\
     dream nearest id_net id_backward true (gray 2 3) 0 default_grad_fn
           (F32.opp F32.one) (world0 0) = (Ok out, world0 0)) /\
  forward_calls (world0 0) <
  forward_calls
    (snd (dream nearest id_net id_backward true (gray 2 3) 2 default_grad_fn
                F32.zero (world0 0))).
Proof.
  split.
  - apply (dream_accepts_any_configuration nearest id_net id_backward true
             (gray 2 3) (-3) default_grad_fn (F32.opp F32.one) (world0 0));
      simpl; try lia; try reflexivity.
  - apply (dream_accepts_any_configuration nearest id_net id_backward true
             (gray 2 3) 2 default_grad_fn F32.zero (world0 0));
      simpl; try lia; try reflexivity. right. reflexivity.
Defined.

(** C9. With the random shifts disabled, the outcome of [dream] (the
    image, or the exception) is a function of the image, the objective,
    the iteration count and the learning rate alone: two runs give the
    same outcome whatever the state of the random source and of the rest of
    the world, and a run draws nothing from the random source. *)
Theorem dream_deterministic_without_shifts :
  forall resample model backward img n grad_fn learning_rate w1 w2,
    fst (dream resample model backward false img n grad_fn learning_rate w1) =
    fst (dream resample model backward false img n grad_fn learning_rate w2) /\
    rng_pos (snd (dream resample model backward false img n grad_fn
                        learning_rate w1)) = rng_pos w1.
Proof.
  intros resample model backward img n gf lr w1 w2.
  unfold dream, bind, lift.
  destruct (img_transform resample img) as [d|e]; [|auto].
  destruct (dream_loop_no_shift model backward gf lr (Z.to_nat n) d w1 w2)
    as [Hr Hp].
  destruct (dream_loop model backward false (Z.to_nat n) gf lr d w1)
    as [[d1|e1] u1];
    destruct (dream_loop model backward false (Z.to_nat n) gf lr d w2)
      as [[d2|e2] u2];
    simpl in *; try discriminate.
  - injection Hr as ->. auto.
  - auto.
Qed.

(** C6, as the code has it: a 2x3 source image comes back as a 384x256
    image. *)
Lemma dream_changes_image_size :
  exists out w',
    dream nearest id_net id_backward true (gray 2 3) 0 default_grad_fn
          lr_default (world0 0) = (Ok out, w') /\
    dims out = block 384 256 3 /\
    dims out <> block (height (gray 2 3)) (width (gray 2 3)) 3.
Proof.
  destruct (dream_no_iteration_ok nearest id_net id_backward true (gray 2 3) 0
              default_grad_fn lr_default (world0 0))
    as [out Hout]; try (simpl; lia).
  exists out, (world0 0). split; [exact Hout|].
  destruct (dream_dims _ _ _ _ _ _ _ _ _ _ _ Hout) as (ow & oh & Hr & Hd).
  assert (E : resize_dims 256 (width (gray 2 3)) (height (gray 2 3))
              = Ok (256, 384)) by (vm_compute; reflexivity).
  rewrite E in Hr. injection Hr as <- <-.
  split; [exact Hd|].
  rewrite Hd. intros C. apply (f_equal (@length _)) in C.
  unfold block in C. rewrite !repeat_length in C. discriminate C.
Qed.

(** C6 (amended). A successful run of [dream] returns an image whose
    spatial dimensions are those of the source image after
    [transforms.Resize(256)] (the smaller edge scaled to 256 pixels, the
    aspect ratio kept), in height x width x 3 layout; they are the
    dimensions of the source image when its smaller edge is 256 pixels. *)
Theorem dream_output_size :
  forall resample model backward shifts img n grad_fn learning_rate w out w',
    dream resample model backward shifts img n grad_fn learning_rate w
      = (Ok out, w') ->
    (exists ow oh,
       resize_dims 256 (width img) (height img) = Ok (ow, oh) /\
       dims out = block oh ow 3) /\
    (Nat.min (width img) (height img) = 256 ->
       dims out = block (height img) (width img) 3).
Proof.
  intros resample model backward shifts img n gf lr w out w' H.
  destruct (dream_dims _ _ _ _ _ _ _ _ _ _ _ H) as (ow & oh & Hr & Hd).
  split; [exists ow, oh; auto|].
  intros Hmin. rewrite (resize_dims_exact _ _ _ Hmin) in Hr.
  injection Hr as <- <-. exact Hd.
Qed.

Lemma dream_output_size_witness :
  exists out w',
    dream nearest id_net id_backward true (gray 2 3) 0 default_grad_fn
          lr_default (world0 0) = (Ok out, w') /\
    exists ow oh,
      resize_dims 256 (width (gray 2 3)) (height (gray 2 3)) = Ok (ow, oh) /\
      dims out = block oh ow 3.
Proof.
  destruct (dream_no_iteration_ok nearest id_net id_backward true (gray 2 3) 0
              default_grad_fn lr_default (world0 0))
    as [out Hout]; try (simpl; lia).
  exists out, (world0 0). split; [exact Hout|].
  exact (proj1 (dream_output_size nearest id_net id_backward true (gray 2 3) 0
                  default_grad_fn lr_default (world0 0) out (world0 0) Hout)).
Defined.

(** C10. With the random shifts enabled, start the loop on a working
    image of shape 3 x h x w.  After any number of iterations the working
    image still has that shape; the gradient of the next iteration has that
    shape too, because the network is run on a crop [data[:, a:-b, c:-d]]
    (offsets drawn in 0..20 and 1..20) and the gradient of the crop comes
    back embedded in a full-size tensor; and the image that is returned
    from there has the full size h x w x 3. *)
Theorem shifted_loop_keeps_full_shape :
  forall model backward grad_fn learning_rate data h x,
    dims data = block 3 h x ->
    forall i w di wi,
      dream_loop model backward true i grad_fn learning_rate data w
        = (Ok di, wi) ->
      dims di = block 3 h x /\
      (forall g w',
         image_grad model backward true grad_fn di wi = (Ok g, w') ->
         dims g = block 3 h x /\
         exists a b c d out k seed gx,
           (a <= 20 /\ 1 <= b <= 20 /\ c <= 20 /\ 1 <= d <= 20) /\
           model (crop a b c d di) = Ok out /\
           grad_fn out = Ok (k, seed) /\
           backward (crop a b c d di) k seed = Ok gx /\
           g = crop_backward a b c d di gx) /\
      (forall out, to_display di = Ok out -> dims out = block h x 3).
Proof.
  intros model backward gf lr data h x Hd i w di wi Hl.
  assert (Hdi : dims di = block 3 h x).
  { rewrite (dream_loop_dims model backward true gf lr i data w di wi
               (dims_block_length _ _ _ _ Hd) Hl). exact Hd. }
  split; [exact Hdi|]. split.
  - intros g w' Hg.
    pose proof (image_grad_shift_inv model backward gf di wi g w' Hg) as Hinv.
    split; [|exact Hinv].
    destruct Hinv as (a & b & c & d & out & k & seed & gx & _ & _ & _ & _ & ->).
    rewrite dims_crop_backward. exact Hdi.
  - intros out Ho. apply (to_display_dims di out 3 h x Ho Hdi). lia.
Qed.

Lemma shifted_loop_keeps_full_shape_witness :
  exists di wi,
    dream_loop id_net id_backward true 2 default_grad_fn lr_default small
               (world0 0) = (Ok di, wi) /\
    dims di = block 3 2 2.
Proof.
  eexists. eexists. split.
  - vm_compute. reflexivity.
  - refine (proj1 (shifted_loop_keeps_full_shape id_net id_backward
                     default_grad_fn lr_default small 2 2 eq_refl
                     2 (world0 0) _ _ _)).
    vm_compute. reflexivity.
Defined.



(** C5, as the code has it: on a network of all-zero activations the
    first step is not a no-op.  The division by the zero mean raises
    nothing, and the pre-processed image, whose elements are numbers, comes
    out of the step as NaN. *)
Lemma zero_gradient_step_is_not_a_noop :
  exists d d' w' v,
    img_transform nearest (gray 2 3) = Ok d /\
    dream_iter zero_net zero_backward false default_grad_fn lr_default d
               (world0 0) = (Ok d', w') /\
    tget d 0 0 0 = Some v /\ F32.is_nonzero_finite v = true /\
    tget d' 0 0 0 = Some S754_nan.
Proof.
  destruct (img_transform_ok nearest (gray 2 3) eq_refl) as [d Hd];
    try (simpl; lia).
  destruct (img_transform_dims _ _ _ Hd) as (ow & oh & Hr & Hdims).
  assert (E : resize_dims 256 (width (gray 2 3)) (height (gray 2 3))
              = Ok (256, 384)) by (vm_compute; reflexivity).
  rewrite E in Hr. injection Hr as <- <-.
  destruct (tget_block d 3 384 256 0 0 0 Hdims) as [v Hv]; try lia.
  exists d, (tmap (fun _ => S754_nan) d),
    (World (entropy (world0 0)) (rng_pos (world0 0))
           (S (forward_calls (world0 0))) (S (objective_calls (world0 0)))), v.
  split; [exact Hd|]. split.
  - apply zero_net_iter; [|reflexivity].
    exact (dims_block_length _ _ _ _ Hdims).
  - split; [exact Hv|]. split.
    + pose proof (img_transform_pixels _ _ _ Hd) as Hp.
      apply (chan3_tall _ (fun v => F32.is_nonzero_finite v = true)) in Hp.
      * exact (tall_tget _ _ _ _ _ _ Hp Hv).
      * intros c u Hc [p ->]. apply (pixel_facts c p Hc).
    + rewrite tget_tmap, Hv. reflexivity.
Qed.

(** C5 (amended). When the gradient of an iteration is all zero, [dream]
    raises no division by zero, but the step is not a no-op: the mean
    absolute gradient is zero (NaN for an empty image), every update term
    is 0/0, every element of the working image becomes NaN, and an image of
    NaN is returned as an image of NaN. *)
Theorem zero_gradient_step :
  forall model backward shifts grad_fn learning_rate data w grad w',
    length data = 3 ->
    F32.is_finite learning_rate = true ->
    image_grad model backward shifts grad_fn data w = (Ok grad, w') ->
    dims grad = dims data ->
    tforall F32.is_zero grad = true ->
    (F32.is_zero (grad_mean grad) = true \/
     F32.is_nan (grad_mean grad) = true) /\
    dream_iter model backward shifts grad_fn learning_rate data w =
      (Ok (tmap (fun _ => S754_nan) data), w') /\
    to_display (tmap (fun _ => S754_nan) data) =
      Ok (permute_1_2_0 (tmap (fun _ => S754_nan) data)).
Proof.
  intros model backward shifts gf lr data w grad w' Hlen Hlr Hg Hd Hz.
  apply tforall_tall in Hz.
  split; [apply grad_mean_of_zeros; exact Hz|]. split.
  - unfold dream_iter, bind, lift. rewrite Hg.
    rewrite update_zero_gradient by assumption. reflexivity.
  - apply to_display_nan. exact Hlen.
Qed.

Lemma zero_gradient_step_witness :
  dream_iter zero_net zero_backward true default_grad_fn lr_default small
             (world0 0) =
  (Ok (tmap (fun _ => S754_nan) small), World (fun _ => 0) 4 1 1).
Proof.
  refine (proj1 (proj2 (zero_gradient_step zero_net zero_backward true
            default_grad_fn lr_default small (world0 0)
            (tmap (fun _ => F32.zero) small) (World (fun _ => 0) 4 1 1)
            eq_refl eq_refl _ eq_refl eq_refl))).
  vm_compute. reflexivity.
Defined.

(** C2, as the code has it: on a network of all-zero activations one
    iteration returns an image of NaN, which is no number of [0, 1]. *)
Lemma dream_returns_nan :
  exists out w',
    dream nearest zero_net zero_backward false (gray 2 3) 1 default_grad_fn
          lr_default (world0 0) = (Ok out, w') /\
    tget out 0 0 0 = Some S754_nan /\
    F32.within F32.zero F32.one S754_nan = false.
Proof.
  destruct (zero_net_dream lr_default (gray 2 3) (world0 0) eq_refl
              ltac:(simpl; lia) ltac:(simpl; lia) eq_refl)
    as (d & oh & ow & Hd & Hdims & Hr & Hrun).
  assert (E : resize_dims 256 (width (gray 2 3)) (height (gray 2 3))
              = Ok (256, 384)) by (vm_compute; reflexivity).
  rewrite E in Hr. injection Hr as <- <-.
  eexists. eexists. split; [exact Hrun|]. split; [|reflexivity].
  rewrite (tget_permute _ 3 384 256) by (rewrite ?dims_tmap; auto; lia).
  destruct (tget_block d 3 384 256 0 0 0 Hdims) as [v Hv]; try lia.
  rewrite tget_tmap, Hv. reflexivity.
Qed.

(** C2 (amended). Every element of the image returned by [dream] is NaN
    or lies in [0, 1]; with no iteration (count 0 or negative) every
    element lies in [0, 1].  NaN is what comes out when an iteration has an
    all-zero gradient. *)
Theorem dream_output_range :
  forall resample model backward shifts img n grad_fn learning_rate w out w',
    dream resample model backward shifts img n grad_fn learning_rate w
      = (Ok out, w') ->
    (forall i j k v,
       tget out i j k = Some v ->
       F32.is_nan v = true \/ F32.within F32.zero F32.one v = true) /\
    ((n <= 0)%Z ->
     forall i j k v,
       tget out i j k = Some v -> F32.within F32.zero F32.one v = true).
Proof.
  intros resample model backward shifts img n gf lr w out w' H. split.
  - destruct (dream_inv _ _ _ _ _ _ _ _ _ _ _ H) as (d & d' & _ & _ & Ho).
    destruct (to_display_inv _ _ Ho) as (u & _ & ->).
    intros i j k v Hv.
    refine (tall_tget
              (fun v => F32.is_nan v = true \/
                        F32.within F32.zero F32.one v = true)
              _ _ _ _ _ _ Hv).
    apply tall_permute; [right; reflexivity|].
    apply (tall_tmap (fun _ => True)); [|apply tall_True].
    intros x _. apply F32Facts.clamp_nan_or_within. reflexivity.
  - intros Hn i j k v Hv.
    exact (tall_tget _ _ _ _ _ _
             (dream_no_iteration_range _ _ _ _ _ _ _ _ _ _ _ Hn H) Hv).
Qed.

Lemma dream_output_range_witness :
  exists out w',
    dream nearest id_net id_backward true (gray 2 3) 0 default_grad_fn
          lr_default (world0 0) = (Ok out, w') /\
    forall i j k v,
      tget out i j k = Some v -> F32.within F32.zero F32.one v = true.
Proof.
  destruct (dream_no_iteration_ok nearest id_net id_backward true (gray 2 3) 0
              default_grad_fn lr_default (world0 0))
    as [out Hout]; try (simpl; lia).
  exists out, (world0 0). split; [exact Hout|].
  apply (proj2 (dream_output_range nearest id_net id_backward true (gray 2 3) 0
                  default_grad_fn lr_default (world0 0) out (world0 0) Hout)).
  lia.
Defined.

(** C8, as the code has it: with learning rate 0 on a network of all-zero
    activations, one iteration returns an image of NaN, while the image
    round-tripped through normalize and unnormalize and clamped (the outcome
    of 0 iterations) consists of numbers of [0, 1]. *)
Lemma zero_rate_changes_the_image :
  exists out0 out1 w0 w1 v,
    dream nearest zero_net zero_backward false (gray 2 3) 0 default_grad_fn
          F32.zero (world0 0) = (Ok out0, w0) /\
    dream nearest zero_net zero_backward false (gray 2 3) 1 default_grad_fn
          F32.zero (world0 0) = (Ok out1, w1) /\
    tget out0 0 0 0 = Some v /\ F32.within F32.zero F32.one v = true /\
    tget out1 0 0 0 = Some S754_nan.
Proof.
  destruct (zero_net_dream F32.zero (gray 2 3) (world0 0) eq_refl
              ltac:(simpl; lia) ltac:(simpl; lia) eq_refl)
    as (d & oh & ow & Hd & Hdims & Hr & Hrun).
  assert (E : resize_dims 256 (width (gray 2 3)) (height (gray 2 3))
              = Ok (256, 384)) by (vm_compute; reflexivity).
  rewrite E in Hr. injection Hr as <- <-.
  destruct (dream_no_iteration_ok nearest zero_net zero_backward false
              (gray 2 3) 0 default_grad_fn F32.zero (world0 0))
    as [out0 Hout0]; try (simpl; lia).
  destruct (dream_dims _ _ _ _ _ _ _ _ _ _ _ Hout0) as (ow & oh & Hr & Hd0).
  rewrite E in Hr. injection Hr as <- <-.
  destruct (tget_block out0 384 256 3 0 0 0 Hd0) as [v Hv]; try lia.
  exists out0. eexists. exists (world0 0). eexists. exists v.
  split; [exact Hout0|]. split; [exact Hrun|]. split; [exact Hv|]. split.
  - refine (tall_tget _ _ _ _ _ _
              (dream_no_iteration_range _ _ _ _ _ _ _ _ _ _ _ _ Hout0) Hv).
    lia.
  - rewrite (tget_permute _ 3 384 256) by (rewrite ?dims_tmap; auto; lia).
    destruct (tget_block d 3 384 256 0 0 0 Hdims) as [u Hu]; try lia.
    rewrite tget_tmap, Hu. reflexivity.
Qed.

(** C8 (amended). With learning rate 0 and any iteration count, the
    outcome of [dream] is exactly the pre-processed image round-tripped
    through [unnormalize] and clamped to [0, 1] (the outcome of 0
    iterations), provided the gradients computed on the pre-processed image
    are numbers whose mean magnitude is a nonzero number: the update term
    of every element is then a zero.  (With an all-zero gradient the image
    becomes NaN instead.) *)
Theorem zero_rate_keeps_image :
  forall resample model backward shifts img n grad_fn learning_rate w,
    F32.is_zero learning_rate = true ->
    (forall d, img_transform resample img = Ok d ->
               regular_gradients model backward shifts grad_fn d) ->
    fst (dream resample model backward shifts img n grad_fn learning_rate w) =
    rbind (img_transform resample img) to_display /\
    fst (dream resample model backward shifts img n grad_fn learning_rate w) =
    fst (dream resample model backward shifts img 0 grad_fn learning_rate w).
Proof.
  intros resample model backward shifts img n gf lr w Hlr Hreg.
  assert (E : fst (dream resample model backward shifts img n gf lr w) =
              rbind (img_transform resample img) to_display).
  { unfold dream, bind, lift.
    destruct (img_transform resample img) as [d|e] eqn:Hd; [|reflexivity].
    destruct (dream_loop_zero_rate model backward shifts gf lr d (Z.to_nat n)
                (img_transform_pixels _ _ _ Hd) Hlr (Hreg d eq_refl) w)
      as [w' ->].
    reflexivity. }
  split; [exact E|].
  rewrite E, dream_no_iteration by lia. reflexivity.
Qed.

Lemma zero_rate_keeps_image_witness :
  fst (dream nearest id_net steep_backward false (gray 2 3) 3 default_grad_fn
             F32.zero (world0 0)) =
  fst (dream nearest id_net steep_backward false (gray 2 3) 0 default_grad_fn
             F32.zero (world0 0)).
Proof.
  refine (proj2 (zero_rate_keeps_image nearest id_net steep_backward false
                   (gray 2 3) 3 default_grad_fn F32.zero (world0 0)
                   eq_refl _)).
  intros d Hd. apply (steep_gradients_regular (gray 2 3) d Hd).
  vm_compute. reflexivity.
Defined.

(** C3, as the code has it: with the guide equal to the working feature
    list, a stage of one channel with the activations 1 and 2 at its two
    locations matches both locations with the second one (1 * 2 > 1 * 1),
    and the injected gradient (2, 2) is not the activation tensor (1, 2). *)
Lemma guided_self_match_prefers_larger_features :
  nth_error feat 2 = Some [[[F32.one; two]]] /\
  best_match feat feat = Ok [1; 1] /\
  my_grad_fn feat feat = Ok (2, [[[two; two]]]).
Proof. vm_compute. auto. Qed.

(** C3 (amended). For the guided-similarity objective with the guide
    equal to the working feature list (a stage of shape c x h x w whose
    similarities are numbers), the argmax selects for every location i a
    location j whose dot-product similarity with i is maximal among all
    locations, not necessarily i itself, and the injected gradient holds at
    i the feature vector of the selected location.  When at every location
    the self-similarity is strictly greater than the similarity with every
    other location, the selected location is the location itself and the
    injected gradient is the original activation tensor. *)
Theorem guided_self_match :
  forall (guide : list Tensor) (o : Tensor) c h w,
    nth_error guide 2 = Some o ->
    dims o = block c h w -> 0 < c -> 0 < h * w ->
    (forall i k, i < h * w -> k < h * w ->
       F32.is_nan (similarity (map (@concat _) o) (map (@concat _) o) i k)
       = false) ->
    exists idx,
      best_match guide guide = Ok idx /\
      my_grad_fn guide guide =
        Ok (2, view_as o (take_columns (map (@concat _) o) idx)) /\
      length idx = h * w /\
      (forall i j,
         nth_error idx i = Some j ->
         j < h * w /\
         forall k, k < h * w ->
           F32.leb (similarity (map (@concat _) o) (map (@concat _) o) i k)
                   (similarity (map (@concat _) o) (map (@concat _) o) i j)
           = true) /\
      ((forall i k, i < h * w -> k < h * w -> k <> i ->
          F32.ltb (similarity (map (@concat _) o) (map (@concat _) o) i k)
                  (similarity (map (@concat _) o) (map (@concat _) o) i i)
          = true) ->
       idx = seq 0 (h * w) /\ my_grad_fn guide guide = Ok (2, o)).
Proof.
  intros guide o c h w Hg Hd Hc Hn Hnan.
  destruct (self_match guide o c h w Hg Hd Hc Hn Hnan) as (idx & Hb & Hm & Hall).
  set (o2 := map (@concat _) o) in *.
  set (N := h * w) in *.
  assert (Hlen : length idx = N).
  { apply Forall2_length in Hall. rewrite length_map, length_seq in Hall.
    symmetry. exact Hall. }
  assert (Hat : forall i j, nth_error idx i = Some j ->
            i < N /\ j < N /\
            forall k, k < N ->
              F32.leb (similarity o2 o2 i k) (similarity o2 o2 i j) = true).
  { intros i j Hj.
    assert (Hi : i < N) by (rewrite <- Hlen; apply nth_error_Some; congruence).
    assert (Hrow : nth_error
              (map (fun i => map (fun j => similarity o2 o2 i j) (seq 0 N))
                   (seq 0 N)) i
            = Some (map (fun j => similarity o2 o2 i j) (seq 0 N))).
    { rewrite nth_error_map, nth_error_seq.
      replace (i <? N) with true by (symmetry; apply Nat.ltb_lt; exact Hi).
      reflexivity. }
    destruct (Forall2_at _ _ _ _ _ _ Hall Hrow Hj) as (_ & Hjl & Hmax).
    rewrite length_map, length_seq in Hjl, Hmax.
    split; [exact Hi|]. split; [exact Hjl|].
    intros k Hk. specialize (Hmax k Hk).
    rewrite !nth_map_seq in Hmax by assumption. exact Hmax. }
  exists idx. split; [exact Hb|]. split; [exact Hm|]. split; [exact Hlen|].
  split.
  - intros i j Hj. destruct (Hat i j Hj) as (_ & H1 & H2). auto.
  - intros Hstrict.
    assert (Hid : idx = seq 0 N).
    { apply nth_error_ext. intros i. rewrite nth_error_seq.
      destruct (i <? N) eqn:Ei.
      - apply Nat.ltb_lt in Ei.
        destruct (nth_error idx i) as [j|] eqn:Ej.
        + destruct (Hat i j Ej) as (_ & Hjl & Hmax).
          destruct (Nat.eq_dec j i) as [->|Hne]; [reflexivity|].
          specialize (Hmax i Ei). specialize (Hstrict i j Ei Hjl Hne).
          apply F32Facts.leb_ltb_false in Hmax. congruence.
        + apply nth_error_None in Ej. lia.
      - apply Nat.ltb_ge in Ei. apply nth_error_None. lia. }
    split; [exact Hid|]. rewrite Hm, Hid. do 2 f_equal.
    destruct (view2_flat o c h w Hd Hc) as (_ & Hflat & _).
    fold o2 in Hflat. fold N in Hflat.
    assert (Ht : take_columns o2 (seq 0 N) = o2).
    { unfold take_columns. rewrite <- (map_id o2) at 2.
      apply (map_ext_Forall (fun row => length row = N)); [|exact Hflat].
      intros row <-. apply map_nth_seq. }
    rewrite Ht. apply (view_as_view2 o c h w Hd). unfold N in Hn. nia.
Qed.

Lemma guided_self_match_witness :
  best_match feat_unit feat_unit = Ok [0; 1] /\
  my_grad_fn feat_unit feat_unit =
    Ok (2, [[[F32.one; F32.zero]]; [[F32.zero; F32.one]]]).
Proof.
  destruct (guided_self_match feat_unit
              [[[F32.one; F32.zero]]; [[F32.zero; F32.one]]] 2 1 2
              eq_refl eq_refl)
    as (idx & Hb & _ & _ & _ & Hid); try lia.
  - intros i k Hi Hk.
    destruct i as [|[|i]], k as [|[|k]]; try lia; reflexivity.
  - destruct Hid as [-> Hg].
    + intros i k Hi Hk Hne.
      destruct i as [|[|i]], k as [|[|k]]; try lia; reflexivity.
    + split; [exact Hb | exact Hg].
Defined.

(* ================================================================== *)
(** ** Further properties: the random crop *)
(* ================================================================== *)

Section Crop.

Lemma length_py_slice {A} (a b : nat) (l : list A) :
  length (py_slice a b l) = length l - b - a.
Proof.
  unfold py_slice. rewrite length_skipn, length_firstn. lia.
Qed.

Lemma Forall_py_slice {A} (P : A -> Prop) (a b : nat) (l : list A) :
  Forall P l -> Forall P (py_slice a b l).
Proof.
  intros H. rewrite Forall_forall in *. intros x Hx. apply H.
  unfold py_slice in Hx.
  assert (H1 : incl (skipn a (firstn (length l - b) l))
                    (firstn (length l - b) l)).
  { intros y Hy. rewrite <- (firstn_skipn a (firstn (length l - b) l)).
    apply in_or_app. right. exact Hy. }
  assert (H2 : incl (firstn (length l - b) l) l).
  { intros y Hy. rewrite <- (firstn_skipn (length l - b) l).
    apply in_or_app. left. exact Hy. }
  apply H2, H1, Hx.
Qed.

Lemma dims_crop a b c d (data : Tensor) n h w :
  dims data = block n h w ->
  dims (crop a b c d data) = block n (h - b - a) (w - d - c).
Proof.
  intros Hd. pose proof (block_rows data n h w Hd) as Hrows.
  pose proof (dims_block_length _ _ _ _ Hd) as Hlen.
  unfold dims, crop, block. rewrite map_map.
  rewrite (map_ext_Forall
             (fun ch => length ch = h /\ Forall (fun r => length r = w) ch)
             _ (fun _ => repeat (w - d - c) (h - b - a)) data);
    [|intros ch [H1 H2]|exact Hrows].
  - rewrite (map_const _ (repeat (w - d - c) (h - b - a)))
      by reflexivity.
    rewrite Hlen. reflexivity.
  - rewrite map_map.
    rewrite (map_ext_Forall (fun r => length r = w) _ (fun _ => w - d - c)).
    + rewrite (map_const _ (w - d - c)) by reflexivity.
      rewrite length_py_slice, H1. reflexivity.
    + intros r Hr. rewrite length_py_slice, Hr. reflexivity.
    + apply Forall_py_slice. exact H2.
Qed.

Lemma random_shift_run (data : Tensor) w :
  random_shift data w =
  (Ok (crop (entropy w (rng_pos w) mod 21)
            (S (entropy w (S (rng_pos w)) mod 20))
            (entropy w (S (S (rng_pos w))) mod 21)
            (S (entropy w (S (S (S (rng_pos w)))) mod 20)) data,
       (entropy w (rng_pos w) mod 21,
        S (entropy w (S (rng_pos w)) mod 20),
        entropy w (S (S (rng_pos w))) mod 21,
        S (entropy w (S (S (S (rng_pos w)))) mod 20))),
   World (entropy w) (S (S (S (S (rng_pos w)))))
         (forward_calls w) (objective_calls w)).
Proof. reflexivity. Qed.

(** The size that [Resize(size)] computes has [size] as its smaller
    edge. *)
Lemma resize_dims_min size w h ow oh :
  resize_dims size w h = Ok (ow, oh) -> Nat.min ow oh = size.
Proof.
  unfold resize_dims.
  destruct (((w <=? h) && (w =? size)) || ((h <=? w) && (h =? size))) eqn:E.
  - intros H. injection H as <- <-.
    apply orb_true_iff in E. destruct E as [E|E];
      apply andb_true_iff in E; destruct E as [E1 E2];
      apply Nat.leb_le in E1; apply Nat.eqb_eq in E2; lia.
  - destruct (w <? h) eqn:Ewh.
    + destruct (w =? 0) eqn:E0; [discriminate|].
      intros H. injection H as <- <-.
      apply Nat.ltb_lt in Ewh. apply Nat.eqb_neq in E0.
      apply Nat.min_l. apply Nat.div_le_lower_bound; [exact E0|].
      rewrite Nat.mul_comm. apply Nat.mul_le_mono_l. lia.
    + destruct (h =? 0) eqn:E0; [discriminate|].
      intros H. injection H as <- <-.
      apply Nat.ltb_ge in Ewh. apply Nat.eqb_neq in E0.
      apply Nat.min_r. apply Nat.div_le_lower_bound; [exact E0|].
      rewrite Nat.mul_comm. apply Nat.mul_le_mono_l. lia.
Qed.

End Crop.

(** The crop that [random_shift] takes, and what it does to the world. *)
Lemma random_shift_crop :
  forall (data : Tensor) n h wd w,
    dims data = block n h wd ->
    exists a b c d w',
      random_shift data w = (Ok (crop a b c d data, (a, b, c, d)), w') /\
      (a <= 20 /\ 1 <= b <= 20 /\ c <= 20 /\ 1 <= d <= 20) /\
      dims (crop a b c d data) = block n (h - b - a) (wd - d - c) /\
      rng_pos w' = rng_pos w + 4 /\
      entropy w' = entropy w /\
      forward_calls w' = forward_calls w /\
      objective_calls w' = objective_calls w.
Proof.
  intros data n h wd w Hd.
  eexists _, _, _, _, _. split; [apply random_shift_run|].
  assert (Ha : entropy w (rng_pos w) mod 21 < 21)
    by (apply Nat.mod_upper_bound; discriminate).
  assert (Hb : entropy w (S (rng_pos w)) mod 20 < 20)
    by (apply Nat.mod_upper_bound; discriminate).
  assert (Hc : entropy w (S (S (rng_pos w))) mod 21 < 21)
    by (apply Nat.mod_upper_bound; discriminate).
  assert (Hd' : entropy w (S (S (S (rng_pos w)))) mod 20 < 20)
    by (apply Nat.mod_upper_bound; discriminate).
  split; [lia|]. split; [apply dims_crop; exact Hd|].
  simpl. repeat split; lia.
Qed.

(** X1. [random_shift] never raises and draws exactly four numbers from
    the random source; on a tensor of shape n x h x w it returns the
    slice [data[:, a:-b, c:-d]] with a, c in 0..20 and b, d in 1..20, whose
    shape is n x (h - b - a) x (w - d - c): between 1 and 40 rows and
    columns are cut, and nothing is left of fewer than b + a + 1 rows. *)
Theorem random_shift_shape :
  forall (data : Tensor) n h wd w,
    dims data = block n h wd ->
    exists a b c d w',
      random_shift data w = (Ok (crop a b c d data, (a, b, c, d)), w') /\
      (a <= 20 /\ 1 <= b <= 20 /\ c <= 20 /\ 1 <= d <= 20) /\
      dims (crop a b c d data) = block n (h - b - a) (wd - d - c) /\
      rng_pos w' = rng_pos w + 4 /\
      entropy w' = entropy w /\
      forward_calls w' = forward_calls w /\
      objective_calls w' = objective_calls w.
Proof.
  exact random_shift_crop.
Qed.

Lemma random_shift_shape_witness :
  exists a b c d w',
    random_shift small (world0 7) = (Ok (crop a b c d small, (a, b, c, d)), w') /\
    dims (crop a b c d small) = block 3 (2 - b - a) (2 - d - c) /\
    rng_pos w' = 4.
Proof.
  destruct (random_shift_shape small 3 2 2 (world0 7) eq_refl)
    as (a & b & c & d & w' & Hr & _ & Hd & Hp & _).
  exists a, b, c, d, w'. auto.
Defined.

(** X2. Inside [dream] the random crop is never empty: the pre-processed
    image has 3 channels and at least 256 rows and columns (its smaller
    edge is 256), so every crop that [random_shift] takes of it keeps at
    least 216 rows and 216 columns. *)
Theorem dream_crop_is_not_empty :
  forall resample img d w,
    img_transform resample img = Ok d ->
    exists a b c d' w' h wd,
      random_shift d w = (Ok (crop a b c d' d, (a, b, c, d')), w') /\
      dims (crop a b c d' d) = block 3 h wd /\
      216 <= h /\ 216 <= wd.
Proof.
  intros resample img d w Hd.
  destruct (img_transform_dims _ _ _ Hd) as (ow & oh & Hr & Hdims).
  destruct (random_shift_crop d 3 oh ow w Hdims)
    as (a & b & c & d' & w' & Hrun & Hb & Hc & _).
  pose proof (resize_dims_min _ _ _ _ _ Hr) as Hmin.
  exists a, b, c, d', w', (oh - b - a), (ow - d' - c).
  split; [exact Hrun|]. split; [exact Hc|].
  assert (H256 : 256 = 216 + 40) by reflexivity.
  rewrite H256 in Hmin. clear H256. lia.
Qed.

Lemma dream_crop_is_not_empty_witness :
  exists d a b c d' w' h wd,
    img_transform nearest (gray 2 3) = Ok d /\
    random_shift d (world0 19) = (Ok (crop a b c d' d, (a, b, c, d')), w') /\
    dims (crop a b c d' d) = block 3 h wd /\
    216 <= h /\ 216 <= wd.
Proof.
  destruct (img_transform_ok nearest (gray 2 3) eq_refl) as [d Hd];
    try (simpl; lia).
  destruct (dream_crop_is_not_empty nearest (gray 2 3) d (world0 19) Hd)
    as (a & b & c & d' & w' & h & wd & H).
  exists d, a, b, c, d', w', h, wd. split; [exact Hd | exact H].
Defined.

(* ================================================================== *)
(** ** Further properties: calls, errors and the clamp of the loop *)
(* ================================================================== *)

Section Calls.

Variable resample : PILImage -> nat -> nat -> nat -> nat -> nat -> byte.
Variable model : Tensor -> result (list Tensor).
Variable backward : Tensor -> nat -> Tensor -> result Tensor.
Variable do_random_shifts : bool.

(** The input of the network in an iteration on [data]. *)
Lemma image_grad_cases gf (data : Tensor) w :
  exists x w1,
    entropy w1 = entropy w /\
    rng_pos w1 = rng_pos w + (if do_random_shifts then 4 else 0) /\
    forward_calls w1 = S (forward_calls w) /\
    match model x with
    | Raise e =>
        image_grad model backward do_random_shifts gf data w = (Raise e, w1) /\
        objective_calls w1 = objective_calls w
    | Ok out =>
        match gf out with
        | Raise e =>
            image_grad model backward do_random_shifts gf data w
            = (Raise e,
               World (entropy w1) (rng_pos w1) (forward_calls w1)
                     (S (objective_calls w)))
        | Ok (k, seed) =>
            exists r,
              image_grad model backward do_random_shifts gf data w
              = (r, World (entropy w1) (rng_pos w1) (forward_calls w1)
                          (S (objective_calls w)))
        end
    end.
Proof.
  unfold image_grad. destruct do_random_shifts.
  - unfold bind at 1. rewrite random_shift_run.
    unfold bind, forward, call, lift, ret. simpl.
    exists (crop (entropy w (rng_pos w) mod 21)
                 (S (entropy w (S (rng_pos w)) mod 20))
                 (entropy w (S (S (rng_pos w))) mod 21)
                 (S (entropy w (S (S (S (rng_pos w)))) mod 20)) data),
           (World (entropy w) (S (S (S (S (rng_pos w)))))
                  (S (forward_calls w)) (objective_calls w)).
    simpl.
    split; [reflexivity|]. split; [lia|]. split; [reflexivity|].
    destruct (model _) as [out|e]; [|split; reflexivity].
    destruct (gf out) as [[k seed]|e]; [|reflexivity].
    destruct (backward _ k seed); eexists; reflexivity.
  - unfold bind, forward, call, lift. simpl.
    exists data, (World (entropy w) (rng_pos w) (S (forward_calls w))
                        (objective_calls w)). simpl.
    split; [reflexivity|]. split; [lia|]. split; [reflexivity|].
    destruct (model data) as [out|e]; [|split; reflexivity].
    destruct (gf out) as [[k seed]|e]; [|reflexivity].
    eexists; reflexivity.
Qed.

(** A successful iteration enters the network and the objective once. *)
Lemma dream_iter_counts gf lr (data data' : Tensor) w w' :
  dream_iter model backward do_random_shifts gf lr data w = (Ok data', w') ->
  forward_calls w' = S (forward_calls w) /\
  objective_calls w' = S (objective_calls w) /\
  rng_pos w' = rng_pos w + (if do_random_shifts then 4 else 0).
Proof.
  intros H. apply dream_iter_inv in H. destruct H as (grad & Hg & _).
  destruct (image_grad_cases gf data w) as (x & w1 & _ & Hp & Hf & Hm).
  destruct (model x) as [out|e].
  - destruct (gf out) as [[k seed]|e].
    + destruct Hm as [r Hr]. rewrite Hr in Hg. injection Hg as _ <-.
      simpl. auto.
    + rewrite Hm in Hg. discriminate.
  - destruct Hm as [Hm _]. rewrite Hm in Hg. discriminate.
Qed.

Lemma dream_loop_counts gf lr n :
  forall (data data' : Tensor) w w',
    dream_loop model backward do_random_shifts n gf lr data w = (Ok data', w') ->
    forward_calls w' = forward_calls w + n /\
    objective_calls w' = objective_calls w + n /\
    rng_pos w' = rng_pos w + (if do_random_shifts then 4 * n else 0).
Proof.
  induction n as [|n IH]; intros data data' w w' H; simpl in H.
  - unfold ret in H. injection H as _ <-. destruct do_random_shifts; lia.
  - unfold bind in H.
    destruct (dream_iter _ _ _ _ _ _ _) as [[d1|e] w1] eqn:E; [|discriminate].
    apply dream_iter_counts in E. apply IH in H.
    destruct do_random_shifts; lia.
Qed.

End Calls.

(** X3. A successful run of [dream] with iteration count n runs the
    forward pass exactly n times and the objective exactly n times (0
    times for a negative n), and draws 4n numbers from the random source
    when the shifts are enabled and none otherwise. *)
Theorem dream_call_counts :
  forall resample model backward shifts img n grad_fn learning_rate w out w',
    dream resample model backward shifts img n grad_fn learning_rate w
      = (Ok out, w') ->
    forward_calls w' = forward_calls w + Z.to_nat n /\
    objective_calls w' = objective_calls w + Z.to_nat n /\
    rng_pos w' = rng_pos w + (if shifts then 4 * Z.to_nat n else 0).
Proof.
  intros resample model backward shifts img n gf lr w out w' H.
  destruct (dream_inv _ _ _ _ _ _ _ _ _ _ _ H) as (d & d' & _ & Hl & _).
  exact (dream_loop_counts model backward shifts gf lr _ _ _ _ _ Hl).
Qed.

Lemma dream_call_counts_witness :
  exists out w',
    dream nearest zero_net zero_backward false (gray 2 3) 1 default_grad_fn
          lr_default (world0 0) = (Ok out, w') /\
    forward_calls w' = 1 /\ objective_calls w' = 1 /\ rng_pos w' = 0.
Proof.
  destruct (zero_net_dream lr_default (gray 2 3) (world0 0) eq_refl
              ltac:(simpl; lia) ltac:(simpl; lia) eq_refl)
    as (d & oh & ow & _ & _ & _ & Hrun).
  eexists _, _. split; [exact Hrun|].
  exact (dream_call_counts _ _ _ _ _ _ _ _ _ _ _ Hrun).
Defined.

(** X4. An exception of the forward pass is handed to the caller of
    [dream] as it is: when the network raises, a run of one or more
    iterations on a valid image raises the same exception in its first
    iteration, after one forward pass and without calling the objective. *)
Theorem dream_propagates_model_error :
  forall resample model backward shifts img n grad_fn learning_rate w e,
    bands img = 3 -> 0 < width img -> 0 < height img ->
    (0 < n)%Z ->
    (forall x, model x = Raise e) ->
    exists w',
      dream resample model backward shifts img n grad_fn learning_rate w
        = (Raise e, w') /\
      forward_calls w' = S (forward_calls w) /\
      objective_calls w' = objective_calls w.
Proof.
  intros resample model backward shifts img n gf lr w e Hb Hw Hh Hn Hm.
  destruct (img_transform_ok resample img Hb Hw Hh) as [d Hd].
  unfold dream, bind, lift. rewrite Hd.
  destruct (Z.to_nat n) as [|k] eqn:E; [lia|]. simpl dream_loop.
  unfold bind, dream_iter. unfold bind.
  destruct (image_grad_cases model backward shifts gf d w)
    as (x & w1 & _ & _ & Hf & Hc).
  rewrite Hm in Hc. destruct Hc as [Hc Ho]. rewrite Hc.
  exists w1. auto.
Qed.

Lemma dream_propagates_model_error_witness :
  exists w',
    dream nearest (raising_net ValueError) id_backward true (gray 2 3) 5
          default_grad_fn lr_default (world0 0) = (Raise ValueError, w') /\
    forward_calls w' = 1 /\ objective_calls w' = 0.
Proof.
  apply (dream_propagates_model_error nearest (raising_net ValueError)
           id_backward true (gray 2 3) 5 default_grad_fn lr_default
           (world0 0) ValueError); simpl; try lia; reflexivity.
Defined.

(** X5. [default_grad_fn] reads the third stage: on a network with fewer
    than three stages, a run of one or more iterations on a valid image
    raises IndexError in its first iteration, after one forward pass and
    one call of the objective. *)
Theorem dream_default_objective_needs_three_stages :
  forall resample model backward shifts img n learning_rate w,
    bands img = 3 -> 0 < width img -> 0 < height img ->
    (0 < n)%Z ->
    (forall x, exists out, model x = Ok out /\ length out < 3) ->
    exists w',
      dream resample model backward shifts img n default_grad_fn
            learning_rate w = (Raise IndexError, w') /\
      forward_calls w' = S (forward_calls w) /\
      objective_calls w' = S (objective_calls w).
Proof.
  intros resample model backward shifts img n lr w Hb Hw Hh Hn Hm.
  destruct (img_transform_ok resample img Hb Hw Hh) as [d Hd].
  unfold dream, bind, lift. rewrite Hd.
  destruct (Z.to_nat n) as [|k] eqn:E; [lia|]. simpl dream_loop.
  unfold bind, dream_iter. unfold bind.
  destruct (image_grad_cases model backward shifts default_grad_fn d w)
    as (x & w1 & _ & _ & Hf & Hc).
  destruct (Hm x) as (out & Hout & Hlen). rewrite Hout in Hc.
  assert (Hg : default_grad_fn out = Raise IndexError).
  { unfold default_grad_fn, layer.
    destruct (nth_error out 2) eqn:E2; [|reflexivity].
    assert (2 < length out) by (apply nth_error_Some; congruence). lia. }
  rewrite Hg in Hc. rewrite Hc. eexists. split; [reflexivity|].
  simpl. auto.
Qed.

Lemma dream_default_objective_needs_three_stages_witness :
  exists w',
    dream nearest short_net id_backward false (gray 2 3) 1 default_grad_fn
          lr_default (world0 0) = (Raise IndexError, w') /\
    forward_calls w' = 1 /\ objective_calls w' = 1.
Proof.
  apply (dream_default_objective_needs_three_stages nearest short_net
           id_backward false (gray 2 3) 1 lr_default (world0 0));
    simpl; try lia; try reflexivity.
  intros x. exists [x; x]. split; [reflexivity | simpl; lia].
Defined.

(** X6. [dream] only takes images of three bands: on an image of a
    nonzero size with one band (mode L), four bands (RGBA) or any other
    number, the normalization of the pre-processing raises RuntimeError,
    whatever the iteration count, before any forward pass. *)
Theorem dream_needs_three_bands :
  forall resample model backward shifts img n grad_fn learning_rate w,
    bands img <> 3 -> 0 < width img -> 0 < height img ->
    dream resample model backward shifts img n grad_fn learning_rate w
      = (Raise RuntimeError, w).
Proof.
  intros resample model backward shifts img n gf lr w Hb Hw Hh.
  unfold dream, bind, lift, img_transform.
  destruct (Resize_ok resample 256 img Hw Hh) as [r Hr]. rewrite Hr.
  simpl. unfold normalize, Normalize.
  rewrite (dims_block_length _ _ _ _ (dims_ToTensor r)).
  destruct (Resize_dims _ _ _ _ Hr) as [_ ->].
  destruct (bands img =? length mean) eqn:E; [|reflexivity].
  apply Nat.eqb_eq in E. simpl in E. contradiction.
Qed.

Lemma dream_needs_three_bands_witness :
  dream nearest id_net id_backward true (Image 4 4 1 (fun _ _ _ => x80)) 3
        default_grad_fn lr_default (world0 0)
  = (Raise RuntimeError, world0 0).
Proof.
  apply dream_needs_three_bands; simpl; lia.
Defined.

Section ClampInvariant.

Lemma clamp_bounds_ordered c :
  c < 3 ->
  F32.leb (nth c clamp_min F32.zero) (nth c clamp_max F32.zero) = true.
Proof.
  intros Hc. destruct c as [|[|[|c]]]; [vm_compute; reflexivity ..|lia].
Qed.

Lemma clamp_bounds_nth c :
  c < 3 ->
  nth_error clamp_min c = Some (nth c clamp_min F32.zero) /\
  nth_error clamp_max c = Some (nth c clamp_max F32.zero).
Proof.
  intros Hc. destruct c as [|[|[|c]]]; [split; reflexivity ..|lia].
Qed.

Lemma tget_channel (t : Tensor) c h x v :
  tget t c h x = Some v -> c < length t.
Proof.
  unfold tget. intros H. apply nth_error_Some.
  destruct (nth_error t c); [discriminate|discriminate H].
Qed.

(** Each element of an updated image is the clamped sum of the element
    and its update term. *)
Lemma tget_update lr (data grad data' : Tensor) c y x v' :
  length data = 3 ->
  update lr data grad = Ok data' ->
  tget data' c y x = Some v' ->
  exists v g,
    tget data c y x = Some v /\ tget grad c y x = Some g /\
    v' = F32.clamp (nth c clamp_min F32.zero) (nth c clamp_max F32.zero)
           (F32.add v (F32.div (F32.mul g lr) (grad_mean grad))).
Proof.
  intros Hlen Hu Hv. destruct (update_inv _ _ _ _ Hlen Hu) as [Hd ->].
  pose proof (update_dims _ _ _ _ Hlen Hu) as Hdims.
  rewrite !tget_per_channel, tget_tzip, tget_tmap in Hv.
  destruct (tget data c y x) as [v|] eqn:Ev; [|discriminate].
  destruct (tget grad c y x) as [g|] eqn:Eg; [|discriminate].
  simpl in Hv.
  assert (Hc : c < 3) by (rewrite <- Hlen; exact (tget_channel _ _ _ _ _ Ev)).
  destruct (clamp_bounds_nth c Hc) as [-> ->] in Hv.
  injection Hv as <-. exists v, g. auto.
Qed.

Lemma update_clamps lr (data grad data' : Tensor) c y x v :
  length data = 3 ->
  update lr data grad = Ok data' ->
  tget data' c y x = Some v ->
  F32.is_nan v = true \/
  F32.within (nth c clamp_min F32.zero) (nth c clamp_max F32.zero) v = true.
Proof.
  intros Hlen Hu Hv.
  destruct (tget_update _ _ _ _ _ _ _ _ Hlen Hu Hv) as (u & g & Eu & _ & ->).
  apply F32Facts.clamp_nan_or_within, clamp_bounds_ordered.
  rewrite <- Hlen. exact (tget_channel _ _ _ _ _ Eu).
Qed.

End ClampInvariant.

(** X7. The clamp of the loop: after one or more iterations, each
    element of the working image is NaN or lies between the bounds
    [(0 - mean) / std] and [(1 - mean) / std] of its channel. *)
Theorem dream_loop_clamps :
  forall model backward shifts grad_fn learning_rate n
         (data data' : Tensor) w w' c y x v,
    length data = 3 ->
    0 < n ->
    dream_loop model backward shifts n grad_fn learning_rate data w
      = (Ok data', w') ->
    tget data' c y x = Some v ->
    F32.is_nan v = true \/
    F32.within (nth c clamp_min F32.zero) (nth c clamp_max F32.zero) v = true.
Proof.
  intros model backward shifts gf lr n. induction n as [|n IH];
    intros data data' w w' c y x v Hlen Hn Hrun Hv; [lia|].
  simpl in Hrun. unfold bind in Hrun.
  destruct (dream_iter _ _ _ _ _ _ _) as [[d1|e] w1] eqn:E; [|discriminate].
  apply dream_iter_inv in E. destruct E as (grad & _ & Hu).
  destruct n as [|n].
  - simpl in Hrun. unfold ret in Hrun. injection Hrun as <- _.
    exact (update_clamps _ _ _ _ _ _ _ _ Hlen Hu Hv).
  - apply (IH d1 data' w1 w' c y x v); auto; [|lia].
    rewrite (dims_length _ _ (update_dims _ _ _ _ Hlen Hu)). exact Hlen.
Qed.

Lemma dream_loop_clamps_witness :
  exists data' w' v,
    dream_loop id_net id_backward false 2 default_grad_fn lr_default small
               (world0 0) = (Ok data', w') /\
    tget data' 2 0 1 = Some v /\
    (F32.is_nan v = true \/
     F32.within (nth 2 clamp_min F32.zero) (nth 2 clamp_max F32.zero) v = true).
Proof.
  eexists _, _, _. split; [vm_compute; reflexivity|].
  split; [reflexivity|].
  eapply (dream_loop_clamps id_net id_backward false default_grad_fn
            lr_default 2 small _ (world0 0) _ 2 0 1);
    [reflexivity | lia | vm_compute; reflexivity | reflexivity].
Defined.

Section Border.

Lemma nth_error_combine_seq {A B} (g : nat * A -> B) (l : list A) :
  forall k i,
    nth_error (map g (combine (seq k (length l)) l)) i =
    option_map (fun x => g (k + i, x)) (nth_error l i).
Proof.
  induction l as [|a l IH]; intros k i; simpl.
  - destruct i; reflexivity.
  - destruct i as [|i]; simpl.
    + rewrite Nat.add_0_r. reflexivity.
    + rewrite IH. replace (S k + i) with (k + S i) by lia. reflexivity.
Qed.

Lemma nth_error_imap {A B} (f : nat -> A -> B) (l : list A) i :
  nth_error (imap f l) i = option_map (f i) (nth_error l i).
Proof.
  unfold imap. rewrite nth_error_combine_seq. reflexivity.
Qed.

(** The gradient sent back through the crop, element by element. *)
Lemma tget_crop_backward a b c d (data gx : Tensor) ci hi wi ch row v :
  nth_error data ci = Some ch -> nth_error ch hi = Some row ->
  nth_error row wi = Some v ->
  tget (crop_backward a b c d data gx) ci hi wi =
  Some (if (a <=? hi) && (hi <? length ch - b) &&
           (c <=? wi) && (wi <? length row - d)
        then nth (wi - c) (nth (hi - a) (nth ci gx []) []) F32.zero
        else F32.zero).
Proof.
  intros Hc Hh Hw. unfold tget, crop_backward.
  rewrite nth_error_imap, Hc. simpl.
  rewrite nth_error_imap, Hh. simpl.
  rewrite nth_error_imap, Hw. reflexivity.
Qed.

(** No gradient reaches the last row and the last column. *)
Lemma crop_backward_border a b c d (data gx : Tensor) n h wd ci y x v :
  dims data = block n h wd ->
  1 <= b -> 1 <= d ->
  tget data ci y x = Some v ->
  y = h - 1 \/ x = wd - 1 ->
  tget (crop_backward a b c d data gx) ci y x = Some F32.zero.
Proof.
  intros Hd Hb Hd' Hv Hyx. pose proof (block_rows _ _ _ _ Hd) as Hrows.
  unfold tget in Hv.
  destruct (nth_error data ci) as [ch|] eqn:Ec; [|discriminate].
  destruct (nth_error ch y) as [row|] eqn:Ey; [|discriminate].
  rewrite (tget_crop_backward a b c d data gx ci y x ch row v Ec Ey Hv).
  rewrite Forall_forall in Hrows.
  destruct (Hrows ch (nth_error_In _ _ Ec)) as [Hch Hr].
  rewrite Forall_forall in Hr.
  pose proof (Hr row (nth_error_In _ _ Ey)) as Hrow.
  rewrite Hch, Hrow.
  destruct Hyx as [-> | ->].
  - replace (h - 1 <? h - b) with false
      by (symmetry; apply Nat.ltb_ge; lia).
    rewrite andb_false_r. reflexivity.
  - replace (wd - 1 <? wd - d) with false
      by (symmetry; apply Nat.ltb_ge; lia).
    rewrite andb_false_r. reflexivity.
Qed.

(** The update term of a zero gradient is a zero or NaN. *)
Lemma zero_term (lr gm : F32.t) :
  F32.div (F32.mul F32.zero lr) gm = S754_nan \/
  exists s, F32.div (F32.mul F32.zero lr) gm = S754_zero s.
Proof.
  destruct lr as [[|]|[|]| |[|] m e]; destruct gm as [[|]|[|]| |[|] m' e'];
    try (left; reflexivity); right; eexists; reflexivity.
Qed.

Lemma clamp_inside (lo hi v : F32.t) :
  F32.within lo hi v = true -> F32.clamp lo hi v = v.
Proof.
  unfold F32.within. intros H. apply andb_true_iff in H.
  destruct H as [Hlo Hhi].
  destruct (F32Facts.leb_not_nan _ _ Hlo) as [Nl Nv].
  destruct (F32Facts.leb_not_nan _ _ Hhi) as [_ Nh].
  unfold F32.clamp, F32.maximum.
  rewrite Nv, Nl, (F32Facts.leb_ltb_false _ _ Hlo). simpl.
  unfold F32.minimum.
  rewrite Nv, Nh, (F32Facts.leb_ltb_false _ _ Hhi). reflexivity.
Qed.

Lemma shifted_update_border model backward gf lr (data data' : Tensor)
    w w' h wd ci y x v :
  dims data = block 3 h wd ->
  dream_iter model backward true gf lr data w = (Ok data', w') ->
  tget data ci y x = Some v ->
  y = h - 1 \/ x = wd - 1 ->
  F32.is_nonzero_finite v = true ->
  F32.within (nth ci clamp_min F32.zero) (nth ci clamp_max F32.zero) v = true ->
  tget data' ci y x = Some v \/ tget data' ci y x = Some S754_nan.
Proof.
  intros Hd Hrun Hv Hyx Hfin Hin.
  pose proof (dims_block_length _ _ _ _ Hd) as Hlen.
  apply dream_iter_inv in Hrun. destruct Hrun as (grad & Hg & Hu).
  destruct (image_grad_shift_inv _ _ _ _ _ _ _ Hg)
    as (a & b & c & d & out & k & seed & gx & (_ & Hb & _ & Hd') & _ & _ & _ & ->).
  pose proof (update_dims _ _ _ _ Hlen Hu) as Hdims.
  destruct (tget_same_dims data data' ci y x v (eq_sym Hdims) Hv) as [v' Hv'].
  destruct (tget_update _ _ _ _ _ _ _ _ Hlen Hu Hv') as (u & g & Eu & Eg & E).
  rewrite Hv in Eu. injection Eu as <-.
  rewrite (crop_backward_border a b c d data gx 3 h wd ci y x v Hd
             ltac:(lia) ltac:(lia) Hv Hyx) in Eg.
  injection Eg as <-. rewrite Hv', E.
  destruct (zero_term lr (grad_mean (crop_backward a b c d data gx)))
    as [-> | [s ->]].
  - right. rewrite add_nan_r. reflexivity.
  - left. replace (F32.add v (S754_zero s)) with v
      by (destruct v; try discriminate; reflexivity).
    rewrite (clamp_inside _ _ _ Hin). reflexivity.
Qed.

End Border.

(** X8. With the random shifts, the gradient never reaches the last row
    and the last column of the working image (the crop always removes at
    least one row and one column at the end): in an iteration, an element
    there, nonzero and within the clamp bounds of its channel, keeps its
    value, or becomes NaN when the update is degenerate. *)
Theorem shifted_iteration_keeps_border :
  forall model backward grad_fn learning_rate (data data' : Tensor)
         w w' h wd ci y x v,
    dims data = block 3 h wd ->
    dream_iter model backward true grad_fn learning_rate data w
      = (Ok data', w') ->
    tget data ci y x = Some v ->
    y = h - 1 \/ x = wd - 1 ->
    F32.is_nonzero_finite v = true ->
    F32.within (nth ci clamp_min F32.zero) (nth ci clamp_max F32.zero) v
      = true ->
    tget data' ci y x = Some v \/ tget data' ci y x = Some S754_nan.
Proof.
  intros. eapply shifted_update_border; eassumption.
Qed.

Lemma shifted_iteration_keeps_border_witness :
  exists data' w',
    dream_iter id_net id_backward true default_grad_fn lr_default small
               (world0 0) = (Ok data', w') /\
    tget small 0 1 0 = Some (f32 8388608 (-24)) /\
    (tget data' 0 1 0 = Some (f32 8388608 (-24)) \/
     tget data' 0 1 0 = Some S754_nan).
Proof.
  eexists _, _. split; [vm_compute; reflexivity|].
  split; [reflexivity|].
  eapply (shifted_iteration_keeps_border id_net id_backward default_grad_fn
            lr_default small _ (world0 0) _ 2 2 0 1 0 (f32 8388608 (-24)));
    [reflexivity | vm_compute; reflexivity | reflexivity | left; reflexivity
    | reflexivity | vm_compute; reflexivity].
Defined.

(* ================================================================== *)
(** ** Further properties: the pre-processing, pixel by pixel *)
(* ================================================================== *)

Section PixelByPixel.

Variable resample : PILImage -> nat -> nat -> nat -> nat -> nat -> byte.

Lemma nth_error_map_seq {A} (f : nat -> A) n i :
  i < n -> nth_error (map f (seq 0 n)) i = Some (f i).
Proof.
  intros Hi. rewrite nth_error_map.
  rewrite (nth_error_nth' (seq 0 n) 0) by (rewrite length_seq; exact Hi).
  rewrite seq_nth by exact Hi. reflexivity.
Qed.

Lemma tget_ToTensor r c y x :
  c < bands r -> y < height r -> x < width r ->
  tget (ToTensor r) c y x = Some (pixel (px r c y x)).
Proof.
  intros Hc Hy Hx. unfold tget, ToTensor.
  rewrite (nth_error_map_seq _ _ _ Hc), (nth_error_map_seq _ _ _ Hy).
  exact (nth_error_map_seq (fun x => pixel (px r c y x)) _ _ Hx).
Qed.

Lemma tget_Normalize (m s : list F32.t) (t d : Tensor) c y x :
  length m = length s -> Normalize m s t = Ok d ->
  tget d c y x =
  option_map (fun v => F32.div (F32.sub v (nth c m F32.zero))
                               (nth c s F32.zero))
             (tget t c y x).
Proof.
  intros Hms. unfold Normalize.
  destruct (length t =? length m) eqn:E; [|discriminate].
  apply Nat.eqb_eq in E. intros H. injection H as <-.
  unfold tget. rewrite nth_error_zip_with.
  destruct (nth_error t c) as [ch|] eqn:Ec; [|reflexivity].
  assert (Hc : c < length m).
  { rewrite <- E. apply nth_error_Some. congruence. }
  rewrite (nth_error_nth' (combine m s) (F32.zero, F32.zero))
    by (rewrite length_combine; lia).
  rewrite combine_nth by exact Hms. simpl.
  rewrite nth_error_map.
  destruct (nth_error ch y) as [row|]; simpl; [|reflexivity].
  apply nth_error_map.
Qed.

(** The pre-processed image at a position is the normalized pixel of the
    resized image there. *)
Lemma img_transform_tget img r :
  Resize resample 256 img = Ok r -> bands img = 3 ->
  exists d,
    img_transform resample img = Ok d /\
    dims d = block 3 (height r) (width r) /\
    forall c y x, c < 3 -> y < height r -> x < width r ->
      tget d c y x = Some (normalized c (px r c y x)).
Proof.
  intros Hr Hb. destruct (Resize_dims _ _ _ _ Hr) as [_ Hbr].
  rewrite Hb in Hbr.
  pose proof (dims_ToTensor r) as Hdt. rewrite Hbr in Hdt.
  destruct (Normalize_ok mean std (ToTensor r)
              (dims_block_length _ _ _ _ Hdt)) as [d Hd].
  exists d. unfold img_transform. rewrite Hr. simpl. unfold normalize.
  split; [exact Hd|].
  split; [rewrite (Normalize_dims mean std _ _ eq_refl Hd); exact Hdt|].
  intros c y x Hc Hy Hx.
  rewrite (tget_Normalize mean std _ _ c y x eq_refl Hd).
  rewrite tget_ToTensor by (rewrite ?Hbr; assumption). reflexivity.
Qed.

(** The display form at a position is the displayed value of the
    element of that channel. *)
Lemma to_display_tget (d : Tensor) h w :
  dims d = block 3 h w ->
  exists out,
    to_display d = Ok out /\
    forall y x c, y < h -> x < w -> c < 3 ->
      tget out y x c = option_map (displayed c) (tget d c y x).
Proof.
  intros Hd. pose proof (dims_block_length _ _ _ _ Hd) as Hlen.
  destruct (to_display_ok d Hlen) as [out Ho]. exists out.
  split; [exact Ho|]. intros y x c Hy Hx Hc.
  destruct (to_display_inv _ _ Ho) as (u & Hu & ->).
  unfold unnormalize in Hu.
  assert (Hlens : length (zip_with (fun m s => F32.div (F32.opp m) s) mean std)
                  = length (map (fun s => F32.div F32.one s) std))
    by reflexivity.
  pose proof (Normalize_dims _ _ _ _ Hlens Hu) as Hdu.
  rewrite (tget_permute _ 3 h w) by (rewrite ?dims_tmap, ?Hdu; assumption).
  rewrite tget_tmap, (tget_Normalize _ _ _ _ c y x Hlens Hu).
  destruct (tget d c y x); reflexivity.
Qed.

Lemma pixel_range_check_all (c : nat) (p : byte) :
  c < 3 -> pixel_range_check c p = true.
Proof.
  intros Hc. destruct c as [|[|[|c]]]; [| | |lia];
    destruct p; vm_compute; reflexivity.
Qed.

End PixelByPixel.

(** X9. The pre-processed image a run starts from lies inside the clamp
    bounds of the loop: each of its elements is the normalized value of a
    pixel and is between [(0 - mean) / std] and [(1 - mean) / std] of its
    channel. *)
Theorem img_transform_within_clamp_bounds :
  forall resample img d c y x v,
    img_transform resample img = Ok d ->
    tget d c y x = Some v ->
    c < 3 /\
    (exists p, v = normalized c p) /\
    F32.within (nth c clamp_min F32.zero) (nth c clamp_max F32.zero) v = true.
Proof.
  intros resample img d c y x v Hd Hv.
  destruct (img_transform_dims _ _ _ Hd) as (ow & oh & _ & Hdims).
  assert (Hc : c < 3).
  { rewrite <- (dims_block_length _ _ _ _ Hdims).
    exact (tget_channel _ _ _ _ _ Hv). }
  pose proof (img_transform_pixels _ _ _ Hd) as Hp.
  destruct d as [|a [|b [|e [|e' t]]]]; simpl in Hp; try tauto.
  destruct Hp as (Ha & Hb & He).
  assert (Hex : exists p, v = normalized c p).
  { unfold tget in Hv.
    destruct c as [|[|[|c]]]; [| | |lia]; simpl in Hv;
      [pose proof Ha as Hch | pose proof Hb as Hch | pose proof He as Hch];
      (destruct (nth_error _ y) as [row|] eqn:Ey; [|discriminate]);
      rewrite Forall_forall in Hch;
      pose proof (Hch row (nth_error_In _ _ Ey)) as Hrow;
      rewrite Forall_forall in Hrow;
      exact (Hrow v (nth_error_In _ _ Hv)). }
  split; [exact Hc|]. split; [exact Hex|].
  destruct Hex as [p ->].
  pose proof (pixel_range_check_all c p Hc) as H.
  unfold pixel_range_check in H. apply andb_true_iff in H. tauto.
Qed.

Lemma img_transform_within_clamp_bounds_witness :
  exists d v,
    img_transform nearest (gray 2 3) = Ok d /\
    tget d 1 0 0 = Some v /\
    F32.within (nth 1 clamp_min F32.zero) (nth 1 clamp_max F32.zero) v = true.
Proof.
  destruct (img_transform_tget nearest (gray 2 3) _ eq_refl eq_refl)
    as (d & Hd & _ & Hget).
  exists d, (normalized 1 x80). split; [exact Hd|].
  assert (Hv : tget d 1 0 0 = Some (normalized 1 x80))
    by (apply (Hget 1 0 0); vm_compute; lia).
  split; [exact Hv|].
  exact (proj2 (proj2 (img_transform_within_clamp_bounds nearest (gray 2 3)
                         d 1 0 0 _ Hd Hv))).
Defined.

(** X10. The clamp bounds of the loop are the pre-processed values of
    the darkest and of the brightest pixel: pixel value 0 is normalized
    to the lower bound of its channel and pixel value 255 to the upper
    bound. *)
Theorem clamp_bounds_are_extreme_pixels :
  forall c,
    c < 3 ->
    normalized c x00 = nth c clamp_min F32.zero /\
    normalized c xff = nth c clamp_max F32.zero.
Proof.
  intros c Hc. destruct c as [|[|[|c]]]; [| | |lia];
    split; vm_compute; reflexivity.
Qed.

Lemma clamp_bounds_are_extreme_pixels_witness :
  normalized 2 x00 = nth 2 clamp_min F32.zero /\
  normalized 2 xff = nth 2 clamp_max F32.zero.
Proof.
  apply (clamp_bounds_are_extreme_pixels 2). lia.
Defined.

(** X11. Without iterations [dream] is the round trip of the
    pre-processing and the display transform: the run succeeds, leaves
    the world untouched, and the output at row y, column x, channel c is
    within 2^-23 of the value p/255 of the resized image's pixel there. *)
Theorem dream_no_iteration_round_trip :
  forall resample model backward shifts img r n grad_fn learning_rate w,
    (n <= 0)%Z ->
    Resize resample 256 img = Ok r ->
    bands img = 3 ->
    exists out,
      dream resample model backward shifts img n grad_fn learning_rate w
        = (Ok out, w) /\
      forall y x c, y < height r -> x < width r -> c < 3 ->
        exists v,
          tget out y x c = Some v /\
          F32.leb (F32.abs (F32.sub v (pixel (px r c y x))))
                  (f32 8388608 (-46)) = true.
Proof.
  intros resample model backward shifts img r n gf lr w Hn Hr Hb.
  destruct (img_transform_tget resample img r Hr Hb) as (d & Hd & Hdims & Hget).
  destruct (to_display_tget d _ _ Hdims) as (out & Ho & Hout).
  exists out. split.
  - rewrite dream_no_iteration by exact Hn. rewrite Hd. simpl.
    rewrite Ho. reflexivity.
  - intros y x c Hy Hx Hc.
    exists (displayed c (normalized c (px r c y x))). split.
    + rewrite (Hout y x c Hy Hx Hc), (Hget c y x Hc Hy Hx). reflexivity.
    + pose proof (pixel_range_check_all c (px r c y x) Hc) as H.
      unfold pixel_range_check in H. apply andb_true_iff in H.
      exact (proj2 H).
Qed.

Lemma dream_no_iteration_round_trip_witness :
  exists out v,
    dream nearest id_net id_backward true (gray 2 3) 0 default_grad_fn
          lr_default (world0 0) = (Ok out, world0 0) /\
    tget out 5 7 2 = Some v /\
    F32.leb (F32.abs (F32.sub v (pixel x80))) (f32 8388608 (-46)) = true.
Proof.
  destruct (dream_no_iteration_round_trip nearest id_net id_backward true
              (gray 2 3) _ 0 default_grad_fn lr_default (world0 0)
              ltac:(lia) eq_refl eq_refl) as (out & Hrun & Hel).
  destruct (Hel 5 7 2 ltac:(vm_compute; lia) ltac:(vm_compute; lia)
              ltac:(lia))
    as (v & Hv & Hle).
  exists out, v. auto.
Defined.

(* ================================================================== *)
(** ** Further properties: the guided objective on any guide *)
(* ================================================================== *)

Section Guided.

Lemma argmax_from_lt (l : list F32.t) :
  forall bi bv i, bi < i -> argmax_from bi bv i l < i + length l.
Proof.
  induction l as [|x l IH]; intros bi bv i Hbi; simpl; [lia|].
  destruct (F32.is_nan bv); [lia|].
  destruct (F32.leb x bv).
  - pose proof (IH bi bv (S i) ltac:(lia)). lia.
  - pose proof (IH i x (S i) ltac:(lia)). lia.
Qed.

Lemma argmax1_total (r : Matrix) m :
  0 < m -> Forall (fun row => length row = m) r ->
  exists idx,
    argmax1 r = Ok idx /\ length idx = length r /\
    Forall (fun j => j < m) idx.
Proof.
  intros Hm H. induction H as [|row r Hrow _ (idx & Hidx & Hlen & Hall)];
    simpl.
  - exists []. auto.
  - destruct row as [|x row]; [simpl in Hrow; lia|].
    exists (argmax_from 0 x 1 row :: idx). simpl. rewrite Hidx. simpl.
    split; [reflexivity|]. split; [congruence|].
    constructor; [|exact Hall].
    pose proof (argmax_from_lt row 0 x 1 ltac:(lia)) as Hlt.
    simpl in Hrow. lia.
Qed.

Lemma map_length_chunk {A} h w :
  forall l : list A,
    length l = h * w -> map (@length _) (chunk h w l) = repeat w h.
Proof.
  induction h as [|h IH]; intros l Hl; simpl; [reflexivity|].
  rewrite length_firstn, IH.
  - f_equal. simpl in Hl. lia.
  - rewrite length_skipn. simpl in Hl. lia.
Qed.

Lemma nth_error_chunk {A} h w :
  forall (l : list A) y x,
    y < h -> x < w -> length l = h * w ->
    exists row, nth_error (chunk h w l) y = Some row /\
                nth_error row x = nth_error l (y * w + x).
Proof.
  induction h as [|h IH]; intros l y x Hy Hx Hl; [lia|]. simpl.
  destruct y as [|y]; simpl.
  - exists (firstn w l). split; [reflexivity|].
    rewrite nth_error_firstn.
    replace (x <? w) with true by (symmetry; apply Nat.ltb_lt; exact Hx).
    reflexivity.
  - destruct (IH (skipn w l) y x) as (row & Hrow & Hel); [lia | exact Hx | |].
    + rewrite length_skipn. simpl in Hl. lia.
    + exists row. split; [exact Hrow|].
      rewrite Hel, nth_error_skipn. f_equal. lia.
Qed.

Lemma block_head (o : Tensor) c h w :
  dims o = block c h w -> 0 < c ->
  length (hd [] o) = h /\ (0 < h -> length (hd [] (hd [] o)) = w).
Proof.
  intros Hd Hc. pose proof (block_rows o c h w Hd) as Hrows.
  pose proof (dims_block_length _ _ _ _ Hd) as Hlen.
  destruct o as [|ch o]; [simpl in Hlen; lia|].
  inversion Hrows as [|? ? [Hch Hr] _]; subst. simpl.
  split; [reflexivity|]. intros Hh.
  destruct ch as [|r ch]; [simpl in Hh; lia|].
  inversion Hr; subst. reflexivity.
Qed.

(** The shape of a matrix of [c] rows of [h * w] numbers viewed as the
    tensor [o]. *)
Lemma dims_view_as (o : Tensor) (r : Matrix) c h w :
  dims o = block c h w -> 0 < c ->
  length r = c -> Forall (fun row => length row = h * w) r ->
  dims (view_as o r) = block c h w.
Proof.
  intros Hd Hc Hlen Hrows. destruct (block_head o c h w Hd Hc) as [HH HW].
  unfold view_as, dims, block. rewrite map_map, HH, <- Hlen.
  clear Hlen. induction Hrows as [|row r Hrow _ IH]; simpl; [reflexivity|].
  f_equal; [|exact IH].
  destruct h as [|h]; [reflexivity|].
  rewrite HW by lia. apply map_length_chunk. exact Hrow.
Qed.

Lemma guided_objective (guide output : list Tensor) (o g : Tensor)
    c h w h' w' :
  nth_error output 2 = Some o -> nth_error guide 2 = Some g ->
  dims o = block c h w -> dims g = block c h' w' ->
  0 < c -> 0 < h' * w' ->
  exists idx,
    best_match guide output = Ok idx /\
    my_grad_fn guide output =
      Ok (2, view_as o (take_columns (map (@concat _) g) idx)) /\
    length idx = h * w /\
    Forall (fun j => j < h' * w') idx.
Proof.
  intros Ho Hg Hdo Hdg Hc Hm.
  destruct (view2_flat o c h w Hdo Hc) as (Hvo & _ & Hco).
  destruct (view2_flat g c h' w' Hdg Hc) as (Hvg & _ & Hcg).
  set (o2 := map (@concat _) o) in *. set (g2 := map (@concat _) g) in *.
  assert (Hmm : matmul_t o2 g2 =
                Ok (map (fun i => map (fun j => similarity o2 g2 i j)
                                      (seq 0 (h' * w'))) (seq 0 (h * w)))).
  { unfold matmul_t, o2, g2. rewrite !length_map.
    rewrite (dims_block_length _ _ _ _ Hdo), (dims_block_length _ _ _ _ Hdg).
    rewrite Nat.eqb_refl. fold o2 g2. rewrite Hco, Hcg. reflexivity. }
  destruct (argmax1_total
              (map (fun i => map (fun j => similarity o2 g2 i j)
                                 (seq 0 (h' * w'))) (seq 0 (h * w)))
              (h' * w') Hm) as (idx & Hidx & Hlen & Hall).
  { apply Forall_map, Forall_forall. intros i _.
    rewrite length_map, length_seq. reflexivity. }
  rewrite length_map, length_seq in Hlen.
  assert (Ha : argmax_rows (ncols g2)
                 (map (fun i => map (fun j => similarity o2 g2 i j)
                                    (seq 0 (h' * w'))) (seq 0 (h * w)))
               = Ok idx).
  { unfold argmax_rows. rewrite Hcg.
    destruct (h' * w' =? 0) eqn:E0; [apply Nat.eqb_eq in E0; lia | exact Hidx]. }
  exists idx. unfold best_match, my_grad_fn. rewrite Ho, Hg, Hvo, Hvg. simpl.
  rewrite Hmm. simpl. rewrite Ha. simpl. auto.
Qed.

End Guided.

(** X12. [my_grad_fn] takes a guide of any spatial size: when the third
    stages of the network output (c x h x w) and of the guide
    (c x h' x w') have the same number c > 0 of channels and the guide has
    a location, it succeeds on stage 2 with one matched guide location
    (an index below h' * w') for each of the h * w locations, the injected
    gradient has the shape c x h x w of the working stage, and its value
    at channel k, row y, column x is the guide's feature k at the location
    matched to y * w + x. *)
Theorem my_grad_fn_injects_guide_features :
  forall (guide output : list Tensor) (o g : Tensor) c h w h' w',
    nth_error output 2 = Some o -> nth_error guide 2 = Some g ->
    dims o = block c h w -> dims g = block c h' w' ->
    0 < c -> 0 < h' * w' ->
    exists idx seed,
      best_match guide output = Ok idx /\
      my_grad_fn guide output = Ok (2, seed) /\
      length idx = h * w /\
      Forall (fun j => j < h' * w') idx /\
      dims seed = dims o /\
      forall k y x, k < c -> y < h -> x < w ->
        exists j gk,
          nth_error idx (y * w + x) = Some j /\
          nth_error g k = Some gk /\
          tget seed k y x = Some (nth j (concat gk) F32.zero).
Proof.
  intros guide output o g c h w h' w' Ho Hg Hdo Hdg Hc Hm.
  destruct (guided_objective guide output o g c h w h' w' Ho Hg Hdo Hdg Hc Hm)
    as (idx & Hb & Hf & Hlen & Hall).
  exists idx, (view_as o (take_columns (map (@concat _) g) idx)).
  split; [exact Hb|]. split; [exact Hf|]. split; [exact Hlen|].
  split; [exact Hall|].
  assert (Hrows : Forall (fun row => length row = h * w)
                         (take_columns (map (@concat _) g) idx)).
  { unfold take_columns. apply Forall_map, Forall_map, Forall_forall.
    intros gk _. rewrite length_map. exact Hlen. }
  split.
  - rewrite Hdo. apply dims_view_as; auto.
    unfold take_columns. rewrite !length_map.
    exact (dims_block_length _ _ _ _ Hdg).
  - intros k y x Hk Hy Hx.
    assert (Hi : y * w + x < length idx) by (rewrite Hlen; nia).
    destruct (nth_error idx (y * w + x)) as [j|] eqn:Ej;
      [|apply nth_error_None in Ej; lia].
    destruct (nth_error g k) as [gk|] eqn:Ek;
      [|apply nth_error_None in Ek;
        rewrite (dims_block_length _ _ _ _ Hdg) in Ek; lia].
    exists j, gk. split; [reflexivity|]. split; [reflexivity|].
    destruct (block_head o c h w Hdo Hc) as [HH HW].
    unfold tget, view_as, take_columns.
    rewrite !nth_error_map, Ek. simpl. rewrite HH, HW by lia.
    destruct (nth_error_chunk h w
                (map (fun j0 => nth j0 (concat gk) F32.zero) idx) y x Hy Hx)
      as (row & -> & ->); [rewrite length_map; exact Hlen|].
    rewrite nth_error_map, Ej. reflexivity.
Qed.

Lemma my_grad_fn_injects_guide_features_witness :
  exists idx seed,
    best_match feat_unit feat_unit = Ok idx /\
    my_grad_fn feat_unit feat_unit = Ok (2, seed) /\
    length idx = 2 /\ dims seed = block 2 1 2.
Proof.
  destruct (my_grad_fn_injects_guide_features feat_unit feat_unit
              [[[F32.one; F32.zero]]; [[F32.zero; F32.one]]]
              [[[F32.one; F32.zero]]; [[F32.zero; F32.one]]]
              2 1 2 1 2 eq_refl eq_refl eq_refl eq_refl
              ltac:(lia) ltac:(simpl; lia))
    as (idx & seed & Hb & Hf & Hlen & _ & Hd & _).
  exists idx, seed. auto.
Defined.

(** X13. The guide and the network output must have the same number of
    channels in the third stage: otherwise the matrix product of
    [my_grad_fn] raises RuntimeError. *)
Theorem my_grad_fn_channel_mismatch :
  forall (guide output : list Tensor) (o g : Tensor),
    nth_error output 2 = Some o -> nth_error guide 2 = Some g ->
    o <> [] -> g <> [] -> length o <> length g ->
    my_grad_fn guide output = Raise RuntimeError.
Proof.
  intros guide output o g Ho Hg Hno Hng Hlen.
  unfold my_grad_fn. rewrite Ho, Hg.
  destruct o as [|a o]; [congruence|]. destruct g as [|b g]; [congruence|].
  assert (E : matmul_t (map (@concat _) (a :: o)) (map (@concat _) (b :: g))
              = Raise RuntimeError).
  { unfold matmul_t.
    replace (length (map (@concat _) (a :: o))
             =? length (map (@concat _) (b :: g))) with false; [reflexivity|].
    symmetry. apply Nat.eqb_neq. rewrite !length_map. exact Hlen. }
  cbv beta iota delta [rbind view2]. rewrite E. reflexivity.
Qed.

Lemma my_grad_fn_channel_mismatch_witness :
  my_grad_fn feat_unit feat = Raise RuntimeError.
Proof.
  apply (my_grad_fn_channel_mismatch feat_unit feat
           [[[F32.one; two]]] [[[F32.one; F32.zero]]; [[F32.zero; F32.one]]]);
    try reflexivity; try discriminate.
Defined.

(** X14. A guide without a location in its third stage (h' * w' = 0) is
    rejected: the [argmax] over the guide locations raises IndexError. *)
Theorem my_grad_fn_empty_guide :
  forall (guide output : list Tensor) (o g : Tensor) c h w h' w',
    nth_error output 2 = Some o -> nth_error guide 2 = Some g ->
    dims o = block c h w -> dims g = block c h' w' ->
    0 < c -> h' * w' = 0 ->
    my_grad_fn guide output = Raise IndexError.
Proof.
  intros guide output o g c h w h' w' Ho Hg Hdo Hdg Hc Hm.
  destruct (view2_flat o c h w Hdo Hc) as (Hvo & _ & Hco).
  destruct (view2_flat g c h' w' Hdg Hc) as (Hvg & _ & Hcg).
  unfold my_grad_fn. rewrite Ho, Hg, Hvo, Hvg. simpl.
  unfold matmul_t. rewrite !length_map.
  rewrite (dims_block_length _ _ _ _ Hdo), (dims_block_length _ _ _ _ Hdg).
  rewrite Nat.eqb_refl. simpl.
  unfold argmax_rows. rewrite Hcg, Hm. reflexivity.
Qed.

Lemma my_grad_fn_empty_guide_witness :
  my_grad_fn [[]; []; [[[]]]] feat = Raise IndexError.
Proof.
  apply (my_grad_fn_empty_guide [[]; []; [[[]]]] feat
           [[[F32.one; two]]] [[[]]] 1 1 2 1 0);
    try reflexivity; lia.
Defined.

(* ================================================================== *)
(** ** Further properties: the adapted network *)
(* ================================================================== *)

Section Stages.

Lemma dims_scores (y : list F32.t) :
  dims (map (fun v => [[v]]) y) = block (length y) 1 1.
Proof.
  unfold dims, block. rewrite map_map. apply map_const. reflexivity.
Qed.

Lemma first_of_each5 (b1 b2 b3 b4 b5 : list Tensor) out :
  first_of_each [b1; b2; b3; b4; b5] = Ok out ->
  exists x1 x2 x3 x4 x5,
    out = [x1; x2; x3; x4; x5] /\
    hd_error b1 = Some x1 /\ hd_error b2 = Some x2 /\ hd_error b3 = Some x3 /\
    hd_error b4 = Some x4 /\ hd_error b5 = Some x5.
Proof.
  destruct b1 as [|x1 ?]; [discriminate|].
  destruct b2 as [|x2 ?]; [discriminate|].
  destruct b3 as [|x3 ?]; [discriminate|].
  destruct b4 as [|x4 ?]; [discriminate|].
  destruct b5 as [|x5 ?]; [discriminate|].
  simpl. intros H. injection H as <-.
  exists x1, x2, x3, x4, x5. repeat split.
Qed.

Lemma dims_class_seed : dims class_seed = block 1000 1 1.
Proof. vm_compute. reflexivity. Qed.

Lemma block_count c c' h w : block c h w = block c' h w -> c = c'.
Proof.
  unfold block. intros H. apply (f_equal (@length _)) in H.
  rewrite !repeat_length in H. exact H.
Qed.

(** [my_grad_fn2] on a list whose fifth stage is a score vector. *)
Lemma class_objective (out : list Tensor) (x5 : Tensor) K :
  nth_error out 4 = Some x5 -> dims x5 = block K 1 1 ->
  my_grad_fn2 out =
  if K =? 1000 then Ok (4, class_seed) else Raise RuntimeError.
Proof.
  intros H5 Hd. unfold my_grad_fn2. rewrite H5.
  destruct (K =? 1000) eqn:EK.
  - apply Nat.eqb_eq in EK. subst K.
    replace (same_dims x5 class_seed) with true; [reflexivity|].
    symmetry. apply same_dims_eq. rewrite Hd, dims_class_seed. reflexivity.
  - apply Nat.eqb_neq in EK.
    destruct (same_dims x5 class_seed) eqn:E; [|reflexivity].
    apply same_dims_eq in E. rewrite Hd, dims_class_seed in E.
    apply block_count in E. contradiction.
Qed.

End Stages.

(** X15. A successful forward pass of [CustomResNet] returns exactly
    five stages, for an image as for a batch: the first elements of the
    batches that layer1 to layer4 and the classifier produce; the last one
    has the shape K x 1 x 1 of a score vector.  So [default_grad_fn]
    finds its stage, the third.  [my_grad_fn2] finds the fifth, but its
    seed of shape 1000 x 1 x 1 is accepted only by a classifier of
    K = 1000 classes: for every other K the backward call raises
    RuntimeError. *)
Theorem CustomResNet_forward_stages :
  forall conv1 bn1 relu maxpool layer1 layer2 layer3 layer4 pool fc x out,
    CustomResNet_forward conv1 bn1 relu maxpool layer1 layer2 layer3 layer4
                         pool fc x = Ok out ->
    exists x1 x2 x3 x4 x5 K,
      out = [x1; x2; x3; x4; x5] /\
      dims x5 = block K 1 1 /\
      default_grad_fn out = Ok (2, x3) /\
      (K = 1000 ->
       exists seed, my_grad_fn2 out = Ok (4, seed) /\ dims seed = dims x5) /\
      (K <> 1000 -> my_grad_fn2 out = Raise RuntimeError).
Proof.
  intros conv1 bn1 relu maxpool layer1 layer2 layer3 layer4 pool fc x out.
  unfold CustomResNet_forward.
  destruct (conv1 _) as [a1|e]; [simpl|discriminate].
  destruct (bn1 _) as [a2|e]; [simpl|discriminate].
  destruct (relu _) as [a3|e]; [simpl|discriminate].
  destruct (maxpool _) as [a4|e]; [simpl|discriminate].
  destruct (layer1 _) as [b1|e]; [simpl|discriminate].
  destruct (layer2 _) as [b2|e]; [simpl|discriminate].
  destruct (layer3 _) as [b3|e]; [simpl|discriminate].
  destruct (layer4 _) as [b4|e]; [simpl|discriminate].
  destruct (pool _) as [p|e]; [simpl|discriminate].
  destruct (flat_batch p) as [f|e]; [simpl|discriminate].
  destruct (fc f) as [y|e]; [simpl|discriminate].
  destruct (scores_batch y) as [b5|e] eqn:Es; [|discriminate].
  unfold rbind at 1. intros H.
  destruct (first_of_each5 _ _ _ _ _ _ H)
    as (x1 & x2 & x3 & x4 & x5 & -> & _ & _ & _ & _ & H5).
  unfold scores_batch in Es. destruct y as [|y0 y]; [discriminate|].
  injection Es as <-. simpl in H5. injection H5 as <-.
  exists x1, x2, x3, x4, (map (fun v => [[v]]) y0), (length y0).
  split; [reflexivity|]. split; [apply dims_scores|].
  split; [reflexivity|].
  pose proof (class_objective
                [x1; x2; x3; x4; map (fun v => [[v]]) y0]
                (map (fun v => [[v]]) y0) (length y0) eq_refl
                (dims_scores y0)) as Hobj.
  split.
  - intros HK. rewrite HK in Hobj. rewrite Hobj.
    exists class_seed. split; [reflexivity|].
    rewrite dims_scores, HK. exact dims_class_seed.
  - intros HK. apply Nat.eqb_neq in HK. rewrite HK in Hobj. exact Hobj.
Qed.

(** A network of modules that hand their input on gives the image [small]
    a score vector of 12 numbers: the class objective is refused. *)
Lemma CustomResNet_forward_stages_witness :
  exists x1 x2 x3 x4 x5,
    CustomResNet_forward id_module id_module id_module id_module id_module
                         id_module id_module id_module id_module id_module
                         (Image3 small) = Ok [x1; x2; x3; x4; x5] /\
    dims x5 = block 12 1 1 /\
    default_grad_fn [x1; x2; x3; x4; x5] = Ok (2, x3) /\
    my_grad_fn2 [x1; x2; x3; x4; x5] = Raise RuntimeError.
Proof.
  destruct (CustomResNet_forward_stages id_module id_module id_module
              id_module id_module id_module id_module id_module id_module
              id_module (Image3 small) _ eq_refl)
    as (x1 & x2 & x3 & x4 & x5 & K & E & HK & Hd & _ & Hbad).
  injection E as <- <- <- <- <-.
  assert (EK : K = 12).
  { apply (block_count K 12 1 1). rewrite <- HK. reflexivity. }
  exists small, small, small, small, (map (fun v => [[v]]) (flatten small)).
  split; [reflexivity|]. split; [reflexivity|]. split; [exact Hd|].
  apply Hbad. rewrite EK. discriminate.
Defined.

(* ================================================================== *)
(** ** Further properties: [upsample] on a flat activation map *)
(* ================================================================== *)

Section Rescale.

Lemma sub_self (v : F32.t) :
  F32.is_finite v = true -> F32.sub v v = S754_zero false.
Proof.
  destruct v as [s|s| |s m e]; try discriminate; intros _.
  - destruct s; reflexivity.
  - unfold F32.sub, SFsub. rewrite Z.sub_diag. reflexivity.
Qed.

Lemma minimum_self (v : F32.t) :
  F32.is_nan v = false -> F32.minimum v v = v.
Proof.
  intros H. unfold F32.minimum. rewrite H. simpl.
  unfold F32.ltb, SFltb. rewrite (F32Facts.compare_refl v H). reflexivity.
Qed.

Lemma maximum_self (v : F32.t) :
  F32.is_nan v = false -> F32.maximum v v = v.
Proof.
  intros H. unfold F32.maximum. rewrite H. simpl.
  unfold F32.ltb, SFltb. rewrite (F32Facts.compare_refl v H). reflexivity.
Qed.

Lemma fold_constant (f : F32.t -> F32.t -> F32.t) (v : F32.t) l :
  f v v = v -> Forall (fun x => x = v) l -> fold_left f l v = v.
Proof.
  intros Hf H. induction H as [|x l -> _ IH]; simpl; [reflexivity|].
  rewrite Hf. exact IH.
Qed.

Lemma rescale_constant (image : Matrix) (v : F32.t) :
  concat image <> [] ->
  F32.is_finite v = true ->
  Forall (Forall (fun x => x = v)) image ->
  rescale image = Ok (map (map (fun _ => S754_nan)) image).
Proof.
  intros Hne Hv Hall.
  assert (Hn : F32.is_nan v = false) by (destruct v; try discriminate; reflexivity).
  assert (Hflat : Forall (fun x => x = v) (concat image)).
  { apply Forall_concat. exact Hall. }
  unfold rescale, amin, amax.
  destruct (concat image) as [|x l]; [congruence|].
  assert (Hx : x = v) by (inversion Hflat; assumption).
  assert (Hl : Forall (fun y => y = v) l) by (inversion Hflat; assumption).
  rewrite Hx.
  rewrite (fold_constant F32.minimum v l (minimum_self v Hn) Hl).
  rewrite (fold_constant F32.maximum v l (maximum_self v Hn) Hl).
  simpl. f_equal.
  apply (map_ext_Forall (Forall (fun x => x = v))); [|exact Hall].
  intros row Hrow.
  apply (map_ext_Forall (fun x => x = v)); [|exact Hrow].
  intros y ->. rewrite (sub_self v Hv). reflexivity.
Qed.

End Rescale.

(** X16. [upsample] divides by the spread of its input: on an array
    whose elements are all the same number (a flat activation map) every
    rescaled element is 0/0, so the array handed to the bicubic resize is
    NaN everywhere. *)
Theorem upsample_flat_map_is_nan :
  forall bicubic (image : Matrix) size v,
    concat image <> [] ->
    F32.is_finite v = true ->
    Forall (Forall (fun x => x = v)) image ->
    upsample bicubic image size
    = Ok (bicubic (map (map (fun _ => S754_nan)) image) size).
Proof.
  intros bicubic image size v Hne Hv Hall. unfold upsample.
  rewrite (rescale_constant image v Hne Hv Hall). reflexivity.
Qed.

Lemma upsample_flat_map_is_nan_witness :
  upsample (fun m _ => m) [[two; two]; [two; two]] (4, 4)
  = Ok [[S754_nan; S754_nan]; [S754_nan; S754_nan]].
Proof.
  apply (upsample_flat_map_is_nan (fun m _ => m) [[two; two]; [two; two]]
           (4, 4) two); [discriminate | reflexivity |].
  repeat constructor.
Defined.

(** X17. [upsample] on an array without elements raises ValueError (the
    minimum of an empty array), before any resize. *)
Theorem upsample_empty_array :
  forall bicubic (image : Matrix) size,
    concat image = [] ->
    upsample bicubic image size = Raise ValueError.
Proof.
  intros bicubic image size H. unfold upsample, rescale. rewrite H.
  reflexivity.
Qed.

Lemma upsample_empty_array_witness :
  upsample (fun m _ => m) [[]; []] (4, 4) = Raise ValueError.
Proof.
  apply upsample_empty_array. reflexivity.
Defined.

(* ================================================================== *)
(** ** Further properties: the model that [train_model] returns *)
(* ================================================================== *)

Section BestEpoch.

Variable weights : Type.
Variable train_size : nat.
Variable val_size : nat.
Variable train_phase : nat -> weights -> result (weights * (spec_float * spec_float)).
Variable val_phase : nat -> weights -> result (spec_float * spec_float).
Variable w0 : weights.

Lemma rbind_ret {A} (c : result A) : rbind c (@Ok A) = c.
Proof. destruct c; reflexivity. Qed.

Lemma run_epochs_snoc k :
  forall first s,
    run_epochs train_size val_size train_phase val_phase first (S k) s =
    rbind (run_epochs train_size val_size train_phase val_phase first k s)
          (epoch_step train_size val_size train_phase val_phase (first + k)).
Proof.
  induction k as [|k IH]; intros first s.
  - simpl. rewrite Nat.add_0_r. apply rbind_ret.
  - change (run_epochs train_size val_size train_phase val_phase first
              (S (S k)) s)
      with (rbind (epoch_step train_size val_size train_phase val_phase first s)
                  (run_epochs train_size val_size train_phase val_phase
                              (S first) (S k))).
    change (run_epochs train_size val_size train_phase val_phase first (S k) s)
      with (rbind (epoch_step train_size val_size train_phase val_phase first s)
                  (run_epochs train_size val_size train_phase val_phase
                              (S first) k)).
    destruct (epoch_step train_size val_size train_phase val_phase first s)
      as [s1|e]; [|reflexivity].
    cbn [rbind]. rewrite IH.
    replace (S first + k) with (first + S k) by lia. reflexivity.
Qed.

Lemma ltb_not_nan (x y : spec_float) :
  SFltb x y = true -> F32.is_nan x = false /\ F32.is_nan y = false.
Proof.
  destruct x, y; simpl; try discriminate; auto.
Qed.

Lemma ltb_nan_r (x y : spec_float) : F32.is_nan y = true -> SFltb x y = false.
Proof.
  destruct y; try discriminate. intros _. destruct x; reflexivity.
Qed.

(** A new best accuracy is not below any accuracy the old best was not
    below. *)
Lemma ltb_step (old new a : spec_float) :
  SFltb old new = true -> SFltb old a = false -> SFltb new a = false.
Proof.
  intros Hnew Ha. destruct (ltb_not_nan _ _ Hnew) as [No Nn].
  destruct (F32.is_nan a) eqn:Na; [apply ltb_nan_r; exact Na|].
  apply F32Facts.leb_ltb_false.
  apply (F32Facts.leb_trans a old new).
  - apply F32Facts.ltb_false_leb; assumption.
  - apply F32Facts.ltb_leb. exact Hnew.
Qed.

(** A comparison that is false leaves the other order or a NaN. *)
Lemma leb_step (old new a : spec_float) :
  SFltb old new = true -> SFltb old a = false -> SFleb new a = false.
Proof.
  intros Hnew Ha. destruct (ltb_not_nan _ _ Hnew) as [No Nn].
  destruct (F32.is_nan a) eqn:Na.
  - destruct a; try discriminate. destruct new; reflexivity.
  - destruct (SFleb new a) eqn:E; [|reflexivity].
    assert (H : F32.leb new old = true).
    { apply (F32Facts.leb_trans new a old); [exact E|].
      apply F32Facts.ltb_false_leb; assumption. }
    apply F32Facts.leb_ltb_false in H. unfold F32.ltb in H. congruence.
Qed.

(** The state after [k] epochs that all succeed. *)
Lemma run_epochs_best k :
  let acc := acc_of_epoch train_size val_size train_phase val_phase w0 in
  (forall j, j < k -> exists a, acc j = Ok a) ->
  exists s,
    run_epochs train_size val_size train_phase val_phase 0 k
               (Fit w0 (S754_zero false) w0) = Ok s /\
    wts_after train_size train_phase k w0 = Ok (model_wts s) /\
    ((best_model_wts s = w0 /\ best_acc s = S754_zero false /\
      forall i a, i < k -> acc i = Ok a -> SFltb (S754_zero false) a = false) \/
     (exists j a, j < k /\
        wts_after train_size train_phase (S j) w0 = Ok (best_model_wts s) /\
        acc j = Ok a /\ best_acc s = a /\
        SFltb (S754_zero false) a = true /\
        (forall i b, i < k -> acc i = Ok b -> SFltb a b = false) /\
        (forall i b, i < j -> acc i = Ok b -> SFleb a b = false))).
Proof.
  intros acc. induction k as [|k IH]; intros Hall.
  - exists (Fit w0 (S754_zero false) w0). split; [reflexivity|].
    split; [reflexivity|]. left. repeat split. intros i a Hi. lia.
  - destruct IH as (s & Hrun & Hw & IH); [intros j Hj; apply Hall; lia|].
    destruct (Hall k ltac:(lia)) as [ak Hak].
    pose proof Hak as Hak'. unfold acc, acc_of_epoch in Hak'.
    simpl wts_after in Hak'. rewrite Hw in Hak'. cbn [rbind] in Hak'.
    destruct (train_epoch train_size train_phase k (model_wts s))
      as [w'|e] eqn:Et; [|discriminate].
    cbn [rbind] in Hak'.
    assert (Hwk : wts_after train_size train_phase (S k) w0 = Ok w').
    { simpl. rewrite Hw. simpl. exact Et. }
    rewrite run_epochs_snoc, Hrun. simpl. unfold epoch_step.
    rewrite Et. cbn [rbind]. rewrite Hak'. cbn [rbind].
    assert (Huniq : forall b, acc k = Ok b -> b = ak)
      by (intros b Hb; rewrite Hak in Hb; injection Hb as <-; reflexivity).
    destruct (SFltb (best_acc s) ak) eqn:Ek.
    + eexists. split; [reflexivity|]. simpl. split; [exact Hwk|].
      right. exists k, ak.
      split; [lia|]. split; [exact Hwk|]. split; [exact Hak|].
      split; [reflexivity|].
      assert (Hself : SFltb ak ak = false).
      { apply F32Facts.leb_ltb_false, F32Facts.leb_refl.
        exact (proj2 (ltb_not_nan _ _ Ek)). }
      destruct IH as [(_ & Hb & Hnone)
                     | (j & a & Hj & _ & Haj & Hb & Hpos & Hmax & _)];
        rewrite Hb in Ek.
      * split; [exact Ek|]. split.
        -- intros i b Hi Hib. destruct (Nat.eq_dec i k) as [->|Hne].
           ++ rewrite (Huniq b Hib). exact Hself.
           ++ apply (ltb_step (S754_zero false)); [exact Ek|].
              apply (Hnone i b); [lia | exact Hib].
        -- intros i b Hi Hib. apply (leb_step (S754_zero false)); [exact Ek|].
           apply (Hnone i b); [exact Hi | exact Hib].
      * split.
        -- destruct (SFltb (S754_zero false) ak) eqn:E0; [reflexivity|].
           pose proof (ltb_step _ _ _ Hpos E0) as Hc.
           destruct (ltb_not_nan _ _ Ek) as [Na Nk].
           pose proof (F32Facts.ltb_false_leb _ _ Na Nk Hc) as Hle.
           apply F32Facts.leb_ltb_false in Hle. unfold F32.ltb in Hle.
           congruence.
        -- split.
           ++ intros i b Hi Hib. destruct (Nat.eq_dec i k) as [->|Hne].
              ** rewrite (Huniq b Hib). exact Hself.
              ** apply (ltb_step a); [exact Ek|].
                 apply (Hmax i b); [lia | exact Hib].
           ++ intros i b Hi Hib. apply (leb_step a); [exact Ek|].
              apply (Hmax i b); [exact Hi | exact Hib].
    + eexists. split; [reflexivity|]. simpl. split; [exact Hwk|].
      destruct IH as [(Hbw & Hb & Hnone)
                     | (j & a & Hj & Hbw & Haj & Hb & Hpos & Hmax & Hfirst)].
      * left. split; [exact Hbw|]. split; [exact Hb|].
        intros i b Hi Hib. destruct (Nat.eq_dec i k) as [->|Hne].
        -- rewrite (Huniq b Hib), <- Hb. exact Ek.
        -- apply (Hnone i b); [lia | exact Hib].
      * right. exists j, a. split; [lia|]. split; [exact Hbw|].
        split; [exact Haj|]. split; [exact Hb|]. split; [exact Hpos|].
        split; [|exact Hfirst].
        intros i b Hi Hib. destruct (Nat.eq_dec i k) as [->|Hne].
        -- rewrite (Huniq b Hib), <- Hb. exact Ek.
        -- apply (Hmax i b); [lia | exact Hib].
Qed.

End BestEpoch.

(** X18. [train_model] with no epoch (num_epochs <= 0) returns the model
    with the weights it was given, whatever the datasets are. *)
Theorem train_model_no_epoch :
  forall (weights : Type) train_size val_size
         (train_phase : nat -> weights -> result (weights * (spec_float * spec_float)))
         (val_phase : nat -> weights -> result (spec_float * spec_float))
         (w0 : weights) num_epochs,
    (num_epochs <= 0)%Z ->
    train_model train_size val_size train_phase val_phase w0 num_epochs = Ok w0.
Proof.
  intros weights train_size val_size train_phase val_phase w0 n Hn.
  unfold train_model, fit_model. replace (Z.to_nat n) with 0 by lia.
  reflexivity.
Qed.

Lemma train_model_no_epoch_witness :
  train_model 4 2 count_train count_val 5 (-3) = Ok 5.
Proof.
  apply train_model_no_epoch. lia.
Defined.

(** X19. The model that [train_model] returns.  With [acc j] the
    validation accuracy of epoch j: when every epoch runs through (its
    phases raise nothing and its datasets are not empty, so that each
    [acc j] is a number or NaN), [train_model] returns a model.  If no
    epoch has an accuracy above the initial best of 0.0, the model gets
    back the weights it started from, not the trained ones; otherwise it
    gets the weights as they were after the training phase of an epoch j
    whose accuracy is above 0.0, is not exceeded by any epoch, and was not
    reached by an earlier epoch. *)
Theorem train_model_returns_best_epoch :
  forall (weights : Type) train_size val_size
         (train_phase : nat -> weights -> result (weights * (spec_float * spec_float)))
         (val_phase : nat -> weights -> result (spec_float * spec_float))
         (w0 : weights) num_epochs,
    let acc := acc_of_epoch train_size val_size train_phase val_phase w0 in
    let n := Z.to_nat num_epochs in
    (forall j, j < n -> exists a, acc j = Ok a) ->
    exists w,
      train_model train_size val_size train_phase val_phase w0 num_epochs
        = Ok w /\
      ((w = w0 /\
        forall i a, i < n -> acc i = Ok a ->
                    SFltb (S754_zero false) a = false) \/
       (exists j a, j < n /\
          wts_after train_size train_phase (S j) w0 = Ok w /\
          acc j = Ok a /\
          SFltb (S754_zero false) a = true /\
          (forall i b, i < n -> acc i = Ok b -> SFltb a b = false) /\
          (forall i b, i < j -> acc i = Ok b -> SFleb a b = false))).
Proof.
  intros weights train_size val_size train_phase val_phase w0 num_epochs
         acc n Hall.
  destruct (run_epochs_best weights train_size val_size train_phase val_phase
              w0 n Hall) as (s & Hrun & _ & Hcases).
  exists (best_model_wts s). split.
  - unfold train_model, fit_model. fold n. rewrite Hrun. reflexivity.
  - destruct Hcases as [(Hw & _ & Hnone)
                       | (j & a & Hj & Hw & Ha & _ & Hpos & Hmax & Hfirst)].
    + left. split; [exact Hw | exact Hnone].
    + right. exists j, a. repeat split; assumption.
Qed.

(** Two epochs on datasets of 4 and 2 elements: the accuracies are 1/2
    and 2/2, and the weights of the second epoch are returned. *)
Lemma train_model_returns_best_epoch_witness :
  exists w,
    train_model 4 2 count_train count_val 0 2 = Ok w /\ w = 2.
Proof.
  destruct (train_model_returns_best_epoch nat 4 2 count_train count_val 0 2)
    as (w & Hw & _).
  - intros j Hj. change (Z.to_nat 2) with 2 in Hj.
    destruct j as [|[|j]]; [eexists; vm_compute; reflexivity ..|lia].
  - exists w. split; [exact Hw|].
    vm_compute in Hw. injection Hw as <-. reflexivity.
Defined.

(** X24. [train_model] on an empty dataset: with one or more epochs and
    [dataset_sizes] 0 for the training or the validation phase, the first
    epoch raises ZeroDivisionError (at [running_loss / dataset_sizes[phase]])
    as soon as its loops over the batches are through, and no model is
    returned. *)
Theorem train_model_empty_dataset :
  forall (weights : Type) train_size val_size
         (train_phase : nat -> weights -> result (weights * (spec_float * spec_float)))
         (val_phase : nat -> weights -> result (spec_float * spec_float))
         (w0 w1 : weights) stats num_epochs,
    (0 < num_epochs)%Z ->
    train_size = 0 \/ val_size = 0 ->
    train_phase 0 w0 = Ok (w1, stats) ->
    (train_size <> 0 -> exists r, val_phase 0 w1 = Ok r) ->
    train_model train_size val_size train_phase val_phase w0 num_epochs
      = Raise ZeroDivisionError.
Proof.
  intros weights train_size val_size train_phase val_phase w0 w1 stats n
         Hn Hsize Ht Hv.
  unfold train_model, fit_model.
  destruct (Z.to_nat n) as [|k] eqn:E; [lia|].
  simpl run_epochs. unfold epoch_step at 1. simpl model_wts.
  unfold train_epoch. rewrite Ht. cbn [rbind].
  unfold py_truediv at 1 2.
  destruct (train_size =? 0) eqn:Ets; [reflexivity|].
  cbn [rbind]. apply Nat.eqb_neq in Ets.
  destruct (Hv Ets) as [r Hr].
  destruct Hsize as [H0|H0]; [contradiction|].
  cbn [fst]. unfold val_epoch. rewrite Hr. cbn [rbind].
  unfold py_truediv. rewrite H0. reflexivity.
Qed.

Lemma train_model_empty_dataset_witness :
  train_model 4 0 count_train count_val 0 25 = Raise ZeroDivisionError.
Proof.
  apply (train_model_empty_dataset nat 4 0 count_train count_val 0 1
           (S754_zero false, S754_zero false) 25);
    [lia | right; reflexivity | reflexivity |].
  intros _. eexists. reflexivity.
Defined.

(* ================================================================== *)
(** ** Further properties: what the guided objective matches *)
(* ================================================================== *)

Section Matching.

Lemma argmax1_rows (r : Matrix) :
  forall idx, argmax1 r = Ok idx ->
              Forall2 (fun row j => argmax row = Ok j) r idx.
Proof.
  induction r as [|row r IH]; simpl; intros idx H.
  - injection H as <-. constructor.
  - destruct (argmax row) as [j|e] eqn:Ej; [|discriminate]. simpl in H.
    destruct (argmax1 r) as [js|e]; [|discriminate]. simpl in H.
    injection H as <-. constructor; [exact Ej | apply IH; reflexivity].
Qed.

(** The scan stops at the first NaN. *)
Lemma argmax_from_nan (pre post : list F32.t) (x : F32.t) :
  F32.is_nan x = true ->
  Forall (fun y => F32.is_nan y = false) pre ->
  forall bi bv i,
    F32.is_nan bv = false ->
    argmax_from bi bv i (pre ++ x :: post) = i + length pre.
Proof.
  intros Hx Hpre. induction Hpre as [|y pre Hy _ IH]; intros bi bv i Hbv;
    simpl; rewrite Hbv.
  - replace (F32.leb x bv) with false
      by (destruct x; try discriminate; destruct bv; reflexivity).
    rewrite Nat.add_0_r. destruct post; simpl; [reflexivity|].
    rewrite Hx. reflexivity.
  - destruct (F32.leb y bv).
    + rewrite (IH bi bv (S i) Hbv). lia.
    + rewrite (IH i y (S i) Hy). lia.
Qed.

Lemma argmax_nan (row : list F32.t) p :
  p < length row ->
  F32.is_nan (nth p row F32.zero) = true ->
  (forall k, k < p -> F32.is_nan (nth k row F32.zero) = false) ->
  argmax row = Ok p.
Proof.
  intros Hp Hnan Hbefore.
  destruct (nth_split row F32.zero Hp) as (pre & post & E & Hlen).
  assert (Hpre : Forall (fun y => F32.is_nan y = false) pre).
  { apply Forall_forall. intros y Hin.
    destruct (In_nth _ _ F32.zero Hin) as (k & Hk & <-).
    rewrite <- (app_nth1 pre (nth p row F32.zero :: post) F32.zero Hk).
    rewrite <- E. apply Hbefore. lia. }
  rewrite E. destruct pre as [|x0 pre]; simpl in *.
  - subst p. destruct post; simpl; [reflexivity|]. rewrite Hnan. reflexivity.
  - inversion Hpre as [|? ? H0 Hrest]; subst.
    rewrite (argmax_from_nan pre post _ Hnan Hrest 0 x0 1 H0). reflexivity.
Qed.

(** The indices of [my_grad_fn], row by row of the similarity matrix. *)
Lemma best_match_rows (guide output : list Tensor) (o g : Tensor)
    c h w h' w' idx i j :
  nth_error output 2 = Some o -> nth_error guide 2 = Some g ->
  dims o = block c h w -> dims g = block c h' w' ->
  0 < c -> 0 < h' * w' ->
  best_match guide output = Ok idx ->
  nth_error idx i = Some j ->
  i < h * w /\
  argmax (map (fun k => similarity (map (@concat _) o) (map (@concat _) g) i k)
              (seq 0 (h' * w'))) = Ok j.
Proof.
  intros Ho Hg Hdo Hdg Hc Hm Hb Hi.
  destruct (view2_flat o c h w Hdo Hc) as (Hvo & _ & Hco).
  destruct (view2_flat g c h' w' Hdg Hc) as (Hvg & _ & Hcg).
  unfold best_match in Hb. rewrite Ho, Hg, Hvo, Hvg in Hb. simpl in Hb.
  unfold matmul_t in Hb. rewrite !length_map in Hb.
  rewrite (dims_block_length _ _ _ _ Hdo), (dims_block_length _ _ _ _ Hdg),
    Nat.eqb_refl in Hb.
  simpl in Hb. unfold argmax_rows in Hb. rewrite Hcg, Hco in Hb.
  destruct (h' * w' =? 0) eqn:E0; [discriminate|].
  pose proof (argmax1_rows _ _ Hb) as Hall.
  assert (Hlen : length idx = h * w).
  { rewrite <- (Forall2_length Hall), length_map, length_seq. reflexivity. }
  assert (Hil : i < h * w).
  { rewrite <- Hlen. apply nth_error_Some. congruence. }
  split; [exact Hil|].
  refine (Forall2_at _ _ _ i _ j Hall _ Hi).
  rewrite nth_error_map, nth_error_seq.
  replace (i <? h * w) with true by (symmetry; apply Nat.ltb_lt; exact Hil).
  reflexivity.
Qed.

End Matching.

(** X20. For any guide, [my_grad_fn] matches each location of the working
    stage with a guide location of maximal dot-product similarity: when
    the similarities of location i with the guide locations are numbers,
    the index chosen for i has a similarity that is at least that of every
    guide location. *)
Theorem my_grad_fn_matches_most_similar :
  forall (guide output : list Tensor) (o g : Tensor) c h w h' w' idx i j,
    nth_error output 2 = Some o -> nth_error guide 2 = Some g ->
    dims o = block c h w -> dims g = block c h' w' ->
    0 < c -> 0 < h' * w' ->
    best_match guide output = Ok idx ->
    nth_error idx i = Some j ->
    (forall k, k < h' * w' ->
       F32.is_nan (similarity (map (@concat _) o) (map (@concat _) g) i k)
       = false) ->
    j < h' * w' /\
    forall k, k < h' * w' ->
      F32.leb (similarity (map (@concat _) o) (map (@concat _) g) i k)
              (similarity (map (@concat _) o) (map (@concat _) g) i j)
      = true.
Proof.
  intros guide output o g c h w h' w' idx i j Ho Hg Hdo Hdg Hc Hm Hb Hi Hnan.
  destruct (best_match_rows guide output o g c h w h' w' idx i j
              Ho Hg Hdo Hdg Hc Hm Hb Hi) as [_ Ha].
  set (sim := similarity (map (@concat _) o) (map (@concat _) g) i) in *.
  destruct (argmax_spec (map sim (seq 0 (h' * w'))))
    as (j' & Hj' & Hlt & Hmax).
  - destruct (h' * w'); [lia|]. discriminate.
  - apply Forall_map, Forall_forall. intros k Hk. apply in_seq in Hk.
    apply Hnan. lia.
  - rewrite Ha in Hj'. injection Hj' as <-.
    rewrite length_map, length_seq in Hlt, Hmax.
    split; [exact Hlt|]. intros k Hk.
    specialize (Hmax k Hk).
    rewrite !nth_map_seq in Hmax by assumption. exact Hmax.
Qed.

Lemma my_grad_fn_matches_most_similar_witness :
  exists idx j,
    best_match feat_unit feat_unit = Ok idx /\
    nth_error idx 1 = Some j /\ j < 2.
Proof.
  exists [0; 1], 1. split; [reflexivity|]. split; [reflexivity|].
  apply (my_grad_fn_matches_most_similar feat_unit feat_unit
           [[[F32.one; F32.zero]]; [[F32.zero; F32.one]]]
           [[[F32.one; F32.zero]]; [[F32.zero; F32.one]]]
           2 1 2 1 2 [0; 1] 1 1); try reflexivity; try (simpl; lia).
  intros k Hk. destruct k as [|[|k]]; [reflexivity | reflexivity | simpl in Hk; lia].
Defined.

(** X21. A NaN similarity wins the match: when the similarities of
    location i with the guide locations contain a NaN, the index chosen
    for i is the position of the first NaN. *)
Theorem my_grad_fn_matches_first_nan :
  forall (guide output : list Tensor) (o g : Tensor) c h w h' w' idx i j p,
    nth_error output 2 = Some o -> nth_error guide 2 = Some g ->
    dims o = block c h w -> dims g = block c h' w' ->
    0 < c -> 0 < h' * w' ->
    best_match guide output = Ok idx ->
    nth_error idx i = Some j ->
    p < h' * w' ->
    F32.is_nan (similarity (map (@concat _) o) (map (@concat _) g) i p)
      = true ->
    (forall k, k < p ->
       F32.is_nan (similarity (map (@concat _) o) (map (@concat _) g) i k)
       = false) ->
    j = p.
Proof.
  intros guide output o g c h w h' w' idx i j p Ho Hg Hdo Hdg Hc Hm Hb Hi
         Hp Hnan Hbefore.
  destruct (best_match_rows guide output o g c h w h' w' idx i j
              Ho Hg Hdo Hdg Hc Hm Hb Hi) as [_ Ha].
  set (sim := similarity (map (@concat _) o) (map (@concat _) g) i) in *.
  rewrite (argmax_nan (map sim (seq 0 (h' * w'))) p) in Ha.
  - injection Ha as <-. reflexivity.
  - rewrite length_map, length_seq. exact Hp.
  - rewrite nth_map_seq by exact Hp. exact Hnan.
  - intros k Hk. rewrite nth_map_seq by lia. apply Hbefore. exact Hk.
Qed.

Lemma my_grad_fn_matches_first_nan_witness :
  exists idx j,
    best_match [[]; []; [[[F32.one; S754_infinity false]]]]
               [[]; []; [[[F32.zero; F32.one]]]] = Ok idx /\
    nth_error idx 0 = Some j /\ j = 1.
Proof.
  exists [1; 1], 1. split; [reflexivity|]. split; [reflexivity|].
  apply (my_grad_fn_matches_first_nan
             [[]; []; [[[F32.one; S754_infinity false]]]]
             [[]; []; [[[F32.zero; F32.one]]]]
             [[[F32.zero; F32.one]]] [[[F32.one; S754_infinity false]]]
             1 1 2 1 2 [1; 1] 0 1 1); try reflexivity; try (simpl; lia).
  intros k Hk. assert (k = 0) by lia. subst k. reflexivity.
Defined.

(* ================================================================== *)
(** ** Further properties: NaN in the loop *)
(* ================================================================== *)

Section NaNs.

Lemma add_nan_l (x : F32.t) : F32.add S754_nan x = S754_nan.
Proof. destruct x; reflexivity. Qed.

Lemma div_nan_r (x : F32.t) : F32.div x S754_nan = S754_nan.
Proof. destruct x; reflexivity. Qed.

Lemma div_nan_l (x : F32.t) : F32.div S754_nan x = S754_nan.
Proof. destruct x; reflexivity. Qed.

Lemma clamp_nan (lo hi : F32.t) : F32.clamp lo hi S754_nan = S754_nan.
Proof. reflexivity. Qed.

Lemma fold_add_from_nan (l : list F32.t) :
  fold_left F32.add l S754_nan = S754_nan.
Proof.
  induction l as [|x l IH]; simpl; [reflexivity|].
  rewrite add_nan_l. exact IH.
Qed.

Lemma fold_add_nan (l : list F32.t) :
  In S754_nan l -> forall acc, fold_left F32.add l acc = S754_nan.
Proof.
  induction l as [|x l IH]; intros Hin acc; [destruct Hin|]. simpl.
  destruct Hin as [-> | Hin].
  - rewrite add_nan_r. apply fold_add_from_nan.
  - apply IH. exact Hin.
Qed.

Lemma In_flatten (t : Tensor) c y x v :
  tget t c y x = Some v -> In v (flatten t).
Proof.
  unfold tget, flatten. intros H.
  destruct (nth_error t c) as [ch|] eqn:Ec; [|discriminate].
  destruct (nth_error ch y) as [row|] eqn:Ey; [|discriminate].
  apply in_concat. exists row. split; [|exact (nth_error_In _ _ H)].
  apply in_concat. exists ch.
  split; [exact (nth_error_In _ _ Ec) | exact (nth_error_In _ _ Ey)].
Qed.

(** One NaN among the gradients makes their mean magnitude NaN. *)
Lemma grad_mean_nan (grad : Tensor) c y x :
  tget grad c y x = Some S754_nan -> grad_mean grad = S754_nan.
Proof.
  intros H. unfold grad_mean, tmean, tsum.
  rewrite (fold_add_nan (flatten (tmap F32.abs grad))).
  - apply div_nan_l.
  - apply (In_flatten _ c y x). rewrite tget_tmap, H. reflexivity.
Qed.

Lemma update_nan_gradient lr (data grad data' : Tensor) c0 y0 x0 c y x v :
  length data = 3 ->
  tget grad c0 y0 x0 = Some S754_nan ->
  update lr data grad = Ok data' ->
  tget data' c y x = Some v ->
  v = S754_nan.
Proof.
  intros Hlen Hnan Hu Hv.
  destruct (tget_update _ _ _ _ _ _ _ _ Hlen Hu Hv) as (u & g & _ & _ & ->).
  rewrite (grad_mean_nan grad c0 y0 x0 Hnan), div_nan_r, add_nan_r.
  apply clamp_nan.
Qed.

Lemma update_keeps_nan lr (data grad data' : Tensor) c y x :
  length data = 3 ->
  update lr data grad = Ok data' ->
  tget data c y x = Some S754_nan ->
  tget data' c y x = Some S754_nan.
Proof.
  intros Hlen Hu Hv.
  pose proof (update_dims _ _ _ _ Hlen Hu) as Hdims.
  destruct (tget_same_dims data data' c y x _ (eq_sym Hdims) Hv) as [v' Hv'].
  destruct (tget_update _ _ _ _ _ _ _ _ Hlen Hu Hv') as (u & g & Eu & _ & E).
  rewrite Hv in Eu. injection Eu as <-.
  rewrite add_nan_l, clamp_nan in E. rewrite Hv', E. reflexivity.
Qed.

End NaNs.

(** X22. NaN is absorbing in the loop: an element of the working image
    that is NaN is still NaN after any number of further iterations. *)
Theorem dream_loop_keeps_nan :
  forall model backward shifts grad_fn learning_rate n
         (data data' : Tensor) w w' c y x,
    length data = 3 ->
    dream_loop model backward shifts n grad_fn learning_rate data w
      = (Ok data', w') ->
    tget data c y x = Some S754_nan ->
    tget data' c y x = Some S754_nan.
Proof.
  intros model backward shifts gf lr n. induction n as [|n IH];
    intros data data' w w' c y x Hlen Hrun Hv; simpl in Hrun.
  - unfold ret in Hrun. injection Hrun as <- _. exact Hv.
  - unfold bind in Hrun.
    destruct (dream_iter _ _ _ _ _ _ _) as [[d1|e] w1] eqn:E; [|discriminate].
    apply dream_iter_inv in E. destruct E as (grad & _ & Hu).
    apply (IH d1 data' w1 w' c y x); [|exact Hrun|].
    + rewrite (dims_length _ _ (update_dims _ _ _ _ Hlen Hu)). exact Hlen.
    + exact (update_keeps_nan _ _ _ _ _ _ _ Hlen Hu Hv).
Qed.

Lemma dream_loop_keeps_nan_witness :
  exists data' w',
    dream_loop id_net id_backward false 2 default_grad_fn lr_default with_nan
               (world0 0) = (Ok data', w') /\
    tget data' 0 0 0 = Some S754_nan.
Proof.
  eexists _, _. split; [vm_compute; reflexivity|].
  eapply (dream_loop_keeps_nan id_net id_backward false default_grad_fn
            lr_default 2 with_nan _ (world0 0) _ 0 0 0);
    [reflexivity | vm_compute; reflexivity | reflexivity].
Defined.

(** X23. One NaN in the gradient spoils the whole image: when an element
    of the gradient of an iteration is NaN, the mean magnitude of the
    gradient is NaN, and after the iteration every element of the working
    image is NaN. *)
Theorem nan_gradient_spoils_image :
  forall model backward shifts grad_fn learning_rate
         (data grad data' : Tensor) w w' c0 y0 x0 c y x v,
    length data = 3 ->
    image_grad model backward shifts grad_fn data w = (Ok grad, w') ->
    tget grad c0 y0 x0 = Some S754_nan ->
    dream_iter model backward shifts grad_fn learning_rate data w
      = (Ok data', w') ->
    tget data' c y x = Some v ->
    v = S754_nan.
Proof.
  intros model backward shifts gf lr data grad data' w w' c0 y0 x0 c y x v
         Hlen Hg Hnan Hrun Hv.
  apply dream_iter_inv in Hrun. destruct Hrun as (grad' & Hg' & Hu).
  rewrite Hg in Hg'. injection Hg' as <-.
  exact (update_nan_gradient _ _ _ _ c0 y0 x0 c y x v Hlen Hnan Hu Hv).
Qed.

Lemma nan_gradient_spoils_image_witness :
  exists data' w' v,
    dream_iter id_net id_backward false default_grad_fn lr_default with_nan
               (world0 0) = (Ok data', w') /\
    tget data' 2 0 1 = Some v /\ v = S754_nan.
Proof.
  eexists _, _, _. split; [vm_compute; reflexivity|].
  split; [reflexivity|].
  eapply (nan_gradient_spoils_image id_net id_backward false default_grad_fn
            lr_default with_nan _ _ (world0 0) _ 0 0 0 2 0 1);
    [reflexivity | vm_compute; reflexivity | reflexivity
    | vm_compute; reflexivity | reflexivity].
Defined.
